(** * tf2onnx.rewriter.lstm_rewriter: the LSTM unit rewriter

    A shallow embedding of [src/tf2onnx/rewriter/lstm_rewriter.py]
    (class [LSTMUnitRewriter]) and the properties of its weight/bias
    transformation, loop-state classifiers, initial-state builder and
    output reconnector.

    Python exceptions are values of [exn]; a computation that can raise
    returns a [res]; methods that read or mutate the graph, the rewriter's
    node lists or the per-match properties record run in the monad [M],
    which threads the [state] through and keeps it when an exception is
    raised (Python does not roll back). Node objects live in a heap and are
    referred to by location, so that [==] on nodes is object identity and an
    in-place update of a node is seen through every list that holds it. *)

From Stdlib Require Import ZArith List Lia.
From Stdlib Require Import DecimalString DecimalNat Ascii.
From stdpp Require Import base option list strings gmap.

Open Scope string_scope.
Open Scope nat_scope.
Open Scope list_scope.

(** ** Exceptions and results *)

Inductive exn : Type :=
| ValueError (msg : string)
| AssertionError
| IndexError
| KeyError (key : string)
| TypeError
| AttributeError.

Inductive res (X : Type) : Type :=
| Ok (x : X)
| Raise (e : exn).
Arguments Ok {X} x.
Arguments Raise {X} e.

Definition res_bind {X Y} (r : res X) (k : X → res Y) : res Y :=
  match r with
  | Ok x => k x
  | Raise e => Raise e
  end.

Notation "'try' x := r 'in' k" := (res_bind r (fun x => k))
  (at level 10, x pattern, r at level 100, k at level 200).

(** The element type of numeric tensors. Arithmetic on tensor elements is
    floating point in numpy; the rewriter only copies elements around, adds
    the forget bias, builds tensors from integer literals and compares
    integer tensors with literals, so the embedding is generic in the
    element type and its operations. *)
Class Scalar (A : Type) := {
  scalar_eq_dec :: EqDecision A;
  add : A → A → A;
  of_Z : Z → A
}.

#[global] Instance Z_Scalar : Scalar Z :=
  {| scalar_eq_dec := Z.eq_dec; add := Z.add; of_Z := fun z => z |}.

(** ** numpy arrays *)

Section Numpy.
Context {A : Type} `{Scalar A}.

(** A 2-d array: its shape and its rows. The shape is kept apart because an
    array with no rows or no columns still has both extents. *)
Record matrix : Type := Matrix {
  nrows : nat;
  ncols : nat;
  rows : list (list A)
}.

Definition wf_matrix (m : matrix) : Prop :=
  length (rows m) = nrows m ∧ Forall (fun r => length r = ncols m) (rows m).

(** An n-d array as numpy stores it: shape and row-major data. *)
Record ndarray : Type := NdArray {
  shape : list nat;
  data : list A
}.

Definition of_matrix (m : matrix) : ndarray :=
  NdArray [nrows m; ncols m] (concat (rows m)).

Definition of_vector (v : list A) : ndarray := NdArray [length v] v.

(** [np.array([a])] and [np.expand_dims(a, axis=0)]: a new leading axis of
    extent 1. *)
Definition np_expand_dims0 (a : ndarray) : ndarray :=
  NdArray (1 :: shape a) (data a).

(** [a[0]] on an array of at least one dimension. *)
Definition ndarray_get0 (a : ndarray) : res ndarray :=
  match shape a with
  | [] => Raise IndexError
  | n :: sh =>
      if decide (n = 0) then Raise IndexError
      else Ok (NdArray sh (take (foldr Nat.mul 1 sh) (data a)))
  end.

Fixpoint chunks (r c : nat) (l : list A) : list (list A) :=
  match r with
  | 0 => []
  | S r' => take c l :: chunks r' c (drop c l)
  end.

(** Reading a 2-d [ndarray] as rows. *)
Definition to_matrix (a : ndarray) : res matrix :=
  match shape a with
  | [r; c] => Ok (Matrix r c (chunks r c (data a)))
  | _ => Raise (ValueError "not a 2-d array")
  end.

(** [np.reshape(v, (1, n))] of a 1-d array of length [n]. *)
Definition np_reshape_row (v : list A) : matrix := Matrix 1 (length v) [v].

(** [np.split(m, 4, axis=1)]: four column blocks of equal width; numpy
    raises ValueError when the column count is not a multiple of 4. *)
Definition col_block (m : matrix) (w i : nat) : matrix :=
  Matrix (nrows m) w (map (fun r => take w (drop (i * w) r)) (rows m)).

Definition np_split4_axis1 (m : matrix) : res (matrix * matrix * matrix * matrix) :=
  if decide (ncols m mod 4 = 0) then
    let w := ncols m / 4 in
    Ok (col_block m w 0, col_block m w 1, col_block m w 2, col_block m w 3)
  else Raise (ValueError "array split does not result in an equal division").

(** [np.concatenate(ms, axis=1)]: all arrays must have the same number of
    rows. *)
Definition hstack (a b : matrix) : matrix :=
  Matrix (nrows a) (ncols a + ncols b) (zip_with app (rows a) (rows b)).

Fixpoint np_concatenate_axis1 (ms : list matrix) : res matrix :=
  match ms with
  | [] => Raise (ValueError "need at least one array to concatenate")
  | [m] => Ok m
  | m :: ms' =>
      try r := np_concatenate_axis1 ms' in
      if decide (nrows m = nrows r) then Ok (hstack m r)
      else Raise (ValueError "all the input array dimensions must match")
  end.

(** [np.concatenate((a, b), axis=0)]. *)
Definition np_concatenate_axis0 (a b : matrix) : res matrix :=
  if decide (ncols a = ncols b)
  then Ok (Matrix (nrows a + nrows b) (ncols a) (rows a ++ rows b))
  else Raise (ValueError "all the input array dimensions must match").

(** [np.add(m, x)] with a scalar [x]. *)
Definition np_add_scalar (m : matrix) (x : A) : matrix :=
  Matrix (nrows m) (ncols m) (map (map (fun a => add a x)) (rows m)).

(** [np.zeros((1, n))]. *)
Definition np_zeros_row (n : nat) : matrix := Matrix 1 n [replicate n (of_Z 0)].

(** A Python slice bound [i] on a sequence of length [n]. *)
Definition py_index (i : Z) (n : nat) : nat :=
  if (i <? 0)%Z then Z.to_nat (Z.max 0 (Z.of_nat n + i))
  else Nat.min (Z.to_nat i) n.

(** [np.split(m, [i])] along axis 0: [m[0:i]] and [m[i:]]. *)
Definition np_split_axis0_at (m : matrix) (i : Z) : matrix * matrix :=
  let k := py_index i (nrows m) in
  (Matrix k (ncols m) (take k (rows m)),
   Matrix (nrows m - k) (ncols m) (drop k (rows m))).

(** [np.transpose(m)]. *)
Definition column (j : nat) (rs : list (list A)) : list A :=
  omap (fun r => r !! j) rs.

Definition np_transpose (m : matrix) : matrix :=
  Matrix (ncols m) (nrows m) (map (fun j => column j (rows m)) (seq 0 (ncols m))).

(** ** process_weights_and_bias, lines 183-218: the arrays

    [kernel] is [rnn_weights.kernel.value], [bias] is
    [rnn_weights.bias.value] (1-d) and [ft] is
    [rnn_weights.forget_bias.value] (1-d). [int(bias_dim/4)] is the
    truncated quotient. Element types ([w_dtype], [b_dtype]) are those of
    the values themselves and are not modelled; the assertion of line 205
    compares [wx.shape[0]] with itself and is left out. The result is
    [(W, R, B, input_size, hidden_size)]. *)
Definition process_weights_and_bias_arrays
    (kernel : matrix) (bias ft : list A)
  : res (ndarray * ndarray * ndarray * nat * nat) :=
  let w_r_icfo := kernel in
  let bias_dim := length bias in
  let hidden_size := bias_dim / 4 in
  let b_r_icfo := np_reshape_row bias in
  try (bg0, bg1, bg2, bg3) := np_split4_axis1 b_r_icfo in
  try ft0 := match ft with x :: _ => Ok x | [] => Raise IndexError end in
  let ft_bias := np_add_scalar bg2 ft0 in
  try wb_bias_iofc := np_concatenate_axis1 [bg0; bg3; ft_bias; bg1] in
  let rb_bias_iofc := np_zeros_row bias_dim in
  try B := np_concatenate_axis1 [wb_bias_iofc; rb_bias_iofc] in
  if negb (bool_decide (nrows B = 1 ∧ ncols B = 2 * bias_dim)) then Raise AssertionError else
  let '(wx, wh) := np_split_axis0_at w_r_icfo (- Z.of_nat hidden_size) in
  let input_size := nrows wx in
  if negb (bool_decide (ncols wx / 4 = hidden_size)) then Raise AssertionError else
  try (wg0, wg1, wg2, wg3) := np_split4_axis1 wx in
  try new_wx := np_concatenate_axis1 [wg0; wg3; wg2; wg1] in
  try (hg0, hg1, hg2, hg3) := np_split4_axis1 wh in
  try new_wh := np_concatenate_axis1 [hg0; hg3; hg2; hg1] in
  let W_iofc := np_transpose new_wx in
  let R_iofc := np_transpose new_wh in
  let W := np_expand_dims0 (of_matrix W_iofc) in
  let R := np_expand_dims0 (of_matrix R_iofc) in
  Ok (W, R, of_matrix B, input_size, hidden_size).

End Numpy.

Arguments matrix A : clear implicits.
Arguments ndarray A : clear implicits.

(** ** Nodes, the graph and the rewriter's state *)

Definition loc := nat.

Inductive attr_value : Type :=
| AInt (z : Z)
| AInts (l : list Z)
| AStr (s : string).

Definition string_of_nat (n : nat) : string :=
  NilEmpty.string_of_uint (Nat.to_uint n).

Section Rewriter.
Context {A : Type} `{Scalar A}.

(** A node object: [input] and [output] are tensor ids, [tensor_value] is
    the payload of a constant. *)
Record Node : Type := mkNode {
  name : string;
  type : string;
  input : list string;
  output : list string;
  attr : list (string * attr_value);
  dtype : Z;
  tensor_value : option (ndarray A)
}.

(** The per-match properties record ([rnn_props] in the source), one
    mutable object passed by reference to every method. *)
Record RnnProps : Type := mkRnnProps {
  x_input_id : string;
  time_major : bool;
  input_size : nat;
  hidden_size : nat;
  var_initializers : gmap string string;
  onnx_input_ids : gmap string string;
  batch_size_node : option loc
}.

(** The values of the three weight constants ([RnnWeights] of the missing
    [unit_rewriter_base], section 3 of the spec), without their element
    types. *)
Record RnnWeights : Type := mkRnnWeights {
  kernel : matrix A;
  bias : list A;
  forget_bias : list A
}.

(** [heap]: every node object constructed for the graph [self.g], by
    location; [g_nodes]: the list [self.g.get_nodes()]; [g_shapes]: the
    graph's shape table; [all_nodes], [must_keep_nodes]: the rewriter's
    lists; [INTERNAL_NAME]: the counter behind [utils.make_name]. *)
Record state : Type := mkState {
  heap : list Node;
  g_nodes : list loc;
  g_shapes : gmap string (list Z);
  all_nodes : list loc;
  must_keep_nodes : list loc;
  INTERNAL_NAME : nat;
  rnn_props : RnnProps
}.

Definition set_heap (h : list Node) (s : state) : state :=
  mkState h (g_nodes s) (g_shapes s) (all_nodes s) (must_keep_nodes s)
          (INTERNAL_NAME s) (rnn_props s).
Definition set_g_shapes (sh : gmap string (list Z)) (s : state) : state :=
  mkState (heap s) (g_nodes s) sh (all_nodes s) (must_keep_nodes s)
          (INTERNAL_NAME s) (rnn_props s).
Definition set_all_nodes (l : list loc) (s : state) : state :=
  mkState (heap s) (g_nodes s) (g_shapes s) l (must_keep_nodes s)
          (INTERNAL_NAME s) (rnn_props s).
Definition set_must_keep_nodes (l : list loc) (s : state) : state :=
  mkState (heap s) (g_nodes s) (g_shapes s) (all_nodes s) l
          (INTERNAL_NAME s) (rnn_props s).
Definition set_INTERNAL_NAME (n : nat) (s : state) : state :=
  mkState (heap s) (g_nodes s) (g_shapes s) (all_nodes s) (must_keep_nodes s)
          n (rnn_props s).
Definition set_rnn_props (p : RnnProps) (s : state) : state :=
  mkState (heap s) (g_nodes s) (g_shapes s) (all_nodes s) (must_keep_nodes s)
          (INTERNAL_NAME s) p.

Definition set_input_size (n : nat) (p : RnnProps) : RnnProps :=
  mkRnnProps (x_input_id p) (time_major p) n (hidden_size p)
             (var_initializers p) (onnx_input_ids p) (batch_size_node p).
Definition set_hidden_size (n : nat) (p : RnnProps) : RnnProps :=
  mkRnnProps (x_input_id p) (time_major p) (input_size p) n
             (var_initializers p) (onnx_input_ids p) (batch_size_node p).
Definition set_onnx_input_id (k v : string) (p : RnnProps) : RnnProps :=
  mkRnnProps (x_input_id p) (time_major p) (input_size p) (hidden_size p)
             (var_initializers p) (<[k:=v]> (onnx_input_ids p)) (batch_size_node p).

Definition set_input (i : list string) (n : Node) : Node :=
  mkNode (name n) (type n) i (output n) (attr n) (dtype n) (tensor_value n).

(** ** The state and exception monad *)

Definition M (X : Type) : Type := state → res X * state.

Definition ret {X} (x : X) : M X := fun s => (Ok x, s).
Definition bind {X Y} (m : M X) (k : X → M Y) : M Y :=
  fun s => match m s with
           | (Ok x, s') => k x s'
           | (Raise e, s') => (Raise e, s')
           end.
Definition raise {X} (e : exn) : M X := fun s => (Raise e, s).
Definition reads {X} (f : state → res X) : M X := fun s => (f s, s).
Definition modify (f : state → state) : M unit := fun s => (Ok tt, f s).

Notation "'let*' x := m 'in' k" := (bind m (fun x => k))
  (at level 10, x pattern, m at level 100, k at level 200).

(** ** Python lists and sequences *)

Definition py_nth {X} (l : list X) (i : nat) : res X :=
  match l !! i with
  | Some x => Ok x
  | None => Raise IndexError
  end.

(** A list comprehension [[c for c in l if p(c)]] whose condition can
    raise. *)
Fixpoint filter_res {X} (p : X → res bool) (l : list X) : res (list X) :=
  match l with
  | [] => Ok []
  | x :: l' =>
      try b := p x in
      try r := filter_res p l' in
      Ok (if b then x :: r else r)
  end.

(** [l.remove(x)]: drops the first occurrence, ValueError when there is
    none. *)
Fixpoint list_remove (x : loc) (l : list loc) : res (list loc) :=
  match l with
  | [] => Raise (ValueError "list.remove(x): x not in list")
  | y :: l' =>
      if decide (y = x) then Ok l'
      else try r := list_remove x l' in Ok (y :: r)
  end.

(** ** The graph model *)

(** A node object by location; a location outside the heap stands for
    [None], on which every attribute access raises. *)
Definition node_at (s : state) (l : loc) : res Node :=
  match heap s !! l with
  | Some n => Ok n
  | None => Raise AttributeError
  end.

Definition output_at (s : state) (l : loc) (i : nat) : res string :=
  try n := node_at s l in py_nth (output n) i.

Definition node_has_id (id : string) (n : Node) : bool :=
  bool_decide (name n = id) || bool_decide (id ∈ output n).

(** Modelled from the spec: [Graph.get_node_by_name] is missing from the
    sources; "node/tensor lookup by id" (section 6): the node of that name,
    or the node producing that tensor; [None] when there is none. *)
Definition get_node_by_name (s : state) (id : string) : option loc :=
  fst <$> list_find (node_has_id id) (heap s).

(** [g.get_node_by_name(id)] followed by an attribute access. *)
Definition node_by_name (s : state) (id : string) : res (loc * Node) :=
  match get_node_by_name s id with
  | Some l => try n := node_at s l in Ok (l, n)
  | None => Raise AttributeError
  end.

(** Modelled from the spec: [Node.is_const] is missing from the sources;
    "a resolvable constant" (section 4.4). *)
Definition is_const (n : Node) : bool := bool_decide (type n = "Const").

(** Modelled from the spec: [Node.get_tensor_value] is missing from the
    sources; "constant-value decoding" (section 6), refused on a node that
    is no constant. *)
Definition get_tensor_value (n : Node) : res (ndarray A) :=
  if is_const n then
    match tensor_value n with
    | Some v => Ok v
    | None => Raise (ValueError "get tensor value: no value")
    end
  else Raise (ValueError "get tensor value: must be Const").

(** [n.inputs[i]]: the node producing the i-th input. *)
Definition inputs_at (s : state) (n : Node) (i : nat) : res Node :=
  try id := py_nth (input n) i in
  try ln := node_by_name s id in Ok (snd ln).

(** Modelled from the spec: [Graph.find_output_consumers] is missing from
    the sources; "consumer-set lookup for a tensor" (section 6): the nodes
    of the graph's node list that have the tensor among their inputs. *)
Definition consumes (s : state) (id : string) (l : loc) : bool :=
  match heap s !! l with
  | Some n => bool_decide (id ∈ input n)
  | None => false
  end.

Definition find_output_consumers (s : state) (id : string) : list loc :=
  filter (fun l => consumes s id l = true) (g_nodes s).

(** Modelled from the spec: [Graph.get_shape] and [Graph.set_shape] are
    missing from the sources; "shape get/set/copy" (section 6). An unknown
    shape is [None], which cannot be indexed. *)
Definition get_shape (s : state) (id : string) : res (list Z) :=
  match g_shapes s !! id with
  | Some sh => Ok sh
  | None => Raise TypeError
  end.

Definition set_shape (id : string) (sh : list Z) : M unit :=
  modify (fun s => set_g_shapes (<[id:=sh]> (g_shapes s)) s).

(** Modelled from the spec: [utils.make_name] is missing from the sources;
    node identities are unique (section 3), which a counter appended to the
    base name provides. *)
Definition fresh_name (base : string) (n : nat) : string :=
  base +:+ "__" +:+ string_of_nat n.

Definition make_name (base : string) : M string :=
  fun s =>
    let n := S (INTERNAL_NAME s) in
    (Ok (fresh_name base n), set_INTERNAL_NAME n s).

Definition alloc (n : Node) : M loc :=
  fun s => (Ok (length (heap s)), set_heap (heap s ++ [n]) s).

Definition output_names (node_name : string) (output_count : nat) : list string :=
  map (fun i => node_name +:+ ":" +:+ string_of_nat i) (seq 0 output_count).

(** Modelled from the spec: [make_onnx_node] (of the missing
    [unit_rewriter_base]) is "node construction from operator-type + inputs
    + attributes" (section 6): a node under a fresh name whose outputs are
    its name and slot index. The node is bound to the graph but is not put
    on the graph's node list: the rewriter appends it to [all_nodes]
    itself. *)
Definition make_onnx_node (op_type : string) (inputs : list string)
    (attrs : list (string * attr_value)) (output_count : nat) : M loc :=
  let* node_name := make_name op_type in
  alloc (mkNode node_name op_type inputs (output_names node_name output_count)
                attrs 0 None).

(** Modelled from the spec: [Graph.make_const] is missing from the sources;
    it emits a constant node of the given name and value (section 4.3). *)
Definition make_const (node_name : string) (val : ndarray A) : M loc :=
  alloc (mkNode node_name "Const" [] (output_names node_name 1) [] 0 (Some val)).

(** Modelled from the spec: [Graph.replace_all_inputs] is missing from the
    sources; "every reference to the old tensor id across all retained
    nodes is rewritten to the new tensor id" (section 4.8). It updates the
    node objects of [ops] in place. *)
Definition replace_input (old new : string) (n : Node) : Node :=
  set_input (map (fun i => if decide (i = old) then new else i) (input n)) n.

Definition replace_all_inputs (ops : list loc) (old new : string) : M unit :=
  modify (fun s =>
    set_heap (foldl (fun h l => alter (replace_input old new) l h) (heap s) ops) s).

Definition extend_all_nodes (l : list loc) : M unit :=
  modify (fun s => set_all_nodes (all_nodes s ++ l) s).

Definition append_must_keep (l : loc) : M unit :=
  modify (fun s => set_must_keep_nodes (must_keep_nodes s ++ [l]) s).

(** Modelled from the spec: the pattern matcher's Match is missing from the
    sources; a "mapping from pattern-role name to the Node bound to that
    role"; "absence of a required role aborts the rewrite" (section 3). *)
Definition get_op (match_ : gmap string loc) (role : string) : res loc :=
  match match_ !! role with
  | Some l => Ok l
  | None => Raise (KeyError role)
  end.

(** The two external tables the rewriter consults:
    [check_is_timemajor_transpose] (of the missing [unit_rewriter_base])
    reads a node and the nodes producing its inputs;
    [utils.ONNX_TO_NUMPY_DTYPE] maps an element type code to a numpy
    type. *)
Variable check_is_timemajor_transpose : list Node → loc → bool.
Variable ONNX_TO_NUMPY_DTYPE : Z → option string.

(** ** Loop-state classifiers *)

(** [_ht_switch_check], lines 83-90. [identity_consumers] are node objects,
    compared with [==] (identity) against the node bound to role "xh". *)
Definition _ht_switch_check (enter_target_node_input_id : string)
    (identity_consumers : list loc) (match_ : gmap string loc)
  : res (option string) :=
  try concat_nodes :=
    filter_res (fun c => try xh := get_op match_ "xh" in Ok (bool_decide (c = xh)))
               identity_consumers in
  if decide (length concat_nodes = 1) then Ok (Some enter_target_node_input_id)
  else Ok None.

(** The elements of a 1-d array ([list(a)], [a[i]]); the begin and size
    operands of a Slice are 1-d, other ranks are outside the model. *)
Definition vector_of (a : ndarray A) : res (list A) :=
  match shape a with
  | [_] => Ok (data a)
  | _ => Raise TypeError
  end.

(** The body of the loop of [_ct_ht_shared_switch_check], lines 102-113,
    on the loop's variables [(c_slice, h_slice, hidden_size)]. *)
Definition shared_switch_step (s : state)
    (acc : option loc * option loc * option A) (sl : loc)
  : res (option loc * option loc * option A) :=
  let '(c_slice, h_slice, hidden_size) := acc in
  try out0 := output_at s sl 0 in
  let slice_consumers := find_output_consumers s out0 in
  if negb (bool_decide (length slice_consumers = 1)) then Ok acc else
  try n := node_at s sl in
  try begin_node := inputs_at s n 1 in
  try s_begin := get_tensor_value begin_node in
  try size_node := inputs_at s n 2 in
  try s_size := get_tensor_value size_node in
  try size_l := vector_of s_size in
  try hidden_size := py_nth size_l 1 in
  try begin_l := vector_of s_begin in
  if decide (begin_l = [of_Z 0; of_Z 0]) then Ok (Some sl, h_slice, Some hidden_size)
  else if decide (begin_l = [of_Z 0; hidden_size]) then Ok (c_slice, Some sl, Some hidden_size)
  else Ok (c_slice, h_slice, Some hidden_size).

Fixpoint shared_switch_loop (s : state)
    (acc : option loc * option loc * option A) (slices : list loc)
  : res (option loc * option loc * option A) :=
  match slices with
  | [] => Ok acc
  | sl :: rest =>
      try acc' := shared_switch_step s acc sl in
      shared_switch_loop s acc' rest
  end.

Definition has_type (s : state) (t : string) (c : loc) : res bool :=
  try n := node_at s c in Ok (bool_decide (type n = t)).

(** [_ct_ht_shared_switch_check], lines 93-118. *)
Definition _ct_ht_shared_switch_check (s : state)
    (enter_target_node_input_id : string) (identity_consumers : list loc)
    (match_ : gmap string loc) : res (option string) :=
  try slices := filter_res (has_type s "Slice") identity_consumers in
  match slices with
  | [] => Ok None
  | _ =>
      try acc := shared_switch_loop s (None, None, None) slices in
      match acc with
      | (Some c_slice, Some h_slice, _) => Ok (Some enter_target_node_input_id)
      | _ => Ok None
      end
  end.

(** ** process_weights_and_bias, lines 182-235 *)
Definition process_weights_and_bias (rnn_weights : RnnWeights) : M (nat * nat) :=
  let* r := reads (fun _ =>
      process_weights_and_bias_arrays (kernel rnn_weights) (bias rnn_weights)
                                      (forget_bias rnn_weights)) in
  let '(W, R, B, input_size, hidden_size) := r in
  let* w_name := make_name "W" in
  let* w_node := make_const w_name W in
  let* r_name := make_name "R" in
  let* r_node := make_const r_name R in
  let* b_name := make_name "B" in
  let* b_node := make_const b_name B in
  let* _ := modify (fun s => set_rnn_props (set_input_size input_size (rnn_props s)) s) in
  let* _ := modify (fun s => set_rnn_props (set_hidden_size hidden_size (rnn_props s)) s) in
  let* w_out := reads (fun s => output_at s w_node 0) in
  let* _ := modify (fun s => set_rnn_props (set_onnx_input_id "W" w_out (rnn_props s)) s) in
  let* r_out := reads (fun s => output_at s r_node 0) in
  let* _ := modify (fun s => set_rnn_props (set_onnx_input_id "R" r_out (rnn_props s)) s) in
  let* b_out := reads (fun s => output_at s b_node 0) in
  let* _ := modify (fun s => set_rnn_props (set_onnx_input_id "B" b_out (rnn_props s)) s) in
  ret (input_size, hidden_size).

(** ** Initial-state builder *)

(** [_workaround_fill_ch_init_node], lines 299-323; [None] when the
    initializer is no Fill. *)
Definition _workaround_fill_ch_init_node (initializer_input_id : string)
  : M (option loc) :=
  let* ln := reads (fun s => node_by_name s initializer_input_id) in
  let '(node, n) := ln in
  if negb (bool_decide (type n = "Fill")) then ret None else
  let* kept := reads (fun s => list_remove node (must_keep_nodes s)) in
  let* _ := modify (set_must_keep_nodes kept) in
  let* value_node := reads (fun s => inputs_at s n 1) in
  let* value := reads (fun _ => get_tensor_value value_node) in
  let* fill_val := reads (fun _ => ndarray_get0 value) in
  let* value_node' := reads (fun s => inputs_at s n 1) in
  let* fill_val_dtype := reads (fun _ =>
      match ONNX_TO_NUMPY_DTYPE (dtype value_node') with
      | Some t => Ok t
      | None => Raise (KeyError "ONNX_TO_NUMPY_DTYPE")
      end) in
  let* nd_name := make_name "Const" in
  let* num_direction_node := make_const nd_name (of_vector [of_Z 1]) in
  let* hs := reads (fun s => Ok (hidden_size (rnn_props s))) in
  let* h_name := make_name "Const" in
  let* h_node := make_const h_name (of_vector [of_Z (Z.of_nat hs)]) in
  let* b_opt := reads (fun s => Ok (batch_size_node (rnn_props s))) in
  let* nd_out := reads (fun s => output_at s num_direction_node 0) in
  let* b_out := reads (fun s =>
      match b_opt with
      | Some b_node => output_at s b_node 0
      | None => Raise AttributeError
      end) in
  let* h_out := reads (fun s => output_at s h_node 0) in
  let* tile_shape := make_onnx_node "Concat" [nd_out; b_out; h_out] [("axis", AInt 0)] 1 in
  let* ts_out := reads (fun s => output_at s tile_shape 0) in
  let* tile_shape_int64 := make_onnx_node "Cast" [ts_out] [("to", AInt 7)] 1 in
  let* c_name := make_name "Const" in
  let* const_node :=
    make_const c_name (NdArray (1 :: 1 :: 1 :: shape fill_val) (data fill_val)) in
  let* c_out := reads (fun s => output_at s const_node 0) in
  let* ts64_out := reads (fun s => output_at s tile_shape_int64 0) in
  let* tile_node := make_onnx_node "Tile" [c_out; ts64_out] [] 1 in
  let* _ := extend_all_nodes [tile_shape; tile_shape_int64; tile_node] in
  ret (Some tile_node).

Definition var_initializer (key : string) : M string :=
  reads (fun s =>
    match var_initializers (rnn_props s) !! key with
    | Some id => Ok id
    | None => Raise (KeyError key)
    end).

(** [_process_non_tuple_ch_init_nodes], lines 251-270. *)
Definition _process_non_tuple_ch_init_nodes : M (string * string) :=
  let* input_id := var_initializer "ct_ht" in
  let* hs := reads (fun s => Ok (Z.of_nat (hidden_size (rnn_props s)))) in
  let* fill_ch_init_node := _workaround_fill_ch_init_node input_id in
  match fill_ch_init_node with
  | Some fill =>
      let* o1 := reads (fun s => output_at s fill 0) in
      let* o2 := reads (fun s => output_at s fill 0) in
      ret (o1, o2)
  | None =>
      let* slice_node1 := make_onnx_node "Slice" [input_id]
          [("axes", AInts [1]); ("starts", AInts [0]); ("ends", AInts [hs])]%Z 1 in
      let* s1_out := reads (fun s => output_at s slice_node1 0) in
      let* unsqueeze_node_1 := make_onnx_node "Unsqueeze" [s1_out] [("axes", AInts [0%Z])] 1 in
      let* slice_node2 := make_onnx_node "Slice" [input_id]
          [("axes", AInts [1]); ("starts", AInts [hs]); ("ends", AInts [hs * 2])]%Z 1 in
      let* s2_out := reads (fun s => output_at s slice_node2 0) in
      let* unsqueeze_node_2 := make_onnx_node "Unsqueeze" [s2_out] [("axes", AInts [0%Z])] 1 in
      let* _ := extend_all_nodes [slice_node1; slice_node2; unsqueeze_node_1; unsqueeze_node_2] in
      let* ln := reads (fun s => node_by_name s input_id) in
      let* _ := append_must_keep (fst ln) in
      let* u1_out := reads (fun s => output_at s unsqueeze_node_1 0) in
      let* u2_out := reads (fun s => output_at s unsqueeze_node_2 0) in
      ret (u1_out, u2_out)
  end.

(** [_process_c_or_h_init_nodes], lines 279-297. *)
Definition _process_c_or_h_init_nodes (initializer_input_id : string) : M string :=
  let* fill_ch_init_node := _workaround_fill_ch_init_node initializer_input_id in
  match fill_ch_init_node with
  | Some fill => reads (fun s => output_at s fill 0)
  | None =>
      let* ln := reads (fun s => node_by_name s initializer_input_id) in
      let '(node, n) := ln in
      let* _ := append_must_keep node in
      if is_const n then
        let* val := reads (fun _ => get_tensor_value n) in
        let* initial_name := make_name "Const" in
        let new_val := np_expand_dims0 val in
        let* const_node := make_const initial_name new_val in
        reads (fun s => output_at s const_node 0)
      else
        let* squeeze_node :=
          make_onnx_node "Unsqueeze" [initializer_input_id] [("axes", AInts [0%Z])] 1 in
        let* sq_out := reads (fun s => output_at s squeeze_node 0) in
        let* ops := reads (fun s => Ok (g_nodes s)) in
        let* _ := replace_all_inputs ops initializer_input_id sq_out in
        let* _ := extend_all_nodes [squeeze_node] in
        reads (fun s => output_at s squeeze_node 0)
  end.

(** [_process_tuple_ch_init_nodes], lines 272-277. *)
Definition _process_tuple_ch_init_nodes : M (string * string) :=
  let* h_init_input_id := var_initializer "ht" in
  let* c_init_input_id := var_initializer "ct" in
  let* h_node_output := _process_c_or_h_init_nodes h_init_input_id in
  let* c_node_output := _process_c_or_h_init_nodes c_init_input_id in
  ret (h_node_output, c_node_output).

Definition no_initializers : exn := ValueError "no initializers, unexpected".

Definition has_key (key : string) (m : gmap string string) : bool :=
  bool_decide (is_Some (m !! key)).

(** [process_var_init_nodes], lines 237-248. A tensor id is truthy when it
    is not the empty string. *)
Definition process_var_init_nodes : M unit :=
  let* vi := reads (fun s => Ok (var_initializers (rnn_props s))) in
  let* ids :=
    if has_key "ct_ht" vi then _process_non_tuple_ch_init_nodes
    else if has_key "ct" vi && has_key "ht" vi then _process_tuple_ch_init_nodes
    else raise no_initializers in
  let '(init_h_id, init_c_id) := ids in
  if negb (negb (bool_decide (init_h_id = "")) && negb (bool_decide (init_c_id = "")))
  then raise AssertionError else
  let* _ := modify (fun s => set_rnn_props (set_onnx_input_id "initial_h" init_h_id (rnn_props s)) s) in
  modify (fun s => set_rnn_props (set_onnx_input_id "initial_c" init_c_id (rnn_props s)) s).

(** ** Output reconnector *)

(** The loop of [_validate_output_exit_consumers], lines 459-468, on the
    operator types of the consumers; [None] stands for both the early
    [return None] and a final [gather_node] that is still [None]. *)
Fixpoint validate_loop (s : state) (gather_node : option loc) (ns : list loc)
  : res (option loc) :=
  match ns with
  | [] => Ok gather_node
  | n :: rest =>
      try nd := node_at s n in
      if bool_decide (type nd = "TensorArrayGatherV3") then validate_loop s (Some n) rest
      else if bool_decide (type nd = "TensorArraySizeV3") then validate_loop s gather_node rest
      else Ok None
  end.

(** [_validate_output_exit_consumers], lines 455-468. *)
Definition _validate_output_exit_consumers (s : state) (exit_consumers : list loc)
  : res (option loc) :=
  if negb (bool_decide (length exit_consumers = 2)) then Ok None
  else validate_loop s None exit_consumers.

Definition exit_check_failed : exn := ValueError "lstm output exit node check failed".
Definition no_transpose_after_gather : exn :=
  ValueError "batch major should expect a transpose after gather".

(** [_connect_lstm_output_to_graph], lines 416-453. *)
Definition _connect_lstm_output_to_graph (lstm_node exit_node : loc) : M unit :=
  let* exit_out := reads (fun s => output_at s exit_node 0) in
  let* exit_consumers := reads (fun s => Ok (find_output_consumers s exit_out)) in
  let* gather_opt := reads (fun s => _validate_output_exit_consumers s exit_consumers) in
  match (if negb (bool_decide (length exit_consumers = 2)) then None else gather_opt) with
  | None => raise exit_check_failed
  | Some gather_node =>
      let* gather_output_id := reads (fun s => output_at s gather_node 0) in
      let* output_id := reads (fun s => output_at s lstm_node 0) in
      let* squeeze_node := make_onnx_node "Squeeze" [output_id] [("axes", AInts [1%Z])] 1 in
      let* lstm_output_shape := reads (fun s => get_shape s output_id) in
      let* sq_out := reads (fun s => output_at s squeeze_node 0) in
      let* d0 := reads (fun _ => py_nth lstm_output_shape 0) in
      let* d2 := reads (fun _ => py_nth lstm_output_shape 2) in
      let* d3 := reads (fun _ => py_nth lstm_output_shape 3) in
      let* _ := set_shape sq_out [d0; d2; d3] in
      let* tm := reads (fun s => Ok (time_major (rnn_props s))) in
      let* _ :=
        if negb tm then
          let* gather_consumers := reads (fun s => Ok (find_output_consumers s gather_output_id)) in
          let* gather_trans_consumers := reads (fun s =>
              Ok (filter (fun n => check_is_timemajor_transpose (heap s) n = true)
                         gather_consumers)) in
          match gather_trans_consumers with
          | [trans] =>
              let* sq_out' := reads (fun s => output_at s squeeze_node 0) in
              let* new_trans := make_onnx_node "Transpose" [sq_out']
                                  [("perm", AInts [1; 0; 2]%Z)] 1 in
              let* trans_input_shape := reads (fun s => get_shape s sq_out') in
              let* ops := reads (fun s => Ok (all_nodes s)) in
              let* trans_out := reads (fun s => output_at s trans 0) in
              let* new_trans_out := reads (fun s => output_at s new_trans 0) in
              let* _ := replace_all_inputs ops trans_out new_trans_out in
              let* t1 := reads (fun _ => py_nth trans_input_shape 1) in
              let* t0 := reads (fun _ => py_nth trans_input_shape 0) in
              let* t2 := reads (fun _ => py_nth trans_input_shape 2) in
              let* _ := set_shape new_trans_out [t1; t0; t2] in
              extend_all_nodes [new_trans]
          | _ => raise no_transpose_after_gather
          end
        else ret tt in
      let* ops := reads (fun s => Ok (all_nodes s)) in
      let* sq_out'' := reads (fun s => output_at s squeeze_node 0) in
      let* _ := replace_all_inputs ops gather_output_id sq_out'' in
      extend_all_nodes [squeeze_node]
  end.

(** ** The remaining methods of the rewriter *)

(** Modelled from the spec: [Graph.copy_shape] is missing from the
    sources; "shape get/set/copy" (section 6): the target gets the shape
    of the source; a source of unknown shape leaves the table as it is. *)
Definition copy_shape (src dst : string) : M unit :=
  fun s =>
    match g_shapes s !! src with
    | Some sh => set_shape dst sh s
    | None => (Ok tt, s)
    end.

(** [n.inputs]: the nodes producing the inputs of a node, [None] where
    there is none. *)
Definition inputs_of (s : state) (n : Node) : list (option loc) :=
  map (get_node_by_name s) (input n).

(** [_ct_switch_check], lines 71-81. The role "ft" is looked up for the
    Mul consumers only ([and] evaluates its right operand when the left one
    holds). *)
Definition _ct_switch_check (s : state) (enter_target_node_input_id : string)
    (identity_consumers : list loc) (match_ : gmap string loc)
  : res (option string) :=
  try mul_nodes :=
    filter_res (fun c =>
        try n := node_at s c in
        if bool_decide (type n = "Mul") then
          try ft := get_op match_ "ft" in
          Ok (bool_decide (Some ft ∈ inputs_of s n))
        else Ok false)
      identity_consumers in
  if decide (length mul_nodes = 1) then Ok (Some enter_target_node_input_id)
  else Ok None.

(** [_output_switch_check], lines 120-130. *)
Definition _output_switch_check (s : state) (enter_target_node_input_id : string)
    (identity_consumers : list loc) (match_ : gmap string loc)
  : res (option string) :=
  try ta_write_nodes := filter_res (has_type s "TensorArrayWriteV3") identity_consumers in
  if decide (length ta_write_nodes = 1) then
    try enter_target_node := node_by_name s enter_target_node_input_id in
    if bool_decide (type (snd enter_target_node) = "TensorArrayV3")
    then Ok (Some enter_target_node_input_id)
    else Ok None
  else Ok None.

(** [str.split(sep)] for a separator of one character, [sep.join(parts)]
    and the slice [l[i:j]]. *)
Fixpoint py_split (sep : ascii) (s : string) : list string :=
  match s with
  | EmptyString => [EmptyString]
  | String a s' =>
      if decide (a = sep) then EmptyString :: py_split sep s'
      else match py_split sep s' with
           | p :: ps => String a p :: ps
           | [] => [String a EmptyString]
           end
  end.

Fixpoint py_join (sep : string) (parts : list string) : string :=
  match parts with
  | [] => EmptyString
  | [p] => p
  | p :: rest => p +:+ sep +:+ py_join sep rest
  end.

Definition py_slice {X} (l : list X) (i j : Z) : list X :=
  let a := py_index i (length l) in
  let b := py_index j (length l) in
  take (b - a) (drop a l).

(** [get_rnn_scope_name], lines 31-39. *)
Definition get_rnn_scope_name (s : state) (match_ : gmap string loc) : res string :=
  try h_node := get_op match_ "ht" in
  try n := node_at s h_node in
  let parts := py_split "/"%char (name n) in
  let rnn_scope_name := py_join "/" (py_slice parts 0 (-3)) in
  Ok rnn_scope_name.

(** [_convert_timemajor_transpose], lines 168-180; [None] when the node is
    no time-major transpose. *)
Definition _convert_timemajor_transpose (node : loc) : M (option loc) :=
  let* is_tm := reads (fun s => Ok (check_is_timemajor_transpose (heap s) node)) in
  if negb is_tm then ret None else
  let* in0 := reads (fun s => try n := node_at s node in py_nth (input n) 0) in
  let* new_trans := make_onnx_node "Transpose" [in0] [("perm", AInts [1; 0; 2]%Z)] 1 in
  let* old_out := reads (fun s => output_at s node 0) in
  let* new_out := reads (fun s => output_at s new_trans 0) in
  let* _ := copy_shape old_out new_out in
  let* ops := reads (fun s => Ok (g_nodes s)) in
  let* old_out' := reads (fun s => output_at s node 0) in
  let* new_out' := reads (fun s => output_at s new_trans 0) in
  let* _ := replace_all_inputs ops old_out' new_out' in
  ret (Some new_trans).

Definition set_time_major (b : bool) (p : RnnProps) : RnnProps :=
  mkRnnProps (x_input_id p) b (input_size p) (hidden_size p)
             (var_initializers p) (onnx_input_ids p) (batch_size_node p).
Definition set_x_input_id (id : string) (p : RnnProps) : RnnProps :=
  mkRnnProps id (time_major p) (input_size p) (hidden_size p)
             (var_initializers p) (onnx_input_ids p) (batch_size_node p).

(** [s.startswith(prefix)]. *)
Definition startswith (s prefix : string) : bool := String.prefix prefix s.

(** [process_input_x], lines 132-166. [rnn_props.input_id], which the
    method only reads, is the argument [input_id]; the properties record is
    the one of the state, returned as it is left. *)
Definition process_input_x (input_id rnn_scope_name : string) : M (option RnnProps) :=
  let* input_consumers := reads (fun s => Ok (find_output_consumers s input_id)) in
  let* consumers_in_rnn_scope := reads (fun s =>
      filter_res (fun c => try n := node_at s c in Ok (startswith (name n) rnn_scope_name))
                 input_consumers) in
  if negb (bool_decide (length consumers_in_rnn_scope = 1)) then ret None else
  let* possible_transpose_after_input := reads (fun _ => py_nth consumers_in_rnn_scope 0) in
  let* converted_transpose := _convert_timemajor_transpose possible_transpose_after_input in
  let* _ :=
    match converted_transpose with
    | Some converted =>
        let* _ := modify (fun s => set_rnn_props (set_time_major false (rnn_props s)) s) in
        let* c_out := reads (fun s => output_at s converted 0) in
        let* _ := modify (fun s => set_rnn_props (set_x_input_id c_out (rnn_props s)) s) in
        extend_all_nodes [converted]
    | None =>
        let* _ := modify (fun s => set_rnn_props (set_time_major true (rnn_props s)) s) in
        modify (fun s => set_rnn_props (set_x_input_id input_id (rnn_props s)) s)
    end in
  let* x := reads (fun s => Ok (x_input_id (rnn_props s))) in
  let* _ := modify (fun s => set_rnn_props (set_onnx_input_id "X" x (rnn_props s)) s) in
  reads (fun s => Ok (Some (rnn_props s))).

(** [process_seq_length], lines 325-356. The element type codes are those
    of [onnx_pb.TensorProto]: FLOAT = 1, INT32 = 6, INT64 = 7. *)
Definition process_seq_length (seq_length_node : option loc) : M (loc * loc) :=
  let* x := reads (fun s => Ok (x_input_id (rnn_props s))) in
  let* shape_node := make_onnx_node "Shape" [x] [] 1 in
  let* sh_out := reads (fun s => output_at s shape_node 0) in
  let* cast_shape_node := make_onnx_node "Cast" [sh_out] [("to", AInt 1)] 1 in
  let* sh_out' := reads (fun s => output_at s shape_node 0) in
  let* cs_out := reads (fun s => output_at s cast_shape_node 0) in
  let* _ := copy_shape sh_out' cs_out in
  let* cs_out' := reads (fun s => output_at s cast_shape_node 0) in
  let* batchsize_node := make_onnx_node "Slice" [cs_out']
      [("axes", AInts [0]); ("starts", AInts [1]); ("ends", AInts [2])]%Z 1 in
  let* bs_out := reads (fun s => output_at s batchsize_node 0) in
  let* repeat_node := make_onnx_node "Cast" [bs_out] [("to", AInt 7)] 1 in
  let* _ := extend_all_nodes [shape_node; cast_shape_node; batchsize_node; repeat_node] in
  let* seq_length_node' :=
    match seq_length_node with
    | Some given => ret given
    | None =>
        let* cs_out'' := reads (fun s => output_at s cast_shape_node 0) in
        let* timestep_node := make_onnx_node "Slice" [cs_out'']
            [("axes", AInts [0]); ("starts", AInts [0]); ("ends", AInts [1])]%Z 1 in
        let* ts_out := reads (fun s => output_at s timestep_node 0) in
        let* rp_out := reads (fun s => output_at s repeat_node 0) in
        let* tile_node := make_onnx_node "Tile" [ts_out; rp_out] [] 1 in
        let* tl_out := reads (fun s => output_at s tile_node 0) in
        let* made := make_onnx_node "Cast" [tl_out] [("to", AInt 6)] 1 in
        let* _ := extend_all_nodes [timestep_node; tile_node; made] in
        ret made
    end in
  let* sl_out := reads (fun s => output_at s seq_length_node' 0) in
  let* _ := modify (fun s =>
      set_rnn_props (set_onnx_input_id "sequence_lens" sl_out (rnn_props s)) s) in
  ret (seq_length_node', batchsize_node).

Definition onnx_input_id (key : string) : M string :=
  reads (fun s =>
    match onnx_input_ids (rnn_props s) !! key with
    | Some id => Ok id
    | None => Raise (KeyError key)
    end).

(** [create_rnn_node], lines 358-379. *)
Definition create_rnn_node : M loc :=
  let direction := "forward" in
  let num_direction := 1%Z in
  let* hs := reads (fun s => Ok (Z.of_nat (hidden_size (rnn_props s)))) in
  let attr := [("direction", AStr direction); ("hidden_size", AInt hs)] in
  let* x := onnx_input_id "X" in
  let* w := onnx_input_id "W" in
  let* r := onnx_input_id "R" in
  let* b := onnx_input_id "B" in
  let* sl := onnx_input_id "sequence_lens" in
  let* ih := onnx_input_id "initial_h" in
  let* ic := onnx_input_id "initial_c" in
  let* lstm_node := make_onnx_node "LSTM" [x; w; r; b; sl; ih; ic] attr 3 in
  let* in0 := reads (fun s => try n := node_at s lstm_node in py_nth (input n) 0) in
  let* x_shape := reads (fun s => get_shape s in0) in
  let* x_seq_length := reads (fun _ => py_nth x_shape 0) in
  let* x_batch_size := reads (fun _ => py_nth x_shape 1) in
  let* o0 := reads (fun s => output_at s lstm_node 0) in
  let* hs0 := reads (fun s => Ok (Z.of_nat (hidden_size (rnn_props s)))) in
  let* _ := set_shape o0 [x_seq_length; num_direction; x_batch_size; hs0] in
  let* o1 := reads (fun s => output_at s lstm_node 1) in
  let* hs1 := reads (fun s => Ok (Z.of_nat (hidden_size (rnn_props s)))) in
  let* _ := set_shape o1 [num_direction; x_batch_size; hs1] in
  let* o1' := reads (fun s => output_at s lstm_node 1) in
  let* o2 := reads (fun s => output_at s lstm_node 2) in
  let* _ := copy_shape o1' o2 in
  ret lstm_node.

(** [_connect_lstm_yh_to_graph], lines 381-389. *)
Definition _connect_lstm_yh_to_graph (lstm_node exit_node : loc) : M unit :=
  let* output_id := reads (fun s => output_at s lstm_node 1) in
  let* squeeze_node := make_onnx_node "Squeeze" [output_id] [("axes", AInts [0%Z])] 1 in
  let* lstm_yh_shape := reads (fun s => get_shape s output_id) in
  let* sq_out := reads (fun s => output_at s squeeze_node 0) in
  let* d1 := reads (fun _ => py_nth lstm_yh_shape 1) in
  let* d2 := reads (fun _ => py_nth lstm_yh_shape 2) in
  let* _ := set_shape sq_out [d1; d2] in
  let* _ := extend_all_nodes [squeeze_node] in
  let* ops := reads (fun s => Ok (all_nodes s)) in
  let* exit_out := reads (fun s => output_at s exit_node 0) in
  let* sq_out' := reads (fun s => output_at s squeeze_node 0) in
  replace_all_inputs ops exit_out sq_out'.

(** [_connect_lstm_yc_to_graph], lines 391-399. *)
Definition _connect_lstm_yc_to_graph (lstm_node exit_node : loc) : M unit :=
  let* output_id := reads (fun s => output_at s lstm_node 2) in
  let* squeeze_node := make_onnx_node "Squeeze" [output_id] [("axes", AInts [0%Z])] 1 in
  let* lstm_yc_shape := reads (fun s => get_shape s output_id) in
  let* sq_out := reads (fun s => output_at s squeeze_node 0) in
  let* d1 := reads (fun _ => py_nth lstm_yc_shape 1) in
  let* d2 := reads (fun _ => py_nth lstm_yc_shape 2) in
  let* _ := set_shape sq_out [d1; d2] in
  let* _ := extend_all_nodes [squeeze_node] in
  let* ops := reads (fun s => Ok (all_nodes s)) in
  let* exit_out := reads (fun s => output_at s exit_node 0) in
  let* sq_out' := reads (fun s => output_at s squeeze_node 0) in
  replace_all_inputs ops exit_out sq_out'.

(** [_connect_lstm_ych_to_graph], lines 401-414. *)
Definition _connect_lstm_ych_to_graph (lstm_node exit_node : loc) : M unit :=
  let* yc_id := reads (fun s => output_at s lstm_node 2) in
  let* yh_id := reads (fun s => output_at s lstm_node 1) in
  let* concat := make_onnx_node "Concat" [yc_id; yh_id] [("axis", AInt 2)] 1 in
  let* yc_id' := reads (fun s => output_at s lstm_node 2) in
  let* yc_shape := reads (fun s => get_shape s yc_id') in
  let* cc_out := reads (fun s => output_at s concat 0) in
  let* c0 := reads (fun _ => py_nth yc_shape 0) in
  let* c1 := reads (fun _ => py_nth yc_shape 1) in
  let* c2 := reads (fun _ => py_nth yc_shape 2) in
  let* _ := set_shape cc_out [c0; c1; c2 * 2]%Z in
  let* cc_out' := reads (fun s => output_at s concat 0) in
  let* squeeze_node := make_onnx_node "Squeeze" [cc_out'] [("axes", AInts [0%Z])] 1 in
  let* cc_out'' := reads (fun s => output_at s concat 0) in
  let* concat_shape := reads (fun s => get_shape s cc_out'') in
  let* sq_out := reads (fun s => output_at s squeeze_node 0) in
  let* d1 := reads (fun _ => py_nth concat_shape 1) in
  let* d2 := reads (fun _ => py_nth concat_shape 2) in
  let* _ := set_shape sq_out [d1; d2] in
  let* _ := extend_all_nodes [concat; squeeze_node] in
  let* ops := reads (fun s => Ok (all_nodes s)) in
  let* exit_out := reads (fun s => output_at s exit_node 0) in
  let* sq_out' := reads (fun s => output_at s squeeze_node 0) in
  replace_all_inputs ops exit_out sq_out'.

End Rewriter.

Arguments Node A : clear implicits.
Arguments RnnWeights A : clear implicits.
Arguments state A : clear implicits.
Arguments M A X : clear implicits.

(** ** Reading the fused tensors back (the specification's side)

    The fused operator's gate blocks are (input, output, forget, cell);
    the cell's native order is (input, cell, forget, output). *)

Section Reassembly.
Context {A : Type} `{Scalar A}.

(** Reassembling the four fused-order column blocks in native order. *)
Definition fused_to_native (m : matrix A) : res (matrix A) :=
  try (gi, go, gf, gc) := np_split4_axis1 m in
  np_concatenate_axis1 [gi; gc; gf; go].

(** A weight tensor of shape [(1, 4*hidden, n)] read back as an
    [(n, 4*hidden)] block in native order: drop the leading axis, undo the
    transpose, reorder the gates. *)
Definition native_of_fused_weight (W : ndarray A) : res (matrix A) :=
  try W0 := ndarray_get0 W in
  try W_iofc := to_matrix W0 in
  fused_to_native (np_transpose W_iofc).

(** The native kernel read back from [W] and [R]: the input rows above the
    hidden rows. *)
Definition native_kernel_of (W R : ndarray A) : res (matrix A) :=
  try wx := native_of_fused_weight W in
  try wh := native_of_fused_weight R in
  np_concatenate_axis0 wx wh.

(** The two halves of the bias tensor [B] of shape [(1, 2*n)]. *)
Definition bias_halves (B : ndarray A) : res (matrix A * matrix A) :=
  try Bm := to_matrix B in
  if decide (ncols Bm mod 2 = 0) then
    Ok (col_block Bm (ncols Bm / 2) 0, col_block Bm (ncols Bm / 2) 1)
  else Raise (ValueError "array split does not result in an equal division").

(** The native bias read back from the first half of [B]. *)
Definition native_bias_of (B : ndarray A) : res (matrix A) :=
  try halves := bias_halves B in
  fused_to_native (fst halves).

(** The i-th of the four gate blocks of width [h] of a vector. *)
Definition gate_block (h i : nat) (v : list A) : list A := take h (drop (i * h) v).

(** The native bias with the forget bias added to its forget block (the
    third block in native order). *)
Definition add_forget_bias (h : nat) (ft0 : A) (bias : list A) : list A :=
  gate_block h 0 bias ++ gate_block h 1 bias
  ++ map (fun a => add a ft0) (gate_block h 2 bias) ++ gate_block h 3 bias.

(** The gate permutation on one row. *)
Definition swap_gates (h : nat) (v : list A) : list A :=
  gate_block h 0 v ++ gate_block h 3 v ++ gate_block h 2 v ++ gate_block h 1 v.

(** Splitting into four column blocks and concatenating blocks 0, 3, 2, 1
    swaps the gates of every row. *)
Definition swap_gate_columns (m : matrix A) : matrix A :=
  let w := ncols m / 4 in
  Matrix (nrows m) (w + (w + (w + w))) (map (swap_gates w) (rows m)).

(** The fused bias row: gates (input, output, forget + ft, cell). *)
Definition fused_bias_row (h : nat) (ft0 : A) (bias : list A) : list A :=
  gate_block h 0 bias ++ gate_block h 3 bias
  ++ map (fun a => add a ft0) (gate_block h 2 bias) ++ gate_block h 1 bias.

End Reassembly.

(** ** The nodes and states the rewriter produces *)

Section Emitted.
Context {A : Type} `{Scalar A}.
Implicit Types (s : state A).

Definition const_node (node_name : string) (val : ndarray A) : Node A :=
  mkNode node_name "Const" [] (output_names node_name 1) [] 0 (Some val).

Definition onnx_node (op_type : string) (k : nat) (inputs : list string)
    (attrs : list (string * attr_value)) (output_count : nat) : Node A :=
  mkNode (fresh_name op_type k) op_type inputs
         (output_names (fresh_name op_type k) output_count) attrs 0 None.

(** The state left by a successful [process_weights_and_bias]: three new
    constants, three names drawn, the properties record filled in. *)
Definition weights_emitted s (W R B : ndarray A) (isz h : nat) : state A :=
  let k := INTERNAL_NAME s in
  let w_name := fresh_name "W" (S k) in
  let r_name := fresh_name "R" (S (S k)) in
  let b_name := fresh_name "B" (S (S (S k))) in
  let p := rnn_props s in
  mkState
    (((heap s ++ [const_node w_name W]) ++ [const_node r_name R]) ++ [const_node b_name B])
    (g_nodes s) (g_shapes s) (all_nodes s) (must_keep_nodes s) (S (S (S k)))
    (mkRnnProps (x_input_id p) (time_major p) isz h (var_initializers p)
       (<["B" := b_name +:+ ":0"]> (<["R" := r_name +:+ ":0"]>
          (<["W" := w_name +:+ ":0"]> (onnx_input_ids p))))
       (batch_size_node p)).

End Emitted.

(** ** Reading one Slice consumer (the specification's side) *)

Inductive slice_half : Type := CellHalf | HiddenHalf.

#[global] Instance slice_half_eq_dec : EqDecision slice_half.
Proof. solve_decision. Defined.

Section SliceHalves.
Context {A : Type} `{Scalar A}.

(** Which half of the packed state a Slice extracts: the cell half when it
    has one consumer and begins at [0, 0], the hidden half when it has one
    consumer and begins at [0, size[1]] for its own size operand (and not
    at [0, 0]); [None] for any other Slice. *)
Definition slice_half_of (s : state A) (sl : loc) : res (option slice_half) :=
  try out0 := output_at s sl 0 in
  if bool_decide (length (find_output_consumers s out0) = 1) then
    try n := node_at s sl in
    try begin_node := inputs_at s n 1 in
    try s_begin := get_tensor_value begin_node in
    try size_node := inputs_at s n 2 in
    try s_size := get_tensor_value size_node in
    try size_l := vector_of s_size in
    try half_width := py_nth size_l 1 in
    try begin_l := vector_of s_begin in
    if decide (begin_l = [of_Z 0; of_Z 0]) then Ok (Some CellHalf)
    else if decide (begin_l = [of_Z 0; half_width]) then Ok (Some HiddenHalf)
    else Ok None
  else Ok None.

Definition is_set {X} (o : option X) : bool :=
  match o with Some _ => true | None => false end.

Definition is_half (s : state A) (h : slice_half) (sl : loc) : bool :=
  match slice_half_of s sl with
  | Ok (Some h') => bool_decide (h' = h)
  | _ => false
  end.

End SliceHalves.

(** ** What the output reconnector and the initial-state builder are
    measured against (the specification's side) *)

Section Expectations.
Context {A : Type} `{Scalar A}.
Implicit Types (s : state A).

(** A computation that raises the exception [e] from no state. *)
Definition never_raises {X} (e : exn) (m : M A X) : Prop :=
  ∀ s, fst (m s) ≠ Raise e.

Definition node_type_is s (t : string) (l : loc) : bool :=
  match heap s !! l with
  | Some n => bool_decide (type n = t)
  | None => false
  end.

(** The consumer sets of the exit point that the reconnector lets through:
    two consumers, each a gather or a size query, at least one a gather. *)
Definition exit_consumers_ok s (cs : list loc) : bool :=
  bool_decide (length cs = 2)
  && forallb (fun l => node_type_is s "TensorArrayGatherV3" l
                       || node_type_is s "TensorArraySizeV3" l) cs
  && existsb (node_type_is s "TensorArrayGatherV3") cs.

(** The gather the reconnection goes on with: the last gather among the
    consumers of the exit point, in consumer order. *)
Definition last_gather s (cs : list loc) : option loc :=
  last (filter (fun l => node_type_is s "TensorArrayGatherV3" l = true) cs).

(** The squeeze and the transpose that [_connect_lstm_output_to_graph]
    creates from a state [s], and their outputs. *)
Definition squeeze_of s (output_id : string) : Node A :=
  onnx_node "Squeeze" (S (INTERNAL_NAME s)) [output_id] [("axes", AInts [1%Z])] 1.
Definition squeeze_out s : string :=
  fresh_name "Squeeze" (S (INTERNAL_NAME s)) +:+ ":0".
Definition new_transpose_of s : Node A :=
  onnx_node "Transpose" (S (S (INTERNAL_NAME s))) [squeeze_out s]
            [("perm", AInts [1; 0; 2]%Z)] 1.
Definition new_transpose_out s : string :=
  fresh_name "Transpose" (S (S (INTERNAL_NAME s))) +:+ ":0".

(** [replace_all_inputs] on the heap. *)
Definition replaced (old new : string) (ops : list loc) (h : list (Node A)) : list (Node A) :=
  foldl (fun h l => alter (replace_input old new) l h) h ops.

(** The state in which the transposes after the gather are looked for:
    the squeeze has been created. *)
Definition with_squeeze s (lo : string) : state A :=
  set_heap (heap s ++ [squeeze_of s lo]) s.

Definition gather_transposes (check_is_timemajor_transpose : list (Node A) → loc → bool)
    s (lo go : string) : list loc :=
  filter (fun l => check_is_timemajor_transpose (heap (with_squeeze s lo)) l = true)
         (find_output_consumers (with_squeeze s lo) go).

(** The state left by a batch-major reconnection. *)
Definition batch_major_reconnected s (lo go to : string) (d0 d2 d3 : Z) : state A :=
  let L := length (heap s) in
  let h1 := heap s ++ [squeeze_of s lo; new_transpose_of s] in
  let h2 := replaced to (new_transpose_out s) (all_nodes s) h1 in
  let h3 := replaced go (squeeze_out s) (all_nodes s ++ [S L]) h2 in
  mkState h3 (g_nodes s)
    (<[new_transpose_out s := [d2; d0; d3]]> (<[squeeze_out s := [d0; d2; d3]]> (g_shapes s)))
    ((all_nodes s ++ [S L]) ++ [L]) (must_keep_nodes s)
    (S (S (INTERNAL_NAME s))) (rnn_props s).

(** A tensor id made from a name drawn between two states, of one of the
    operator types the initial-state builder returns. *)
Definition fresh_bases : list string := ["Tile"; "Unsqueeze"; "Const"].

Definition fresh_id s s' (o : string) : Prop :=
  ∃ b j, b ∈ fresh_bases ∧ o = fresh_name b j +:+ ":0" ∧
         INTERNAL_NAME s < j ∧ j ≤ INTERNAL_NAME s'.

(** The result ids recorded by [process_var_init_nodes]. *)
Definition initial_ids s : option string * option string :=
  (onnx_input_ids (rnn_props s) !! "initial_h",
   onnx_input_ids (rnn_props s) !! "initial_c").

End Expectations.

(** ** Concrete inputs *)

Definition props0 : RnnProps := mkRnnProps "x:0" true 0 0 ∅ ∅ None.

(** A graph with no nodes. *)
Definition empty_state : state Z := mkState [] [] ∅ [] [] 1 props0.

(** A kernel for input size 2 and hidden size 1, its bias and forget bias. *)
Definition kernel_3x4 : matrix Z :=
  Matrix 3 4 [[1; 2; 3; 4]; [5; 6; 7; 8]; [9; 10; 11; 12]]%Z.
Definition weights_3x4 : RnnWeights Z :=
  mkRnnWeights kernel_3x4 [10; 20; 30; 40]%Z [100]%Z.

(** The same kernel with a bias of length 6 and a kernel of 6 columns. *)
Definition weights_bias6 : RnnWeights Z :=
  mkRnnWeights (Matrix 1 6 [[1; 2; 3; 4; 5; 6]]%Z) [10; 20; 30; 40; 50; 60]%Z [100]%Z.

Definition plain_node (nm op : string) (ins : list string) : Node Z :=
  mkNode nm op ins [nm +:+ ":0"] [] 0 None.

Definition const_vec (nm : string) (v : list Z) : Node Z :=
  mkNode nm "Const" [] [nm +:+ ":0"] [] 0 (Some (of_vector v)).

(** A packed-state loop whose identity value "id:0" has three Slice
    consumers: two begin at [0, 0] and one at [0, 3], all of size [4, 3],
    each with one consumer of its own. *)
Definition shared_slices_heap : list (Node Z) :=
  [ const_vec "b0" [0; 0]%Z;
    const_vec "bh" [0; 3]%Z;
    const_vec "sz" [4; 3]%Z;
    plain_node "slice_c1" "Slice" ["id:0"; "b0:0"; "sz:0"];
    plain_node "slice_c2" "Slice" ["id:0"; "b0:0"; "sz:0"];
    plain_node "slice_h" "Slice" ["id:0"; "bh:0"; "sz:0"];
    plain_node "mul_1" "Mul" ["slice_c1:0"];
    plain_node "mul_2" "Mul" ["slice_c2:0"];
    plain_node "concat" "ConcatV2" ["slice_h:0"] ].

Definition shared_slices_state : state Z :=
  mkState shared_slices_heap (seq 0 9) ∅ (seq 0 9) [] 1 props0.

(** The transpose test used on concrete graphs: a Transpose node. *)
Definition is_transpose (h : list (Node Z)) (l : loc) : bool :=
  match h !! l with
  | Some n => bool_decide (type n = "Transpose")
  | None => false
  end.

Definition no_dtypes (d : Z) : option string := None.
Definition float_dtype (d : Z) : option string := Some "float32".

Definition lstm_node_ex : Node Z :=
  mkNode "LSTM__9" "LSTM" ["x:0"] ["LSTM__9:0"; "LSTM__9:1"; "LSTM__9:2"] [] 0 None.

(** A batch-major accumulated output: the exit "exit:0" is consumed by a
    size query and a gather, the gather by a transpose, the transpose by a
    user node. *)
Definition batch_major_heap : list (Node Z) :=
  [ plain_node "exit" "Exit" ["switch:0"];
    plain_node "ta_size" "TensorArraySizeV3" ["ta:0"; "exit:0"];
    plain_node "ta_gather" "TensorArrayGatherV3" ["ta:0"; "range:0"; "exit:0"];
    plain_node "transpose" "Transpose" ["ta_gather:0"; "perm:0"];
    plain_node "user" "Identity" ["transpose:0"];
    lstm_node_ex ].

Definition batch_major_props : RnnProps := mkRnnProps "x:0" false 2 3 ∅ ∅ None.

Definition batch_major_state : state Z :=
  mkState batch_major_heap (seq 0 5) {["LSTM__9:0" := [7; 1; 4; 3]%Z]}
          (seq 0 6) [] 9 batch_major_props.

(** A time-major accumulated output whose exit is consumed by two
    gathers. *)
Definition two_gathers_heap : list (Node Z) :=
  [ plain_node "exit" "Exit" ["switch:0"];
    plain_node "ta_gather_1" "TensorArrayGatherV3" ["ta:0"; "range:0"; "exit:0"];
    plain_node "ta_gather_2" "TensorArrayGatherV3" ["ta:0"; "range:0"; "exit:0"];
    lstm_node_ex ].

Definition two_gathers_state : state Z :=
  mkState two_gathers_heap (seq 0 3) {["LSTM__9:0" := [7; 1; 4; 3]%Z]}
          (seq 0 4) [] 9 props0.

(** The same exit, each gather read by a node of its own. *)
Definition two_readers_heap : list (Node Z) :=
  [ plain_node "exit" "Exit" ["switch:0"];
    plain_node "ta_gather_1" "TensorArrayGatherV3" ["ta:0"; "range:0"; "exit:0"];
    plain_node "ta_gather_2" "TensorArrayGatherV3" ["ta:0"; "range:0"; "exit:0"];
    plain_node "reader_1" "Identity" ["ta_gather_1:0"];
    plain_node "reader_2" "Identity" ["ta_gather_2:0"];
    lstm_node_ex ].

Definition two_readers_state : state Z :=
  mkState two_readers_heap (seq 0 5) {["LSTM__9:0" := [7; 1; 4; 3]%Z]}
          (seq 0 6) [] 9 props0.

(** An exit consumed by a size query, a gather and a third node. *)
Definition three_consumers_heap : list (Node Z) :=
  [ plain_node "exit" "Exit" ["switch:0"];
    plain_node "ta_size" "TensorArraySizeV3" ["ta:0"; "exit:0"];
    plain_node "ta_gather" "TensorArrayGatherV3" ["ta:0"; "range:0"; "exit:0"];
    plain_node "other" "Identity" ["exit:0"];
    lstm_node_ex ].

Definition three_consumers_state : state Z :=
  mkState three_consumers_heap (seq 0 4) {["LSTM__9:0" := [7; 1; 4; 3]%Z]}
          (seq 0 5) [] 9 props0.

(** Initial states: "init" is a placeholder (neither a constant nor a
    Fill), "zeros" is a Fill of the scalar constant "zero". *)
Definition init_heap : list (Node Z) :=
  [ plain_node "init" "Placeholder" [];
    plain_node "dims" "Pack" [];
    const_vec "zero" [0%Z];
    plain_node "zeros" "Fill" ["dims:0"; "zero:0"];
    plain_node "batch" "Slice" [] ].

Definition init_props (vi : gmap string string) : RnnProps :=
  mkRnnProps "x:0" true 2 3 vi ∅ (Some 4).

Definition init_state (vi : gmap string string) (keep : list loc) : state Z :=
  mkState init_heap (seq 0 5) ∅ (seq 0 5) keep 1 (init_props vi).

(** ** What the remaining methods are measured against *)

Section Outcomes.
Context {A : Type} `{Scalar A}.
Implicit Types (s : state A).

Definition split_error : exn :=
  ValueError "array split does not result in an equal division".

(** The checks of [process_weights_and_bias] in the order they are made,
    and the sizes it returns when all of them pass. *)
Definition weights_outcome (rw : RnnWeights A) : res (nat * nat) :=
  let h := length (bias rw) / 4 in
  if negb (bool_decide (length (bias rw) mod 4 = 0)) then Raise split_error
  else if bool_decide (forget_bias rw = []) then Raise IndexError
  else if negb (bool_decide (ncols (kernel rw) / 4 = h)) then Raise AssertionError
  else if negb (bool_decide (ncols (kernel rw) mod 4 = 0)) then Raise split_error
  else Ok (if bool_decide (h = 0) then 0 else nrows (kernel rw) - h, h).

End Outcomes.

(** The number of occurrences of a character in a string. *)
Fixpoint count_char (c : ascii) (s : string) : nat :=
  match s with
  | EmptyString => 0
  | String a s' => (if decide (a = c) then 1 else 0) + count_char c s'
  end.

(** A kernel with fewer rows than the hidden size (1 row, hidden size 2). *)
Definition kernel_1x8 : matrix Z := Matrix 1 8 [[1; 2; 3; 4; 5; 6; 7; 8]%Z].
Definition weights_1x8 : RnnWeights Z :=
  mkRnnWeights kernel_1x8 [10; 20; 30; 40; 50; 60; 70; 80]%Z [100]%Z.

(** A graph whose only node is a cell output of the given name. *)
Definition cell_output (nm : string) : Node Z := plain_node nm "Mul" [].
Definition cell_output_state (nm : string) : state Z :=
  mkState [cell_output nm] [0] ∅ [0] [] 1 props0.

Section Classified.
Context {A : Type} `{Scalar A}.
Implicit Types (s : state A).

(** A consumer that multiplies by the value of the node [ft]: a Mul one
    of whose input tensors that node produces, at any position. *)
Definition multiplies_by s (ft : loc) (c : loc) : bool :=
  match heap s !! c with
  | Some n =>
      bool_decide (type n = "Mul")
      && existsb (fun i => bool_decide (get_node_by_name s i = Some ft)) (input n)
  | None => false
  end.

End Classified.

(** An identity value consumed by two multiplications, the forget gate
    "ft" being the first operand of one and the second of the other, and
    by an addition; a tensor array and a write to it. *)
Definition ct_heap : list (Node Z) :=
  [ plain_node "ft" "Sigmoid" [];
    plain_node "mul_a" "Mul" ["ft:0"; "id:0"];
    plain_node "mul_b" "Mul" ["id:0"; "ft:0"];
    plain_node "add" "Add" ["id:0"; "ft:0"];
    plain_node "ta" "TensorArrayV3" [];
    plain_node "write" "TensorArrayWriteV3" ["ta:0"; "id:0"] ].

Definition ct_state : state Z := mkState ct_heap (seq 0 6) ∅ (seq 0 6) [] 1 props0.

(** ** The states the reconnectors and the fused-node builder leave *)

Section Reconnected.
Context {A : Type} `{Scalar A}.
Implicit Types (s : state A).

(** The squeeze of a final-state output: axis 0 is the direction axis. *)
Definition state_squeeze_of s (output_id : string) : Node A :=
  onnx_node "Squeeze" (S (INTERNAL_NAME s)) [output_id] [("axes", AInts [0%Z])] 1.

(** The state left by [_connect_lstm_yh_to_graph] and by
    [_connect_lstm_yc_to_graph]: [lo] is the fused node's output, [eo] the
    exit's, [d1, d2] the extents kept. *)
Definition state_output_reconnected s (lo eo : string) (d1 d2 : Z) : state A :=
  let L := length (heap s) in
  mkState
    (replaced eo (squeeze_out s) (all_nodes s ++ [L]) (heap s ++ [state_squeeze_of s lo]))
    (g_nodes s) (<[squeeze_out s := [d1; d2]]> (g_shapes s))
    (all_nodes s ++ [L]) (must_keep_nodes s) (S (INTERNAL_NAME s)) (rnn_props s).

(** The concat and the squeeze of [_connect_lstm_ych_to_graph]. *)
Definition concat_of s (yc yh : string) : Node A :=
  onnx_node "Concat" (S (INTERNAL_NAME s)) [yc; yh] [("axis", AInt 2)] 1.
Definition concat_out s : string :=
  fresh_name "Concat" (S (INTERNAL_NAME s)) +:+ ":0".
Definition packed_squeeze_of s : Node A :=
  onnx_node "Squeeze" (S (S (INTERNAL_NAME s))) [concat_out s] [("axes", AInts [0%Z])] 1.
Definition packed_squeeze_out s : string :=
  fresh_name "Squeeze" (S (S (INTERNAL_NAME s))) +:+ ":0".

Definition packed_state_reconnected s (yc yh eo : string) (c0 c1 c2 : Z) : state A :=
  let L := length (heap s) in
  mkState
    (replaced eo (packed_squeeze_out s) (all_nodes s ++ [L; S L])
       (heap s ++ [concat_of s yc yh; packed_squeeze_of s]))
    (g_nodes s)
    (<[packed_squeeze_out s := [c1; c2 * 2]%Z]>
       (<[concat_out s := [c0; c1; c2 * 2]%Z]> (g_shapes s)))
    (all_nodes s ++ [L; S L]) (must_keep_nodes s) (S (S (INTERNAL_NAME s))) (rnn_props s).

(** The state left by a time-major reconnection of the accumulated
    output. *)
Definition time_major_reconnected s (lo go : string) (d0 d2 d3 : Z) : state A :=
  let L := length (heap s) in
  mkState
    (replaced go (squeeze_out s) (all_nodes s) (heap s ++ [squeeze_of s lo]))
    (g_nodes s) (<[squeeze_out s := [d0; d2; d3]]> (g_shapes s))
    (all_nodes s ++ [L]) (must_keep_nodes s) (S (INTERNAL_NAME s)) (rnn_props s).

(** The state in which a batch-major reconnection fails for want of one
    transpose: the squeeze exists and has its shape. *)
Definition squeeze_left_behind s (lo : string) (d0 d2 d3 : Z) : state A :=
  mkState (heap s ++ [squeeze_of s lo]) (g_nodes s)
    (<[squeeze_out s := [d0; d2; d3]]> (g_shapes s))
    (all_nodes s) (must_keep_nodes s) (S (INTERNAL_NAME s)) (rnn_props s).

(** The inputs of the fused node in operator order, and the node and the
    state [create_rnn_node] makes of them. *)
Definition lstm_input_keys : list string :=
  ["X"; "W"; "R"; "B"; "sequence_lens"; "initial_h"; "initial_c"].

Definition lstm_of s (ins : list string) : Node A :=
  onnx_node "LSTM" (S (INTERNAL_NAME s)) ins
    [("direction", AStr "forward");
     ("hidden_size", AInt (Z.of_nat (hidden_size (rnn_props s))))] 3.

Definition lstm_out s (i : nat) : string :=
  fresh_name "LSTM" (S (INTERNAL_NAME s)) +:+ ":" +:+ string_of_nat i.

Definition rnn_node_created s (ins : list string) (t b : Z) : state A :=
  let hs := Z.of_nat (hidden_size (rnn_props s)) in
  mkState (heap s ++ [lstm_of s ins]) (g_nodes s)
    (<[lstm_out s 2 := [1; b; hs]%Z]>
       (<[lstm_out s 1 := [1; b; hs]%Z]>
          (<[lstm_out s 0 := [t; 1; b; hs]%Z]> (g_shapes s))))
    (all_nodes s) (must_keep_nodes s) (S (INTERNAL_NAME s)) (rnn_props s).

End Reconnected.

(** Final states: a fused node with known state shapes, an exit and its
    consumer. *)
Definition final_state_heap : list (Node Z) :=
  [ plain_node "exit" "Exit" ["switch:0"];
    plain_node "user" "Identity" ["exit:0"];
    lstm_node_ex ].

Definition final_state : state Z :=
  mkState final_state_heap (seq 0 2)
          {["LSTM__9:1" := [1; 4; 3]%Z; "LSTM__9:2" := [1; 4; 3]%Z]}
          (seq 0 3) [] 9 props0.

Section LeftBehind.
Context {A : Type} `{Scalar A}.
Implicit Types (s : state A).

(** The state in which a final-state reconnector fails on an unknown
    shape: its squeeze exists, on no list. *)
Definition state_squeeze_left_behind s (lo : string) : state A :=
  mkState (heap s ++ [state_squeeze_of s lo]) (g_nodes s) (g_shapes s)
    (all_nodes s) (must_keep_nodes s) (S (INTERNAL_NAME s)) (rnn_props s).

End LeftBehind.

(** The fused node's sequence output is known as well; the tensor array
    of the accumulated output is read by a size query and a gather, the
    gather by a user node. *)
Definition time_major_heap : list (Node Z) :=
  [ plain_node "exit" "Exit" ["switch:0"];
    plain_node "ta_size" "TensorArraySizeV3" ["ta:0"; "exit:0"];
    plain_node "ta_gather" "TensorArrayGatherV3" ["ta:0"; "range:0"; "exit:0"];
    plain_node "user" "Identity" ["ta_gather:0"];
    lstm_node_ex ].

Definition time_major_state : state Z :=
  mkState time_major_heap (seq 0 4) {["LSTM__9:0" := [7; 1; 4; 3]%Z]}
          (seq 0 5) [] 9 props0.

(** The same graph in batch-major mode: no transpose follows the
    gather. *)
Definition no_transpose_state : state Z :=
  mkState time_major_heap (seq 0 4) {["LSTM__9:0" := [7; 1; 4; 3]%Z]}
          (seq 0 5) [] 9 batch_major_props.

(** A fused node whose hidden-state output has two extents only and whose
    cell-state output has no recorded shape. *)
Definition unshaped_state : state Z :=
  mkState final_state_heap (seq 0 2) {["LSTM__9:1" := [4; 3]%Z]} (seq 0 3) [] 9 props0.

(** The properties record once every input of the fused node is known,
    and a state whose input "x:0" has shape [7, 4, 2]. *)
Definition all_input_ids : gmap string string :=
  {["X" := "x:0"; "W" := "W__2:0"; "R" := "R__3:0"; "B" := "B__4:0";
    "sequence_lens" := "Cast__8:0"; "initial_h" := "h:0"; "initial_c" := "c:0"]}.

Definition ready_props (ids : gmap string string) : RnnProps :=
  mkRnnProps "x:0" true 2 3 ∅ ids None.

Definition ready_state (ids : gmap string string) : state Z :=
  mkState [plain_node "exit" "Exit" ["switch:0"]; plain_node "user" "Identity" ["exit:0"]]
          (seq 0 2) {["x:0" := [7; 4; 2]%Z]} (seq 0 2) [] 9 (ready_props ids).

(** ** The nodes of the sequence-length chain and of the input
    transpose *)

Section Chains.
Context {A : Type} `{Scalar A}.
Implicit Types (s : state A).

(** The four nodes [process_seq_length] always makes: the shape of the
    input, its cast to float, the batch extent (index 1) and its cast to
    int64. *)
Definition seq_length_prefix s : list (Node A) :=
  let k := INTERNAL_NAME s in
  [ onnx_node "Shape" (1 + k) [x_input_id (rnn_props s)] [] 1;
    onnx_node "Cast" (2 + k) [fresh_name "Shape" (1 + k) +:+ ":0"] [("to", AInt 1)] 1;
    onnx_node "Slice" (3 + k) [fresh_name "Cast" (2 + k) +:+ ":0"]
      [("axes", AInts [0]); ("starts", AInts [1]); ("ends", AInts [2])]%Z 1;
    onnx_node "Cast" (4 + k) [fresh_name "Slice" (3 + k) +:+ ":0"] [("to", AInt 7)] 1 ].

(** The three it makes when no sequence length is given: the time extent
    (index 0), tiled batch-size times, cast to int32. *)
Definition seq_length_derived s : list (Node A) :=
  let k := INTERNAL_NAME s in
  [ onnx_node "Slice" (5 + k) [fresh_name "Cast" (2 + k) +:+ ":0"]
      [("axes", AInts [0]); ("starts", AInts [0]); ("ends", AInts [1])]%Z 1;
    onnx_node "Tile" (6 + k)
      [fresh_name "Slice" (5 + k) +:+ ":0"; fresh_name "Cast" (4 + k) +:+ ":0"] [] 1;
    onnx_node "Cast" (7 + k) [fresh_name "Tile" (6 + k) +:+ ":0"] [("to", AInt 6)] 1 ].

(** The shape table after [copy_shape]. *)
Definition shape_copied (src dst : string) (sh : gmap string (list Z))
  : gmap string (list Z) :=
  match sh !! src with
  | Some v => <[dst := v]> sh
  | None => sh
  end.

(** The consumers of the input that lie in the scope of the loop. *)
Definition in_scope s (scope : string) (c : loc) : bool :=
  match heap s !! c with
  | Some n => startswith (name n) scope
  | None => false
  end.

Definition scope_consumers s (input_id scope : string) : list loc :=
  filter (fun c => in_scope s scope c = true) (find_output_consumers s input_id).

(** The transpose [_convert_timemajor_transpose] makes and its output. *)
Definition input_transpose_of s (in0 : string) : Node A :=
  onnx_node "Transpose" (S (INTERNAL_NAME s)) [in0] [("perm", AInts [1; 0; 2]%Z)] 1.
Definition input_transpose_out s : string :=
  fresh_name "Transpose" (S (INTERNAL_NAME s)) +:+ ":0".

(** The properties record [process_input_x] leaves. *)
Definition input_recorded (tm : bool) (x : string) (p : RnnProps) : RnnProps :=
  set_onnx_input_id "X" x (set_x_input_id x (set_time_major tm p)).

End Chains.

(** A batch-major input: "x:0" is read, inside the scope "rnn", by a
    transpose, itself read by a node of the loop; and, outside the scope,
    by another node. *)
Definition input_heap : list (Node Z) :=
  [ plain_node "rnn/transpose" "Transpose" ["x:0"; "perm:0"];
    plain_node "rnn/while/enter" "Enter" ["rnn/transpose:0"];
    plain_node "other/shape" "Shape" ["x:0"] ].

Definition input_state : state Z :=
  mkState input_heap (seq 0 3) ∅ (seq 0 3) [] 1 props0.

(** A sequence-length node given by the graph. *)
Definition seq_given_state : state Z :=
  mkState [plain_node "seq_len" "Placeholder" []] [0] ∅ [0] [] 1 props0.

(** ** The nodes of the initial-state builder *)

Section InitialNodes.
Context {A : Type} `{Scalar A}.
Implicit Types (s : state A).

(** The slice of the packed initializer over the columns [lo, hi) and the
    unsqueeze that gives a value its leading direction axis. *)
Definition packed_slice_of (k : nat) (id : string) (lo hi : Z) : Node A :=
  onnx_node "Slice" k [id]
    [("axes", AInts [1%Z]); ("starts", AInts [lo]); ("ends", AInts [hi])] 1.

Definition unsqueeze_of (k : nat) (src : string) : Node A :=
  onnx_node "Unsqueeze" k [src] [("axes", AInts [0%Z])] 1.

(** The four nodes of the shared path on an initializer that is no Fill,
    in the order they are made. *)
Definition packed_initial_nodes s (id : string) : list (Node A) :=
  let k := INTERNAL_NAME s in
  let hs := Z.of_nat (hidden_size (rnn_props s)) in
  [ packed_slice_of (1 + k) id 0 hs;
    unsqueeze_of (2 + k) (fresh_name "Slice" (1 + k) +:+ ":0");
    packed_slice_of (3 + k) id hs (hs * 2);
    unsqueeze_of (4 + k) (fresh_name "Slice" (3 + k) +:+ ":0") ].

(** The six nodes of the Fill workaround: the extents 1 and hidden size,
    the shape vector [1, batch, hidden] and its cast to int64, the fill
    value as a (1, 1, 1) constant, and the tile. *)
Definition fill_nodes s (batch_out : string) (fill_val : ndarray A) : list (Node A) :=
  let k := INTERNAL_NAME s in
  [ const_node (fresh_name "Const" (1 + k)) (of_vector [of_Z 1]);
    const_node (fresh_name "Const" (2 + k))
      (of_vector [of_Z (Z.of_nat (hidden_size (rnn_props s)))]);
    onnx_node "Concat" (3 + k)
      [fresh_name "Const" (1 + k) +:+ ":0"; batch_out; fresh_name "Const" (2 + k) +:+ ":0"]
      [("axis", AInt 0)] 1;
    onnx_node "Cast" (4 + k) [fresh_name "Concat" (3 + k) +:+ ":0"] [("to", AInt 7)] 1;
    const_node (fresh_name "Const" (5 + k))
      (NdArray (1 :: 1 :: 1 :: shape fill_val) (data fill_val));
    onnx_node "Tile" (6 + k)
      [fresh_name "Const" (5 + k) +:+ ":0"; fresh_name "Cast" (4 + k) +:+ ":0"] [] 1 ].

End InitialNodes.

(** A hidden initial state produced by a node that is neither a constant
    nor a Fill, read by a node of the graph. *)
Definition tuple_heap : list (Node Z) :=
  [ plain_node "init_h" "Placeholder" [];
    plain_node "enter_h" "Enter" ["init_h:0"] ].

Definition tuple_state : state Z :=
  mkState tuple_heap (seq 0 2) ∅ (seq 0 2) [] 1 (init_props ∅).

(** ** Facts about the numpy operations *)

Section NumpyFacts.
Context {A : Type} `{Scalar A}.
Implicit Types (m : matrix A) (r v : list A).

Lemma zip_with_app_map {X} (f g : X → list A) (l : list X) :
  zip_with app (map f l) (map g l) = map (fun x => f x ++ g x) l.
Proof. induction l as [|x l IH]; simpl; [done|]. by rewrite IH. Qed.

Lemma gate_block_0 h (a rest : list A) :
  length a = h → gate_block h 0 (a ++ rest) = a.
Proof. intros Ha. unfold gate_block. simpl. by apply take_app_length'. Qed.

Lemma gate_block_S h i (a rest : list A) :
  length a = h → gate_block h (S i) (a ++ rest) = gate_block h i rest.
Proof.
  intros Ha. unfold gate_block.
  replace (S i * h) with (length a + i * h) by lia.
  by rewrite drop_app_add.
Qed.

Lemma gate_block_last h (a : list A) : length a = h → gate_block h 0 a = a.
Proof. intros Ha. unfold gate_block. simpl. apply take_ge. lia. Qed.

Lemma gate_blocks_cover h v :
  length v = 4 * h →
  v = gate_block h 0 v ++ gate_block h 1 v ++ gate_block h 2 v ++ gate_block h 3 v.
Proof.
  intros Hv. unfold gate_block. simpl.
  rewrite !Nat.add_0_r.
  rewrite <- (take_drop h v) at 1. f_equal.
  rewrite <- (take_drop h (drop h v)) at 1. f_equal.
  rewrite drop_drop.
  rewrite <- (take_drop h (drop (h + h) v)) at 1. f_equal.
  rewrite drop_drop.
  replace (h + h + h) with (h + (h + h)) by lia.
  symmetry. apply take_ge. rewrite length_drop. lia.
Qed.

Lemma length_gate_block h i v :
  length v = 4 * h → i < 4 → length (gate_block h i v) = h.
Proof.
  intros Hv Hi. unfold gate_block. rewrite length_take, length_drop. nia.
Qed.

Lemma length_swap_gates h v : length v = 4 * h → length (swap_gates h v) = 4 * h.
Proof.
  intros Hv. unfold swap_gates. rewrite !length_app, !length_gate_block by (done || lia). lia.
Qed.

Lemma swap_gates_app4 h (a b c d : list A) :
  length a = h → length b = h → length c = h → length d = h →
  swap_gates h (a ++ b ++ c ++ d) = a ++ d ++ c ++ b.
Proof.
  intros La Lb Lc Ld. unfold swap_gates.
  rewrite gate_block_0 by done.
  rewrite !gate_block_S by done.
  rewrite (gate_block_0 h b) by done.
  rewrite (gate_block_0 h c) by done.
  by rewrite (gate_block_last h d) by done.
Qed.

Lemma swap_gates_involutive h v : length v = 4 * h → swap_gates h (swap_gates h v) = v.
Proof.
  intros Hv.
  pose proof (length_gate_block h 0 v Hv ltac:(lia)) as L0.
  pose proof (length_gate_block h 1 v Hv ltac:(lia)) as L1.
  pose proof (length_gate_block h 2 v Hv ltac:(lia)) as L2.
  pose proof (length_gate_block h 3 v Hv ltac:(lia)) as L3.
  pose proof (gate_blocks_cover h v Hv) as Hc.
  unfold swap_gates at 2.
  rewrite swap_gates_app4 by done.
  by rewrite <- Hc.
Qed.

Lemma omap_cons {X Y} (f : X → option Y) (x : X) (l : list X) :
  omap f (x :: l) = match f x with Some y => y :: omap f l | None => omap f l end.
Proof. done. Qed.

Lemma omap_map {X Y Z'} (f : Y → option Z') (g : X → Y) (l : list X) :
  omap f (map g l) = omap (fun x => f (g x)) l.
Proof.
  induction l as [|x l IH]; [done|]. cbn [map]. rewrite !omap_cons.
  by rewrite IH.
Qed.

Lemma omap_ext_in {X Y} (f g : X → option Y) (l : list X) :
  (∀ x, x ∈ l → f x = g x) → omap f l = omap g l.
Proof.
  induction l as [|x l IH]; intros Hfg; [done|]. rewrite !omap_cons.
  rewrite (Hfg x) by apply list_elem_of_here.
  rewrite IH; [done|]. intros y Hy. apply Hfg. by apply list_elem_of_further.
Qed.

Lemma omap_lookup_seq (l : list A) : omap (fun j => l !! j) (seq 0 (length l)) = l.
Proof.
  induction l as [|x l IH]; [done|]. cbn [length seq]. rewrite omap_cons.
  cbn [lookup list_lookup].
  rewrite <- fmap_S_seq. change (S <$> seq 0 (length l)) with (map S (seq 0 (length l))).
  rewrite omap_map. rewrite (omap_ext_in _ (fun j => l !! j)) by done.
  by rewrite IH.
Qed.

Lemma column_lookup (rs : list (list A)) j i :
  Forall (fun r => j < length r) rs →
  column j rs !! i = rs !! i ≫= (fun r => r !! j).
Proof.
  unfold column. intros Hf. revert i.
  induction Hf as [|r rs Hr Hf IH]; intros i; [done|]. rewrite omap_cons.
  destruct (lookup_lt_is_Some_2 r j Hr) as [x Hx]. rewrite Hx.
  destruct i as [|i]; simpl; [done|]. apply IH.
Qed.

Lemma np_transpose_involutive m : wf_matrix m → np_transpose (np_transpose m) = m.
Proof.
  destruct m as [r c rs]. unfold wf_matrix, np_transpose. simpl.
  intros [Hl Hf]. f_equal.
  apply list_eq. intros i. rewrite list_lookup_fmap.
  destruct (decide (i < r)) as [Hi|Hi].
  - rewrite lookup_seq_lt by done. simpl.
    destruct (lookup_lt_is_Some_2 rs i ltac:(lia)) as [ri Hri]. rewrite Hri.
    f_equal. unfold column at 1. rewrite omap_map.
    assert (length ri = c) as Hc.
    { rewrite Forall_lookup in Hf. by apply (Hf i). }
    rewrite (omap_ext_in _ (fun j => ri !! j)).
    + rewrite <- Hc. apply omap_lookup_seq.
    + intros j Hj%elem_of_seq. rewrite column_lookup.
      * by rewrite Hri.
      * eapply Forall_impl; [exact Hf|]. simpl. intros; lia.
  - rewrite lookup_seq_ge by lia. simpl. symmetry. apply lookup_ge_None. lia.
Qed.

Lemma chunks_concat (rs : list (list A)) c :
  Forall (fun r => length r = c) rs → chunks (length rs) c (concat rs) = rs.
Proof.
  induction 1 as [|r rs Hr Hf IH]; simpl; [done|].
  rewrite take_app_length', drop_app_length' by done. by rewrite IH.
Qed.

Lemma length_concat_rows (rs : list (list A)) c :
  Forall (fun r => length r = c) rs → length (concat rs) = length rs * c.
Proof.
  induction 1 as [|r rs Hr Hf IH]; simpl; [done|].
  rewrite length_app, IH. lia.
Qed.

(** Packing a matrix as a tensor with a leading axis and reading it back. *)
Lemma to_matrix_of_matrix m : wf_matrix m → to_matrix (of_matrix m) = Ok m.
Proof.
  destruct m as [r c rs]. unfold wf_matrix, to_matrix, of_matrix. simpl.
  intros [Hl Hf]. subst r. by rewrite chunks_concat.
Qed.

Lemma get0_expand_dims0_of_matrix m :
  wf_matrix m → ndarray_get0 (np_expand_dims0 (of_matrix m)) = Ok (of_matrix m).
Proof.
  destruct m as [r c rs]. unfold wf_matrix, ndarray_get0, np_expand_dims0, of_matrix.
  simpl. intros [Hl Hf]. f_equal. f_equal.
  apply take_ge. rewrite (length_concat_rows rs c Hf). lia.
Qed.

Lemma wf_np_transpose m : wf_matrix m → wf_matrix (np_transpose m).
Proof.
  destruct m as [r c rs]. unfold wf_matrix, np_transpose. simpl.
  intros [Hl Hf]. split.
  - by rewrite length_map, length_seq.
  - apply Forall_forall. intros col Hcol.
    apply list_elem_of_fmap in Hcol as [j [-> Hj%elem_of_seq]].
    unfold column. subst r. clear -Hf Hj.
    induction Hf as [|x rs Hx Hf IH]; [done|]. rewrite omap_cons.
    destruct (lookup_lt_is_Some_2 x j ltac:(lia)) as [y Hy]. rewrite Hy. simpl.
    by rewrite IH.
Qed.

Lemma np_split4_axis1_ok m :
  ncols m mod 4 = 0 →
  np_split4_axis1 m =
    Ok (col_block m (ncols m / 4) 0, col_block m (ncols m / 4) 1,
        col_block m (ncols m / 4) 2, col_block m (ncols m / 4) 3).
Proof. intros Hm. unfold np_split4_axis1. by rewrite decide_True. Qed.

Lemma np_concatenate_axis1_2 (a b : matrix A) :
  nrows a = nrows b → np_concatenate_axis1 [a; b] = Ok (hstack a b).
Proof. intros Hab. cbn [np_concatenate_axis1 res_bind]. by rewrite decide_True. Qed.

Lemma np_concatenate_axis1_4 (a b c d : matrix A) :
  nrows b = nrows a → nrows c = nrows a → nrows d = nrows a →
  np_concatenate_axis1 [a; b; c; d] = Ok (hstack a (hstack b (hstack c d))).
Proof.
  intros Hb Hc Hd. cbn [np_concatenate_axis1 res_bind].
  rewrite decide_True by congruence. cbn [res_bind hstack nrows].
  rewrite decide_True by congruence. cbn [res_bind hstack nrows].
  by rewrite decide_True by congruence.
Qed.

Lemma hstack_blocks_0321 m :
  hstack (col_block m (ncols m / 4) 0)
    (hstack (col_block m (ncols m / 4) 3)
       (hstack (col_block m (ncols m / 4) 2) (col_block m (ncols m / 4) 1)))
  = swap_gate_columns m.
Proof.
  unfold swap_gate_columns. cbv zeta. generalize (ncols m / 4). intros w.
  unfold hstack, col_block. cbn [nrows ncols rows].
  by rewrite !zip_with_app_map.
Qed.

Lemma split4_concat_0321 m :
  ncols m mod 4 = 0 →
  (try (g0, g1, g2, g3) := np_split4_axis1 m in
   np_concatenate_axis1 [g0; g3; g2; g1]) = Ok (swap_gate_columns m).
Proof.
  intros Hm. rewrite np_split4_axis1_ok by done. cbn [res_bind].
  rewrite np_concatenate_axis1_4 by done. by rewrite hstack_blocks_0321.
Qed.

Lemma wf_swap_gate_columns m :
  wf_matrix m → ncols m mod 4 = 0 → wf_matrix (swap_gate_columns m).
Proof.
  destruct m as [r c rs]. unfold wf_matrix, swap_gate_columns. cbn [nrows ncols rows].
  intros [Hl Hf] Hc. split.
  - by rewrite length_map.
  - apply Forall_fmap. eapply Forall_impl; [exact Hf|]. cbn beta. intros v Hv.
    pose proof (Nat.div_mod_eq c 4). unfold compose.
    rewrite length_swap_gates; lia.
Qed.

Lemma swap_gate_columns_involutive m :
  wf_matrix m → ncols m mod 4 = 0 →
  swap_gate_columns (swap_gate_columns m) = m.
Proof.
  destruct m as [r c rs]. unfold wf_matrix, swap_gate_columns. cbn [nrows ncols rows].
  intros [Hl Hf] Hc.
  pose proof (Nat.div_mod_eq c 4) as Hd.
  set (w := c / 4) in *. clearbody w.
  assert ((w + (w + (w + w))) / 4 = w) as ->.
  { symmetry. apply (Nat.div_unique _ 4 w 0); lia. }
  f_equal; [lia|].
  rewrite <- list_fmap_compose. rewrite <- (list_fmap_id rs) at 2.
  apply Forall_fmap_ext. eapply Forall_impl; [exact Hf|]. cbn beta. intros v Hv.
  unfold compose, id. apply swap_gates_involutive. lia.
Qed.

Lemma fused_to_native_swap m :
  ncols m mod 4 = 0 → fused_to_native m = Ok (swap_gate_columns m).
Proof. intros Hm. unfold fused_to_native. by apply split4_concat_0321. Qed.

End NumpyFacts.

Section WeightsFacts.
Context {A : Type} `{Scalar A}.

Lemma arrays_ok_inv (k : matrix A) (b f : list A) W R B n h :
  process_weights_and_bias_arrays k b f = Ok (W, R, B, n, h) →
  length b mod 4 = 0 ∧ h = length b / 4.
Proof.
  unfold process_weights_and_bias_arrays, np_split4_axis1 at 1.
  cbn [np_reshape_row ncols].
  destruct (decide (length b mod 4 = 0)) as [Hm|Hm]; [|discriminate].
  intros Hok. split; [done|].
  repeat match type of Hok with
  | res_bind ?r _ = _ => destruct r; cbn [res_bind] in Hok; [|discriminate]
  | (let '(_, _) := ?p in _) = _ => destruct p
  | (if ?c then _ else _) = _ => destruct c; [discriminate|]
  | context [match ?p with (_, _) => _ end] => destruct p
  end.
  by injection Hok.
Qed.

Lemma arrays_bias_not_multiple_of_4 (k : matrix A) (b f : list A) :
  length b mod 4 ≠ 0 →
  process_weights_and_bias_arrays k b f =
    Raise (ValueError "array split does not result in an equal division").
Proof.
  intros Hm. unfold process_weights_and_bias_arrays, np_split4_axis1 at 1.
  cbn [np_reshape_row ncols]. by rewrite decide_False.
Qed.

Lemma mod4_mul h : (4 * h) mod 4 = 0.
Proof. rewrite Nat.mul_comm. apply Nat.Div0.mod_mul. Qed.

Lemma div4_mul h : (4 * h) / 4 = h.
Proof. rewrite Nat.mul_comm. by apply Nat.div_mul. Qed.

Lemma wf_split_axis0_at (k : matrix A) (i : Z) :
  wf_matrix k →
  wf_matrix (fst (np_split_axis0_at k i)) ∧ wf_matrix (snd (np_split_axis0_at k i)).
Proof.
  destruct k as [r c rs]. unfold wf_matrix, np_split_axis0_at. cbn [nrows ncols rows fst snd].
  intros [Hl Hf].
  assert (py_index i r ≤ r) as Hle.
  { unfold py_index. destruct (i <? 0)%Z eqn:Hi; lia. }
  repeat split.
  - rewrite length_take. lia.
  - by apply Forall_take.
  - rewrite length_drop. lia.
  - by apply Forall_drop.
Qed.

Lemma arrays_ok (k : matrix A) (b : list A) (ft0 : A) (ftl : list A) (isz h : nat) :
  wf_matrix k → nrows k = isz + h → ncols k = 4 * h → length b = 4 * h →
  process_weights_and_bias_arrays k b (ft0 :: ftl) =
    Ok (np_expand_dims0 (of_matrix (np_transpose (swap_gate_columns
            (fst (np_split_axis0_at k (- Z.of_nat h)))))),
        np_expand_dims0 (of_matrix (np_transpose (swap_gate_columns
            (snd (np_split_axis0_at k (- Z.of_nat h)))))),
        NdArray [1; 2 * length b] (fused_bias_row h ft0 b ++ replicate (length b) (of_Z 0)),
        nrows (fst (np_split_axis0_at k (- Z.of_nat h))), h).
Proof.
  intros Hwf Hr Hc Hb.
  assert (length b mod 4 = 0) as Hmod by (rewrite Hb; apply mod4_mul).
  assert (length b / 4 = h) as Hdiv by (rewrite Hb; apply div4_mul).
  unfold process_weights_and_bias_arrays. cbv zeta.
  rewrite np_split4_axis1_ok by done. cbn [np_reshape_row ncols].
  rewrite !Hdiv. cbn [res_bind].
  rewrite np_concatenate_axis1_4 by done. cbn [res_bind].
  rewrite np_concatenate_axis1_2 by done. cbn [res_bind].
  rewrite bool_decide_eq_true_2; [|split; [done|cbn; lia]]. cbn [negb].
  destruct (np_split_axis0_at k (- Z.of_nat h)) as [wx wh] eqn:Hsplit.
  cbn [fst snd].
  assert (ncols wx = 4 * h ∧ ncols wh = 4 * h) as [Hcx Hch].
  { unfold np_split_axis0_at in Hsplit. injection Hsplit as <- <-. by cbn [ncols]. }
  rewrite Hcx, div4_mul. rewrite bool_decide_eq_true_2 by done. cbn [negb].
  rewrite (np_split4_axis1_ok wx) by (rewrite Hcx; apply mod4_mul). cbn [res_bind].
  rewrite np_concatenate_axis1_4 by done. cbn [res_bind].
  rewrite (np_split4_axis1_ok wh) by (rewrite Hch; apply mod4_mul). cbn [res_bind].
  rewrite np_concatenate_axis1_4 by done. cbn [res_bind].
  rewrite !hstack_blocks_0321.
  f_equal. f_equal. f_equal. f_equal.
  unfold of_matrix, hstack, col_block, np_add_scalar, np_zeros_row, np_reshape_row.
  cbn [nrows ncols rows map zip_with concat].
  rewrite app_nil_r.
  replace (h + (h + (h + h)) + length b) with (2 * length b) by lia.
  reflexivity.
Qed.

Lemma native_of_fused_weight_back (wx : matrix A) :
  wf_matrix wx → ncols wx mod 4 = 0 →
  native_of_fused_weight
    (np_expand_dims0 (of_matrix (np_transpose (swap_gate_columns wx)))) = Ok wx.
Proof.
  intros Hwf Hm. unfold native_of_fused_weight.
  pose proof (wf_swap_gate_columns wx Hwf Hm) as Hwf'.
  rewrite get0_expand_dims0_of_matrix by by apply wf_np_transpose.
  cbn [res_bind]. rewrite to_matrix_of_matrix by by apply wf_np_transpose.
  cbn [res_bind]. rewrite np_transpose_involutive by done.
  assert (ncols (swap_gate_columns wx) mod 4 = 0) as Hm'.
  { unfold swap_gate_columns. cbn [ncols].
    replace (ncols wx / 4 + (ncols wx / 4 + (ncols wx / 4 + ncols wx / 4)))
      with (4 * (ncols wx / 4)) by lia.
    apply mod4_mul. }
  rewrite fused_to_native_swap by done.
  by rewrite swap_gate_columns_involutive.
Qed.

Lemma split_axis0_concat (k : matrix A) (i : Z) :
  wf_matrix k →
  np_concatenate_axis0 (fst (np_split_axis0_at k i)) (snd (np_split_axis0_at k i)) = Ok k.
Proof.
  destruct k as [r c rs]. unfold wf_matrix, np_split_axis0_at, np_concatenate_axis0.
  cbn [nrows ncols rows fst snd]. intros [Hl Hf].
  assert (py_index i r ≤ r) as Hle.
  { unfold py_index. destruct (i <? 0)%Z eqn:Hi; lia. }
  rewrite decide_True by done. rewrite take_drop.
  by replace (py_index i r + (r - py_index i r)) with r by lia.
Qed.

Lemma length_fused_bias_row h (ft0 : A) (b : list A) :
  length b = 4 * h → length (fused_bias_row h ft0 b) = 4 * h.
Proof.
  intros Hb. unfold fused_bias_row.
  rewrite !length_app, length_map, !length_gate_block by (done || lia). lia.
Qed.

Lemma native_bias_back h (ft0 : A) (b : list A) :
  length b = 4 * h →
  native_bias_of
    (NdArray [1; 2 * length b] (fused_bias_row h ft0 b ++ replicate (length b) (of_Z 0)))
  = Ok (Matrix 1 (length b) [add_forget_bias h ft0 b]).
Proof.
  intros Hb. pose proof (length_fused_bias_row h ft0 b Hb) as Hl.
  unfold native_bias_of, bias_halves, to_matrix. cbn [shape data res_bind ncols chunks].
  assert ((2 * length b) mod 2 = 0) as Hm2.
  { rewrite Nat.mul_comm. apply Nat.Div0.mod_mul. }
  assert ((2 * length b) / 2 = length b) as Hd2.
  { rewrite Nat.mul_comm. by apply Nat.div_mul. }
  rewrite decide_True by done. rewrite Hd2. cbn [res_bind fst].
  rewrite fused_to_native_swap by (cbn [col_block ncols]; rewrite Hb; apply mod4_mul).
  unfold swap_gate_columns, col_block. cbn [nrows ncols rows map drop].
  rewrite Hb at 1 2 3 4 5. rewrite !div4_mul.
  rewrite (take_ge (fused_bias_row h ft0 b ++ replicate (length b) (of_Z 0)))
    by (rewrite length_app, length_replicate; lia).
  rewrite Nat.mul_0_l, drop_0.
  rewrite (take_app_length' (fused_bias_row h ft0 b)) by lia.
  unfold fused_bias_row at 1.
  rewrite swap_gates_app4
    by (rewrite ?length_map; apply length_gate_block; (done || lia)).
  f_equal. f_equal. lia.
Qed.

End WeightsFacts.

(** ** Facts about the monad and the graph model *)

Section RewriterFacts.
Context {A : Type} `{Scalar A}.
Implicit Types (s : state A) (n : Node A).

Lemma run_bind {X Y} (m : M A X) (k : X → M A Y) s :
  bind m k s = match m s with
               | (Ok x, s') => k x s'
               | (Raise e, s') => (Raise e, s')
               end.
Proof. reflexivity. Qed.

Lemma bind_run_ok {X Y} (m : M A X) (k : X → M A Y) s x s' :
  m s = (Ok x, s') → bind m k s = k x s'.
Proof. intros Hm. by rewrite run_bind, Hm. Qed.

Lemma bind_run_raise {X Y} (m : M A X) (k : X → M A Y) s e s' :
  m s = (Raise e, s') → bind m k s = (Raise e, s').
Proof. intros Hm. by rewrite run_bind, Hm. Qed.

Lemma bind_reads_ok {X Y} (f : state A → res X) (k : X → M A Y) s x :
  f s = Ok x → bind (reads f) k s = k x s.
Proof. intros Hf. unfold bind, reads. by rewrite Hf. Qed.

Lemma bind_reads_raise {X Y} (f : state A → res X) (k : X → M A Y) s e :
  f s = Raise e → bind (reads f) k s = (Raise e, s).
Proof. intros Hf. unfold bind, reads. by rewrite Hf. Qed.

Lemma bind_modify {Y} (f : state A → state A) (k : unit → M A Y) s :
  bind (modify f) k s = k tt (f s).
Proof. reflexivity. Qed.

Lemma bind_make_name {Y} (base : string) (k : string → M A Y) s :
  bind (make_name base) k s =
    k (fresh_name base (S (INTERNAL_NAME s))) (set_INTERNAL_NAME (S (INTERNAL_NAME s)) s).
Proof. reflexivity. Qed.

Lemma bind_make_const {Y} (nm : string) (val : ndarray A) (k : loc → M A Y) s :
  bind (make_const nm val) k s =
    k (length (heap s)) (set_heap (heap s ++ [const_node nm val]) s).
Proof. reflexivity. Qed.

Lemma bind_make_onnx_node {Y} op ins attrs cnt (k : loc → M A Y) s :
  bind (make_onnx_node op ins attrs cnt) k s =
    k (length (heap s))
      (set_heap (heap s ++ [onnx_node op (S (INTERNAL_NAME s)) ins attrs cnt])
                (set_INTERNAL_NAME (S (INTERNAL_NAME s)) s)).
Proof. reflexivity. Qed.

Lemma output_names_1 (nm : string) : output_names nm 1 = [nm +:+ ":0"].
Proof. reflexivity. Qed.

Lemma output_at_new s (h : list (Node A)) n (rest : list (Node A)) (o : string) os :
  heap s = h ++ n :: rest → output n = o :: os → output_at s (length h) 0 = Ok o.
Proof.
  intros Hh Ho. unfold output_at, node_at. rewrite Hh.
  rewrite list_lookup_middle by done. cbn [res_bind]. by rewrite Ho.
Qed.

Lemma process_weights_and_bias_ok (rw : RnnWeights A) s W R B isz h :
  process_weights_and_bias_arrays (kernel rw) (bias rw) (forget_bias rw)
    = Ok (W, R, B, isz, h) →
  process_weights_and_bias rw s = (Ok (isz, h), weights_emitted s W R B isz h).
Proof.
  intros Harr. unfold process_weights_and_bias.
  rewrite (bind_reads_ok _ _ _ _ Harr).
  rewrite bind_make_name, bind_make_const, bind_make_name, bind_make_const,
    bind_make_name, bind_make_const.
  rewrite !bind_modify.
  erewrite bind_reads_ok; cycle 1.
  { eapply (output_at_new _ (heap s)); [cbn; by rewrite <- !app_assoc|reflexivity]. }
  rewrite bind_modify.
  erewrite bind_reads_ok; cycle 1.
  { eapply (output_at_new _ (heap s ++ [_])); [cbn; by rewrite <- !app_assoc|reflexivity]. }
  rewrite bind_modify.
  erewrite bind_reads_ok; cycle 1.
  { eapply (output_at_new _ ((heap s ++ [_]) ++ [_]) _ []); [cbn; done|reflexivity]. }
  rewrite bind_modify.
  reflexivity.
Qed.

Lemma process_weights_and_bias_raise (rw : RnnWeights A) s e :
  process_weights_and_bias_arrays (kernel rw) (bias rw) (forget_bias rw) = Raise e →
  process_weights_and_bias rw s = (Raise e, s).
Proof.
  intros Harr. unfold process_weights_and_bias.
  by rewrite (bind_reads_raise _ _ _ _ Harr).
Qed.

End RewriterFacts.

(** ** The weight/bias transformation (claims C1, C2, C3) *)

Lemma wf_kernel_3x4 : wf_matrix kernel_3x4.
Proof. split; [reflexivity|]. repeat constructor. Qed.

Lemma gate_blocks_fused_bias_row {A : Type} `{Scalar A} h (ft0 : A) (b : list A) :
  length b = 4 * h →
  gate_block h 0 (fused_bias_row h ft0 b) = gate_block h 0 b ∧
  gate_block h 1 (fused_bias_row h ft0 b) = gate_block h 3 b ∧
  gate_block h 2 (fused_bias_row h ft0 b) = map (fun a => add a ft0) (gate_block h 2 b) ∧
  gate_block h 3 (fused_bias_row h ft0 b) = gate_block h 1 b.
Proof.
  intros Hb. unfold fused_bias_row.
  pose proof (length_gate_block h 0 b Hb ltac:(lia)) as L0.
  pose proof (length_gate_block h 1 b Hb ltac:(lia)) as L1.
  pose proof (length_gate_block h 2 b Hb ltac:(lia)) as L2.
  pose proof (length_gate_block h 3 b Hb ltac:(lia)) as L3.
  assert (length (map (fun a => add a ft0) (gate_block h 2 b)) = h) as L2'
    by by rewrite length_map.
  repeat split.
  - by rewrite gate_block_0.
  - rewrite gate_block_S by done. by rewrite gate_block_0.
  - rewrite !gate_block_S by done. by rewrite gate_block_0.
  - rewrite !gate_block_S by done. by rewrite gate_block_last.
Qed.

(** C1: on a kernel of shape (input_size + hidden_size, 4 * hidden_size)
    and a bias of length 4 * hidden_size the transformation succeeds and
    emits constants W, R and B from which the native tensors are read back
    exactly: dropping the leading axis of W and of R, undoing the
    transpose, regrouping the four fused-order blocks in native order and
    stacking the input rows on the hidden rows gives the kernel; the first
    half of B regrouped the same way gives the bias with the forget bias
    added to its forget block. *)
Theorem process_weights_and_bias_permutes_gates {A : Type} `{Scalar A}
    (rw : RnnWeights A) (s : state A) (isz h : nat) (ft0 : A) :
  wf_matrix (kernel rw) →
  nrows (kernel rw) = isz + h →
  ncols (kernel rw) = 4 * h →
  length (bias rw) = 4 * h →
  forget_bias rw = [ft0] →
  ∃ W R B n,
    process_weights_and_bias rw s = (Ok (n, h), weights_emitted s W R B n h) ∧
    native_kernel_of W R = Ok (kernel rw) ∧
    native_bias_of B = Ok (Matrix 1 (length (bias rw)) [add_forget_bias h ft0 (bias rw)]).
Proof.
  intros Hwf Hr Hc Hb Hft.
  pose proof (arrays_ok (kernel rw) (bias rw) ft0 [] isz h Hwf Hr Hc Hb) as Harr.
  rewrite <- Hft in Harr.
  eexists _, _, _, _. split; [|split].
  - by apply process_weights_and_bias_ok.
  - destruct (wf_split_axis0_at (kernel rw) (- Z.of_nat h) Hwf) as [Hwx Hwh].
    unfold native_kernel_of.
    rewrite !native_of_fused_weight_back; try done.
    + cbn [res_bind]. by apply split_axis0_concat.
    + unfold np_split_axis0_at. cbn [snd ncols]. rewrite Hc. apply mod4_mul.
    + unfold np_split_axis0_at. cbn [fst ncols]. rewrite Hc. apply mod4_mul.
  - by apply native_bias_back.
Qed.

Lemma process_weights_and_bias_permutes_gates_witness :
  ∃ W R B n,
    process_weights_and_bias weights_3x4 empty_state
      = (Ok (n, 1), weights_emitted empty_state W R B n 1) ∧
    native_kernel_of W R = Ok kernel_3x4 ∧
    native_bias_of B = Ok (Matrix 1 4 [[10; 20; 130; 40]%Z]).
Proof.
  exact (process_weights_and_bias_permutes_gates weights_3x4 empty_state 2 1 100%Z
           wf_kernel_3x4 eq_refl eq_refl eq_refl eq_refl).
Defined.

(** C2: the bias constant B has shape (1, 2 * length of the native bias);
    in its first half the forget block is the native forget block with the
    forget bias added to every element, the input, output and cell blocks
    are the native input, output and cell blocks, and its second half is
    all zeros. *)
Theorem process_weights_and_bias_folds_forget_bias {A : Type} `{Scalar A}
    (rw : RnnWeights A) (s : state A) (isz h : nat) (ft0 : A) :
  wf_matrix (kernel rw) →
  nrows (kernel rw) = isz + h →
  ncols (kernel rw) = 4 * h →
  length (bias rw) = 4 * h →
  forget_bias rw = [ft0] →
  ∃ W R B n,
    process_weights_and_bias rw s = (Ok (n, h), weights_emitted s W R B n h) ∧
    shape B = [1; 2 * length (bias rw)] ∧
    let first := take (length (bias rw)) (data B) in
    let second := drop (length (bias rw)) (data B) in
    gate_block h 2 first = map (fun a => add a ft0) (gate_block h 2 (bias rw)) ∧
    gate_block h 0 first = gate_block h 0 (bias rw) ∧
    gate_block h 1 first = gate_block h 3 (bias rw) ∧
    gate_block h 3 first = gate_block h 1 (bias rw) ∧
    second = replicate (length (bias rw)) (of_Z 0).
Proof.
  intros Hwf Hr Hc Hb Hft.
  pose proof (arrays_ok (kernel rw) (bias rw) ft0 [] isz h Hwf Hr Hc Hb) as Harr.
  rewrite <- Hft in Harr.
  pose proof (length_fused_bias_row h ft0 (bias rw) Hb) as Hl.
  destruct (gate_blocks_fused_bias_row h ft0 (bias rw) Hb) as (G0 & G1 & G2 & G3).
  eexists _, _, _, _. split; [by apply process_weights_and_bias_ok|].
  cbn [shape data]. split; [done|]. cbv zeta.
  rewrite take_app_length', drop_app_length' by lia.
  done.
Qed.

Lemma process_weights_and_bias_folds_forget_bias_witness :
  ∃ W R B n,
    process_weights_and_bias weights_3x4 empty_state
      = (Ok (n, 1), weights_emitted empty_state W R B n 1) ∧
    shape B = [1; 8] ∧
    let first := take 4 (data B) in
    let second := drop 4 (data B) in
    gate_block 1 2 first = [130%Z] ∧
    gate_block 1 0 first = [10%Z] ∧
    gate_block 1 1 first = [40%Z] ∧
    gate_block 1 3 first = [20%Z] ∧
    second = [0; 0; 0; 0]%Z.
Proof.
  exact (process_weights_and_bias_folds_forget_bias weights_3x4 empty_state 2 1 100%Z
           wf_kernel_3x4 eq_refl eq_refl eq_refl eq_refl).
Defined.

(** C3: a bias whose length is no multiple of 4 makes
    [process_weights_and_bias] raise (the ValueError of [np.split]) before
    any node is made or any property recorded: the state is unchanged; and
    whenever it returns, the hidden size it returns and records is exactly
    a quarter of the bias length. *)
Theorem process_weights_and_bias_hidden_size_exact {A : Type} `{Scalar A}
    (rw : RnnWeights A) (s : state A) :
  (length (bias rw) mod 4 ≠ 0 →
   process_weights_and_bias rw s =
     (Raise (ValueError "array split does not result in an equal division"), s))
  ∧ (∀ n h s', process_weights_and_bias rw s = (Ok (n, h), s') →
       length (bias rw) = 4 * h ∧ hidden_size (rnn_props s') = h).
Proof.
  split.
  - intros Hm. apply process_weights_and_bias_raise.
    by apply arrays_bias_not_multiple_of_4.
  - intros n h s' Hrun.
    destruct (process_weights_and_bias_arrays (kernel rw) (bias rw) (forget_bias rw))
      as [[[[[W R] B] n'] h']|e] eqn:Harr.
    + rewrite (process_weights_and_bias_ok rw s W R B n' h' Harr) in Hrun.
      injection Hrun as -> -> <-.
      apply arrays_ok_inv in Harr as [Hm ->]. split; [|done].
      pose proof (Nat.div_mod_eq (length (bias rw)) 4). lia.
    + rewrite (process_weights_and_bias_raise rw s e Harr) in Hrun. discriminate.
Qed.

Lemma process_weights_and_bias_hidden_size_exact_witness :
  process_weights_and_bias weights_bias6 empty_state =
    (Raise (ValueError "array split does not result in an equal division"), empty_state)
  ∧ (length (bias weights_3x4) = 4 * 1 ∧
     hidden_size (rnn_props (snd (process_weights_and_bias weights_3x4 empty_state))) = 1).
Proof.
  split.
  - apply (proj1 (process_weights_and_bias_hidden_size_exact weights_bias6 empty_state)).
    vm_compute. discriminate.
  - apply (proj2 (process_weights_and_bias_hidden_size_exact weights_3x4 empty_state)
             2 1 (snd (process_weights_and_bias weights_3x4 empty_state))).
    vm_compute. reflexivity.
Defined.

(** ** The loop-state classifiers (claims C6, C7) *)

Lemma filter_res_pure {X} (p : X → res bool) (f : X → bool) (l : list X) :
  (∀ x, p x = Ok (f x)) → filter_res p l = Ok (filter (fun x => f x = true) l).
Proof.
  intros Hp. induction l as [|x l IH]; [done|].
  cbn [filter_res]. rewrite Hp, IH. cbn [res_bind].
  rewrite filter_cons. by destruct (f x); [rewrite decide_True|rewrite decide_False].
Qed.

(** C7, as the code has it: the check returns the entry tensor id exactly
    when one of the identity's consumers is the node bound to role "xh";
    consumers that are other nodes are not counted. *)
Theorem ht_switch_check_counts_xh
    (id : string) (cs : list loc) (m : gmap string loc) (xh : loc) :
  m !! "xh" = Some xh →
  _ht_switch_check id cs m =
    Ok (if decide (length (filter (fun c => c = xh) cs) = 1) then Some id else None).
Proof.
  intros Hxh. unfold _ht_switch_check.
  rewrite (filter_res_pure _ (fun c => bool_decide (c = xh))).
  - cbn [res_bind].
    assert (filter (fun c => bool_decide (c = xh) = true) cs = filter (fun c => c = xh) cs)
      as ->; [|by case_decide].
    apply list_filter_iff. intros c. by rewrite bool_decide_eq_true.
  - intros c. unfold get_op. by rewrite Hxh.
Qed.

Lemma ht_switch_check_counts_xh_witness :
  _ht_switch_check "init:0" [7; 5; 7] {["xh" := 5]} =
    Ok (if decide (length (filter (fun c => c = 5) [7; 5; 7]) = 1)
        then Some "init:0" else None).
Proof.
  apply (ht_switch_check_counts_xh "init:0" [7; 5; 7] {["xh" := 5]} 5).
  reflexivity.
Defined.

(** C7, as stated, fails: an identity value with two consumers, the node
    bound to "xh" and another node, is accepted. *)
Lemma ht_switch_check_accepts_extra_consumer :
  length [5; 7] = 2 ∧
  _ht_switch_check "init:0" [5; 7] {["xh" := 5]} = Ok (Some "init:0").
Proof. split; reflexivity. Qed.

Section SharedSwitchFacts.
Context {A : Type} `{Scalar A}.

Lemma shared_switch_step_half (s : state A) c h hs sl r :
  slice_half_of s sl = Ok r →
  ∃ hs', shared_switch_step s (c, h, hs) sl =
    Ok (match r with Some CellHalf => Some sl | _ => c end,
        match r with Some HiddenHalf => Some sl | _ => h end, hs').
Proof.
  unfold slice_half_of, shared_switch_step.
  destruct (output_at s sl 0) as [o|]; cbn [res_bind]; [|discriminate].
  destruct (bool_decide (length (find_output_consumers s o) = 1)); cbn [negb].
  2:{ intros [= <-]. by eexists. }
  destruct (node_at s sl) as [n|]; cbn [res_bind]; [|discriminate].
  destruct (inputs_at s n 1) as [nb|]; cbn [res_bind]; [|discriminate].
  destruct (get_tensor_value nb) as [vb|]; cbn [res_bind]; [|discriminate].
  destruct (inputs_at s n 2) as [nz|]; cbn [res_bind]; [|discriminate].
  destruct (get_tensor_value nz) as [vz|]; cbn [res_bind]; [|discriminate].
  destruct (vector_of vz) as [z|]; cbn [res_bind]; [|discriminate].
  destruct (py_nth z 1) as [hw|]; cbn [res_bind]; [|discriminate].
  destruct (vector_of vb) as [b|]; cbn [res_bind]; [|discriminate].
  repeat case_decide; intros [= <-]; by eexists.
Qed.

Lemma shared_switch_loop_halves (s : state A) slices c h hs :
  Forall (fun sl => ∃ r, slice_half_of s sl = Ok r) slices →
  ∃ c' h' hs', shared_switch_loop s (c, h, hs) slices = Ok (c', h', hs') ∧
    is_set c' = is_set c || existsb (is_half s CellHalf) slices ∧
    is_set h' = is_set h || existsb (is_half s HiddenHalf) slices.
Proof.
  intros Hall. revert c h hs.
  induction Hall as [|sl slices [r Hr] Hall IH]; intros c h hs.
  - exists c, h, hs. cbn. by rewrite !orb_false_r.
  - destruct (shared_switch_step_half s c h hs sl r Hr) as [hs1 Hstep].
    cbn [shared_switch_loop]. rewrite Hstep. cbn [res_bind].
    destruct (IH (match r with Some CellHalf => Some sl | _ => c end)
                 (match r with Some HiddenHalf => Some sl | _ => h end) hs1)
      as (c' & h' & hs' & Hloop & Hc & Hh).
    exists c', h', hs'. split; [done|].
    assert (is_half s CellHalf sl = match r with Some CellHalf => true | _ => false end)
      as E1 by (unfold is_half; rewrite Hr; by destruct r as [[|]|]).
    assert (is_half s HiddenHalf sl = match r with Some HiddenHalf => true | _ => false end)
      as E2 by (unfold is_half; rewrite Hr; by destruct r as [[|]|]).
    rewrite Hc, Hh. cbn [existsb]. rewrite E1, E2.
    destruct r as [[|]|]; cbn; destruct c, h; cbn; by rewrite ?orb_true_r.
Qed.

End SharedSwitchFacts.

(** C6, as the code has it: when every Slice consumer can be read, the
    check returns the entry tensor id exactly when at least one Slice with
    a single consumer begins at [0, 0] and at least one Slice with a single
    consumer begins at [0, size[1]] of its own size operand; it returns no
    result otherwise, and also when there is no Slice. Several slices
    at the same offset are not told apart. *)
Theorem shared_switch_check_accepts {A : Type} `{Scalar A}
    (s : state A) (id : string) (cs : list loc) (m : gmap string loc)
    (slices : list loc) :
  filter_res (has_type s "Slice") cs = Ok slices →
  Forall (fun sl => ∃ r, slice_half_of s sl = Ok r) slices →
  _ct_ht_shared_switch_check s id cs m =
    Ok (if existsb (is_half s CellHalf) slices && existsb (is_half s HiddenHalf) slices
        then Some id else None).
Proof.
  intros Hf Hall. unfold _ct_ht_shared_switch_check. rewrite Hf. cbn [res_bind].
  destruct slices as [|sl slices]; [done|].
  destruct (shared_switch_loop_halves s (sl :: slices) None None None Hall)
    as (c' & h' & hs' & -> & Hc & Hh).
  cbn [res_bind]. cbn [is_set orb] in Hc, Hh. rewrite <- Hc, <- Hh.
  by destruct c', h'.
Qed.

Lemma shared_switch_check_accepts_witness :
  _ct_ht_shared_switch_check shared_slices_state "init:0" [3; 5; 6] ∅ =
    Ok (if existsb (is_half shared_slices_state CellHalf) [3; 5]
           && existsb (is_half shared_slices_state HiddenHalf) [3; 5]
        then Some "init:0" else None).
Proof.
  apply (shared_switch_check_accepts shared_slices_state "init:0" [3; 5; 6] ∅ [3; 5]).
  - vm_compute. reflexivity.
  - repeat constructor; eexists; vm_compute; reflexivity.
Defined.

(** C6, as stated, fails: with two single-consumer slices at offset 0 and
    one at the half-width offset the check accepts. *)
Lemma shared_switch_check_accepts_two_cell_slices :
  slice_half_of shared_slices_state 3 = Ok (Some CellHalf) ∧
  slice_half_of shared_slices_state 4 = Ok (Some CellHalf) ∧
  slice_half_of shared_slices_state 5 = Ok (Some HiddenHalf) ∧
  _ct_ht_shared_switch_check shared_slices_state "init:0" [3; 4; 5] ∅ = Ok (Some "init:0").
Proof. vm_compute. repeat split. Qed.

(** ** Facts about the graph model *)

Section GraphFacts.
Context {A : Type} `{Scalar A}.
Implicit Types (s : state A) (n : Node A).

(** Exceptions of the readers. *)
Lemma py_nth_raises {X} (l : list X) i e : py_nth l i = Raise e → e = IndexError.
Proof. unfold py_nth. case_match; congruence. Qed.

Lemma node_at_raises s l e : node_at s l = Raise e → e = AttributeError.
Proof. unfold node_at. case_match; congruence. Qed.

Lemma output_at_raises s l i e :
  output_at s l i = Raise e → e = AttributeError ∨ e = IndexError.
Proof.
  unfold output_at. destruct (node_at s l) as [n|e'] eqn:Hn; cbn [res_bind].
  - intros ?%py_nth_raises. by right.
  - intros [= <-]. left. by eapply node_at_raises.
Qed.

Lemma node_by_name_raises s id e : node_by_name s id = Raise e → e = AttributeError.
Proof.
  unfold node_by_name. case_match; [|congruence].
  destruct (node_at s _) eqn:Hn; cbn [res_bind]; [congruence|].
  intros [= <-]. by eapply node_at_raises.
Qed.

Lemma inputs_at_raises s n i e :
  inputs_at s n i = Raise e → e = AttributeError ∨ e = IndexError.
Proof.
  unfold inputs_at. destruct (py_nth _ _) eqn:Hp; cbn [res_bind].
  - destruct (node_by_name s _) eqn:Hn; cbn [res_bind]; [congruence|].
    intros [= <-]. left. by eapply node_by_name_raises.
  - intros [= <-]. right. by eapply py_nth_raises.
Qed.

Lemma get_shape_raises s id e : get_shape s id = Raise e → e = TypeError.
Proof. unfold get_shape. case_match; congruence. Qed.

Lemma validate_loop_raises s g cs e :
  validate_loop s g cs = Raise e → e = AttributeError.
Proof.
  revert g. induction cs as [|c cs IH]; intros g; cbn [validate_loop]; [congruence|].
  destruct (node_at s c) eqn:Hn; cbn [res_bind].
  - repeat case_match; eauto. congruence.
  - intros [= <-]. by eapply node_at_raises.
Qed.

Lemma find_output_consumers_in_heap s id :
  Forall (fun l => is_Some (heap s !! l)) (find_output_consumers s id).
Proof.
  unfold find_output_consumers. apply Forall_forall. intros l Hl.
  apply list_elem_of_filter in Hl as [Hc _]. unfold consumes in Hc.
  destruct (heap s !! l); [by eexists|done].
Qed.

(** The loop of the validation, on consumers that are node objects. *)
Lemma validate_loop_spec s g cs :
  Forall (fun l => is_Some (heap s !! l)) cs →
  ∃ r, validate_loop s g cs = Ok r ∧
    is_set r =
      forallb (fun l => node_type_is s "TensorArrayGatherV3" l
                        || node_type_is s "TensorArraySizeV3" l) cs
      && (is_set g || existsb (node_type_is s "TensorArrayGatherV3") cs).
Proof.
  intros Hall. revert g. induction Hall as [|c cs [n Hn] Hall IH]; intros g.
  - exists g. cbn. by rewrite orb_false_r.
  - assert (∀ t, node_type_is s t c = bool_decide (type n = t)) as Ht.
    { intros t. unfold node_type_is. by rewrite Hn. }
    cbn [validate_loop forallb existsb]. rewrite !Ht. unfold node_at.
    rewrite Hn. cbn [res_bind].
    destruct (bool_decide (type n = "TensorArrayGatherV3")) eqn:Hg.
    + destruct (IH (Some c)) as (r & -> & Hr). exists r. split; [done|].
      rewrite Hr. cbn [is_set orb andb]. by rewrite orb_true_r.
    + destruct (bool_decide (type n = "TensorArraySizeV3")) eqn:Hs.
      * destruct (IH g) as (r & -> & Hr). exists r. split; [done|].
        rewrite Hr. by cbn [orb andb].
      * exists None. split; [done|]. by cbn [is_set orb andb].
Qed.

(** Past the test of the operator types, the loop returns the last gather
    it met, or what it started from when it met none. *)
Lemma validate_loop_last s g cs :
  Forall (fun l => is_Some (heap s !! l)) cs →
  forallb (fun l => node_type_is s "TensorArrayGatherV3" l
                    || node_type_is s "TensorArraySizeV3" l) cs = true →
  validate_loop s g cs
    = Ok (match last_gather s cs with Some l => Some l | None => g end).
Proof.
  intros Hall. revert g. induction Hall as [|c cs [n Hn] Hall IH]; intros g Hty; [done|].
  cbn [forallb] in Hty. apply andb_true_iff in Hty as [Hc Hty].
  assert (∀ t, node_type_is s t c = bool_decide (type n = t)) as Ht.
  { intros t. unfold node_type_is. by rewrite Hn. }
  rewrite !Ht in Hc.
  cbn [validate_loop]. unfold node_at. rewrite Hn. cbn [res_bind].
  unfold last_gather. rewrite filter_cons, Ht.
  destruct (bool_decide (type n = "TensorArrayGatherV3")) eqn:Hg.
  - rewrite decide_True by done. rewrite IH by done. unfold last_gather.
    destruct (filter _ cs) as [|y l']; [done|]. rewrite last_cons_cons.
    by destruct (proj2 (last_is_Some (y :: l')) ltac:(done)) as [z ->].
  - rewrite decide_False by done. cbn [orb] in Hc. rewrite Hc. by rewrite IH.
Qed.

Lemma last_gather_is_Some s cs :
  existsb (node_type_is s "TensorArrayGatherV3") cs = true → is_Some (last_gather s cs).
Proof.
  intros (l & Hl & Hg)%existsb_exists. unfold last_gather. apply last_is_Some.
  intros Hnil. apply list_elem_of_In in Hl.
  assert (l ∈ filter (fun l => node_type_is s "TensorArrayGatherV3" l = true) cs) as Hin
    by (by apply list_elem_of_filter).
  rewrite Hnil in Hin. by apply elem_of_nil in Hin.
Qed.

(** A consumer set that is let through yields its last gather. *)
Lemma validate_last s cs :
  Forall (fun l => is_Some (heap s !! l)) cs →
  exit_consumers_ok s cs = true →
  ∃ g, last_gather s cs = Some g ∧ length cs = 2 ∧
       _validate_output_exit_consumers s cs = Ok (Some g).
Proof.
  intros Hall Hok. unfold exit_consumers_ok in Hok.
  apply andb_true_iff in Hok as [[Hlen Hty]%andb_true_iff Hex].
  destruct (last_gather_is_Some s cs Hex) as [g Hg]. exists g.
  apply bool_decide_eq_true in Hlen. split; [done|]. split; [done|].
  unfold _validate_output_exit_consumers.
  rewrite bool_decide_eq_true_2 by done. cbn [negb].
  rewrite (validate_loop_last s None cs Hall Hty). by rewrite Hg.
Qed.

Lemma validate_spec s cs :
  Forall (fun l => is_Some (heap s !! l)) cs →
  ∃ r, _validate_output_exit_consumers s cs = Ok r ∧
       is_set (if negb (bool_decide (length cs = 2)) then None else r)
         = exit_consumers_ok s cs.
Proof.
  intros Hall. unfold _validate_output_exit_consumers, exit_consumers_ok.
  destruct (bool_decide (length cs = 2)); cbn [negb andb].
  - destruct (validate_loop_spec s None cs Hall) as (r & -> & Hr).
    exists r. split; [done|]. by rewrite Hr.
  - by exists None.
Qed.


(** Computations that never raise a given exception. *)
Lemma never_bind {X Y} e (m : M A X) (k : X → M A Y) :
  never_raises e m → (∀ x, never_raises e (k x)) → never_raises e (bind m k).
Proof.
  intros Hm Hk s. rewrite run_bind. specialize (Hm s).
  destruct (m s) as [[x|e'] s']; cbn [fst] in *; [apply Hk|].
  intros [= ->]. by apply Hm.
Qed.

Lemma never_ret {X} e (x : X) : never_raises (A:=A) e (ret x).
Proof. intros s. done. Qed.

Lemma never_modify e f : never_raises (A:=A) e (modify f).
Proof. intros s. done. Qed.

Lemma never_raise {X} e e' : e' ≠ e → never_raises (A:=A) (X:=X) e (raise e').
Proof. intros Hne s. cbn. congruence. Qed.

Lemma never_reads {X} e (f : state A → res X) :
  (∀ s, f s ≠ Raise e) → never_raises e (reads f).
Proof. intros Hf s. apply Hf. Qed.

Lemma never_make_name e base : never_raises (A:=A) e (make_name base).
Proof. intros s. done. Qed.

Lemma never_make_const e nm (v : ndarray A) : never_raises e (make_const nm v).
Proof. intros s. done. Qed.

Lemma never_make_onnx_node e op ins attrs cnt :
  never_raises (A:=A) e (make_onnx_node op ins attrs cnt).
Proof. intros s. done. Qed.

Lemma never_set_shape e id sh : never_raises (A:=A) e (set_shape id sh).
Proof. intros s. done. Qed.

Lemma never_replace_all_inputs e ops old new :
  never_raises (A:=A) e (replace_all_inputs ops old new).
Proof. intros s. done. Qed.

Lemma never_extend_all_nodes e l : never_raises (A:=A) e (extend_all_nodes l).
Proof. intros s. done. Qed.

Lemma never_append_must_keep e l : never_raises (A:=A) e (append_must_keep l).
Proof. intros s. done. Qed.

Lemma list_remove_not_in (x : loc) (l : list loc) :
  x ∉ l → list_remove x l = Raise (ValueError "list.remove(x): x not in list").
Proof.
  induction l as [|y l IH]; intros Hx; [done|].
  apply not_elem_of_cons in Hx as [Hne Hx]. cbn [list_remove].
  rewrite decide_False by done. by rewrite IH.
Qed.

Lemma get_tensor_value_raises n e :
  get_tensor_value n = Raise e →
  e = ValueError "get tensor value: no value"
  ∨ e = ValueError "get tensor value: must be Const".
Proof. unfold get_tensor_value. repeat case_match; intros [= <-]; eauto. Qed.

Lemma ndarray_get0_raises (a : ndarray A) e : ndarray_get0 a = Raise e → e = IndexError.
Proof. unfold ndarray_get0. repeat case_match; congruence. Qed.

Lemma list_remove_raises (x : loc) l e :
  list_remove x l = Raise e → e = ValueError "list.remove(x): x not in list".
Proof.
  induction l as [|y l IH]; cbn [list_remove]; [congruence|].
  case_decide; [congruence|].
  destruct (list_remove x l); cbn [res_bind]; [congruence|].
  intros [= <-]. by apply IH.
Qed.

End GraphFacts.

Ltac reader_raises Hr :=
  first
    [ discriminate Hr
    | apply get_tensor_value_raises in Hr
    | apply ndarray_get0_raises in Hr
    | apply list_remove_raises in Hr
    | apply py_nth_raises in Hr
    | apply output_at_raises in Hr
    | apply node_by_name_raises in Hr
    | apply inputs_at_raises in Hr
    | apply get_shape_raises in Hr
    | apply node_at_raises in Hr
    | (repeat case_match; try discriminate Hr;
       first [ apply output_at_raises in Hr | fail ]) ];
  try (destruct Hr as [Hr|Hr]); try discriminate Hr.

Ltac never_step :=
  first
    [ apply never_ret | apply never_modify | apply never_make_name
    | apply never_make_const | apply never_make_onnx_node | apply never_set_shape
    | apply never_replace_all_inputs | apply never_extend_all_nodes
    | apply never_append_must_keep
    | apply never_raise; discriminate
    | apply never_reads; let s := fresh "s" in let Hr := fresh "Hr" in
      intros s Hr; reader_raises Hr
    | apply never_bind; [|intros ?]
    | match goal with
      | |- never_raises _ (if ?c then _ else _) => destruct c
      | |- never_raises _ (match ?x with _ => _ end) => destruct x
      end ].


Section OutputFacts.
Context {A : Type} `{Scalar A}.
Variable check_is_timemajor_transpose : list (Node A) → loc → bool.

Lemma connect_tail_never_fails_exit_check (lstm_node exit_node : loc) s e cs g :
  output_at s exit_node 0 = Ok e →
  find_output_consumers s e = cs →
  length cs = 2 →
  _validate_output_exit_consumers s cs = Ok (Some g) →
  fst (_connect_lstm_output_to_graph check_is_timemajor_transpose lstm_node exit_node s)
    ≠ Raise exit_check_failed.
Proof.
  intros He Hcs Hlen Hval. unfold _connect_lstm_output_to_graph.
  rewrite (bind_reads_ok _ _ _ _ He).
  erewrite bind_reads_ok; [|by rewrite Hcs].
  rewrite (bind_reads_ok _ _ _ _ Hval).
  rewrite bool_decide_eq_true_2 by done. cbn [negb].
  revert s He Hcs Hval.
  match goal with |- ∀ s, _ → _ → _ → fst (?m s) ≠ _ =>
    enough (never_raises exit_check_failed m) as Hn by (intros s _ _ _; apply Hn) end.
  unfold exit_check_failed, no_transpose_after_gather.
  repeat never_step.
Qed.

End OutputFacts.

Section ReplaceFacts.
Context {A : Type} `{Scalar A}.
Implicit Types (s : state A) (n : Node A) (h : list (Node A)).

Lemma replace_input_idem old new n :
  replace_input old new (replace_input old new n) = replace_input old new n.
Proof.
  unfold replace_input, set_input. cbn. f_equal.
  rewrite <- list_fmap_compose. apply list_fmap_ext. intros i x _. cbn.
  repeat case_decide; congruence.
Qed.

Lemma replaced_lookup old new ops h (l : loc) :
  replaced old new ops h !! l =
    (if bool_decide (l ∈ ops) then replace_input old new <$> h !! l else h !! l).
Proof.
  unfold replaced. revert h. induction ops as [|a ops IH]; intros h; [done|].
  cbn [foldl]. rewrite IH.
  destruct (decide (a = l)) as [->|Hne].
  - rewrite list_lookup_alter, decide_True by done.
    rewrite (bool_decide_eq_true_2 (l ∈ l :: ops)) by left.
    case_bool_decide; destruct (_ !! _); cbn [fmap option_fmap option_map]; try done.
    by rewrite replace_input_idem.
  - rewrite list_lookup_alter_ne by done.
    rewrite (bool_decide_ext (l ∈ a :: ops) (l ∈ ops)); [done|].
    rewrite elem_of_cons. split; [intros [?|?]; [congruence|done]|by right].
Qed.

Lemma length_replaced old new ops h : length (replaced old new ops h) = length h.
Proof.
  unfold replaced. revert h. induction ops as [|a ops IH]; intros h; [done|].
  cbn [foldl]. by rewrite IH, length_alter.
Qed.

Lemma input_replace_input old new n x :
  x ∈ input (replace_input old new n) → x = new ∨ (x ∈ input n ∧ x ≠ old).
Proof.
  unfold replace_input, set_input. cbn [input].
  intros (i & -> & Hi)%list_elem_of_fmap. case_decide; eauto.
Qed.

Lemma output_replace_input old new n : output (replace_input old new n) = output n.
Proof. done. Qed.

(** After [replace_all_inputs] no node of the list reads the old
    tensor. *)
Lemma replaced_no_reference old new ops h (l : loc) n :
  new ≠ old → l ∈ ops → replaced old new ops h !! l = Some n → old ∉ input n.
Proof.
  intros Hne Hl. rewrite replaced_lookup, bool_decide_eq_true_2 by done.
  destruct (h !! l) as [n0|]; [|done]. cbn. intros [= <-] Hin.
  apply input_replace_input in Hin as [?|[_ ?]]; done.
Qed.

Lemma replaced_old_node old new ops h ext (l : loc) n :
  h !! l = Some n →
  replaced old new ops (h ++ ext) !! l
    = Some (if bool_decide (l ∈ ops) then replace_input old new n else n).
Proof.
  intros Hl. rewrite replaced_lookup, (lookup_app_l_Some _ _ _ _ Hl).
  by case_bool_decide.
Qed.

Lemma replace_input_absent old new n : old ∉ input n → replace_input old new n = n.
Proof.
  intros Hn. unfold replace_input, set_input. destruct n as [nm ty ins outs at' dt tv].
  cbn in *. f_equal. rewrite <- (list_fmap_id ins) at 2.
  apply list_fmap_ext. intros i x Hx. cbn. case_decide; [|done]. subst x.
  destruct Hn. by eapply list_elem_of_lookup_2.
Qed.

Lemma lookup_replace_input old new n (i : nat) :
  input (replace_input old new n) !! i
    = (fun x => if decide (x = old) then new else x) <$> input n !! i.
Proof. unfold replace_input, set_input. cbn [input]. apply list_lookup_fmap. Qed.

End ReplaceFacts.

Section BatchMajor.
Context {A : Type} `{Scalar A}.
Implicit Types (s : state A) (n : Node A) (h : list (Node A)).
Variable check_is_timemajor_transpose : list (Node A) → loc → bool.

Lemma output_at_ext s s' l i o :
  output_at s l i = Ok o → (∃ ext, heap s' = heap s ++ ext) → output_at s' l i = Ok o.
Proof.
  unfold output_at, node_at. intros Ho [ext Hext]. rewrite Hext.
  destruct (heap s !! l) as [n|] eqn:Hn; [|done].
  by rewrite (lookup_app_l_Some _ _ _ _ Hn).
Qed.

Lemma bind_assoc_run {X Y Z'} (m : M A X) (k1 : X → M A Y) (k2 : Y → M A Z') s :
  bind (bind m k1) k2 s = bind m (fun x => bind (k1 x) k2) s.
Proof. rewrite !run_bind. destruct (m s) as [[x|e] s']; [|done]. by rewrite run_bind. Qed.

Lemma bind_ret_run {X Y} (x : X) (k : X → M A Y) s : bind (ret x) k s = k x s.
Proof. done. Qed.

Lemma bind_raise_run {X Y} e (k : X → M A Y) s : bind (raise e) k s = (Raise e, s).
Proof. done. Qed.

Lemma bind_replace_all_inputs {Y} ops old new (k : unit → M A Y) s :
  bind (replace_all_inputs ops old new) k s =
    k tt (set_heap (replaced old new ops (heap s)) s).
Proof. done. Qed.

Lemma bind_set_shape {Y} id sh (k : unit → M A Y) s :
  bind (set_shape id sh) k s = k tt (set_g_shapes (<[id:=sh]> (g_shapes s)) s).
Proof. done. Qed.

Lemma bind_extend_all_nodes {Y} l (k : unit → M A Y) s :
  bind (extend_all_nodes l) k s = k tt (set_all_nodes (all_nodes s ++ l) s).
Proof. done. Qed.

Lemma output_at_replaced s s0 old new ops l i :
  heap s = replaced old new ops (heap s0) → output_at s l i = output_at s0 l i.
Proof.
  intros Hh. unfold output_at, node_at. rewrite Hh, replaced_lookup.
  case_bool_decide; destruct (_ !! _); done.
Qed.

Lemma connect_batch_major_run (lstm_node exit_node : loc) s e cs g go lo d0 d1 d2 d3 rest
    trans to :
  output_at s exit_node 0 = Ok e →
  find_output_consumers s e = cs →
  length cs = 2 →
  _validate_output_exit_consumers s cs = Ok (Some g) →
  output_at s g 0 = Ok go →
  output_at s lstm_node 0 = Ok lo →
  get_shape s lo = Ok (d0 :: d1 :: d2 :: d3 :: rest) →
  time_major (rnn_props s) = false →
  gather_transposes check_is_timemajor_transpose s lo go = [trans] →
  output_at (with_squeeze s lo) trans 0 = Ok to →
  _connect_lstm_output_to_graph check_is_timemajor_transpose lstm_node exit_node s
    = (Ok tt, batch_major_reconnected s lo go to d0 d2 d3).
Proof.
  intros He Hcs Hlen Hval Hgo Hlo Hsh Htm Htr Hto.
  unfold _connect_lstm_output_to_graph.
  rewrite (bind_reads_ok _ _ _ _ He).
  erewrite bind_reads_ok; [|by rewrite Hcs].
  rewrite (bind_reads_ok _ _ _ _ Hval).
  rewrite bool_decide_eq_true_2 by done. cbn [negb].
  rewrite (bind_reads_ok _ _ _ _ Hgo).
  rewrite (bind_reads_ok _ _ _ _ Hlo).
  rewrite bind_make_onnx_node.
  erewrite bind_reads_ok; [|exact Hsh].
  erewrite bind_reads_ok; cycle 1.
  { eapply (output_at_new _ (heap s) _ []); [reflexivity|reflexivity]. }
  do 3 (erewrite bind_reads_ok; [|reflexivity]).
  rewrite bind_set_shape.
  erewrite bind_reads_ok; [|reflexivity].
  cbn [rnn_props set_g_shapes set_heap set_INTERNAL_NAME]. rewrite Htm. cbn [negb].
  rewrite bind_assoc_run.
  erewrite bind_reads_ok; [|reflexivity].
  rewrite bind_assoc_run.
  erewrite bind_reads_ok; [|reflexivity].
  change (filter _ (find_output_consumers _ go)) with (gather_transposes check_is_timemajor_transpose s lo go).
  rewrite Htr.
  rewrite bind_assoc_run.
  erewrite bind_reads_ok; cycle 1.
  { eapply (output_at_new _ (heap s) _ []); [reflexivity|reflexivity]. }
  rewrite bind_assoc_run, bind_make_onnx_node.
  rewrite bind_assoc_run.
  erewrite bind_reads_ok; cycle 1.
  { unfold get_shape. cbn [g_shapes set_g_shapes set_heap set_INTERNAL_NAME].
    by rewrite lookup_insert_eq. }
  rewrite bind_assoc_run.
  erewrite bind_reads_ok; [|reflexivity].
  rewrite bind_assoc_run.
  erewrite bind_reads_ok; cycle 1.
  { eapply (output_at_ext (with_squeeze s lo)); [exact Hto|].
    eexists [_]. reflexivity. }
  rewrite bind_assoc_run.
  erewrite bind_reads_ok; cycle 1.
  { eapply (output_at_new _ (heap s ++ [_]) _ []); [reflexivity|reflexivity]. }
  rewrite bind_assoc_run, bind_replace_all_inputs.
  do 3 (rewrite bind_assoc_run; erewrite bind_reads_ok; [|reflexivity]).
  rewrite bind_assoc_run, bind_set_shape.
  rewrite run_bind. unfold extend_all_nodes at 1, modify at 1.
  erewrite bind_reads_ok; [|reflexivity].
  erewrite bind_reads_ok; cycle 1.
  { erewrite output_at_replaced; [|reflexivity].
    eapply (output_at_new _ (heap s) _ [_]);
      [cbn [heap set_heap set_g_shapes set_INTERNAL_NAME set_all_nodes];
       by rewrite <- app_assoc|reflexivity]. }
  rewrite bind_replace_all_inputs.
  unfold extend_all_nodes, modify, batch_major_reconnected.
  cbn [heap g_nodes g_shapes all_nodes must_keep_nodes INTERNAL_NAME rnn_props
       set_heap set_g_shapes set_INTERNAL_NAME set_all_nodes].
  rewrite !length_app. cbn [length]. rewrite !Nat.add_1_r.
  cbn [heap g_nodes g_shapes all_nodes must_keep_nodes INTERNAL_NAME rnn_props
       set_heap set_g_shapes set_INTERNAL_NAME set_all_nodes].
  rewrite <- !app_assoc. reflexivity.
Qed.

Lemma connect_batch_major_raise (lstm_node exit_node : loc) s e cs g go lo d0 d1 d2 d3 rest :
  output_at s exit_node 0 = Ok e →
  find_output_consumers s e = cs →
  length cs = 2 →
  _validate_output_exit_consumers s cs = Ok (Some g) →
  output_at s g 0 = Ok go →
  output_at s lstm_node 0 = Ok lo →
  get_shape s lo = Ok (d0 :: d1 :: d2 :: d3 :: rest) →
  time_major (rnn_props s) = false →
  length (gather_transposes check_is_timemajor_transpose s lo go) ≠ 1 →
  fst (_connect_lstm_output_to_graph check_is_timemajor_transpose lstm_node exit_node s)
    = Raise no_transpose_after_gather.
Proof.
  intros He Hcs Hlen Hval Hgo Hlo Hsh Htm Htr.
  unfold _connect_lstm_output_to_graph.
  rewrite (bind_reads_ok _ _ _ _ He).
  erewrite bind_reads_ok; [|by rewrite Hcs].
  rewrite (bind_reads_ok _ _ _ _ Hval).
  rewrite bool_decide_eq_true_2 by done. cbn [negb].
  rewrite (bind_reads_ok _ _ _ _ Hgo).
  rewrite (bind_reads_ok _ _ _ _ Hlo).
  rewrite bind_make_onnx_node.
  erewrite bind_reads_ok; [|exact Hsh].
  erewrite bind_reads_ok; cycle 1.
  { eapply (output_at_new _ (heap s) _ []); [reflexivity|reflexivity]. }
  do 3 (erewrite bind_reads_ok; [|reflexivity]).
  rewrite bind_set_shape.
  erewrite bind_reads_ok; [|reflexivity].
  cbn [rnn_props set_g_shapes set_heap set_INTERNAL_NAME]. rewrite Htm. cbn [negb].
  rewrite bind_assoc_run.
  erewrite bind_reads_ok; [|reflexivity].
  rewrite bind_assoc_run.
  erewrite bind_reads_ok; [|reflexivity].
  change (filter _ (find_output_consumers _ go)) with (gather_transposes check_is_timemajor_transpose s lo go).
  destruct (gather_transposes check_is_timemajor_transpose s lo go) as [|t1 [|t2 ts]]; [done| |done].
  by cbn [length] in Htr.
Qed.

Lemma batch_major_new_transpose s lo go to d0 d2 d3 :
  to ≠ squeeze_out s →
  heap (batch_major_reconnected s lo go to d0 d2 d3) !! S (length (heap s))
    = Some (new_transpose_of s).
Proof.
  intros Hne. unfold batch_major_reconnected. cbn [heap].
  rewrite !replaced_lookup.
  assert ((heap s ++ [squeeze_of s lo; new_transpose_of s]) !! (S (length (heap s)) : loc)
          = Some (new_transpose_of s)) as ->.
  { rewrite lookup_app_r by lia.
    by replace (S (length (heap s)) - length (heap s)) with 1 by lia. }
  assert (replace_input to (new_transpose_out s) (new_transpose_of s)
          = new_transpose_of s) as E1.
  { unfold replace_input, set_input, new_transpose_of, onnx_node. cbn.
    by rewrite decide_False by done. }
  assert (replace_input go (squeeze_out s) (new_transpose_of s)
          = new_transpose_of s) as E2.
  { unfold replace_input, set_input, new_transpose_of, onnx_node. cbn.
    by case_decide. }
  repeat case_bool_decide; cbn [fmap option_fmap option_map]; by rewrite ?E1, ?E2.
Qed.

Lemma batch_major_no_reference s lo go to d0 d2 d3 (l : loc) n :
  to ≠ lo → to ≠ squeeze_out s → to ≠ new_transpose_out s →
  l ∈ all_nodes (batch_major_reconnected s lo go to d0 d2 d3) →
  heap (batch_major_reconnected s lo go to d0 d2 d3) !! l = Some n →
  to ∉ input n.
Proof.
  intros Hlo Hsq Hnt Hl Hn Hin. unfold batch_major_reconnected in Hl, Hn.
  cbn [heap all_nodes] in Hl, Hn.
  set (h1 := heap s ++ [squeeze_of s lo; new_transpose_of s]) in *.
  set (h2 := replaced to (new_transpose_out s) (all_nodes s) h1) in *.
  (* the node before the second replacement *)
  assert (∃ n2, h2 !! l = Some n2 ∧ to ∈ input n2) as (n2 & Hn2 & Hin2).
  { rewrite replaced_lookup in Hn. destruct (h2 !! l) as [n2|] eqn:E.
    - exists n2. split; [done|]. case_bool_decide; cbn in Hn.
      + injection Hn as <-. apply input_replace_input in Hin as [?|[? _]]; done.
      + by injection Hn as <-.
    - by case_bool_decide. }
  (* the node before the first replacement *)
  subst h2. rewrite replaced_lookup in Hn2.
  destruct (h1 !! l) as [n1|] eqn:E1; [|by case_bool_decide].
  case_bool_decide as Hops; cbn in Hn2; injection Hn2 as <-.
  { apply input_replace_input in Hin2 as [?|[_ ?]]; done. }
  (* a node that was not on the list: the squeeze or the new transpose *)
  rewrite !elem_of_app in Hl. destruct Hl as [[Hl|Hl]|Hl]; [done| |].
  - apply list_elem_of_singleton in Hl as ->. subst h1.
    rewrite lookup_app_r in E1 by lia.
    replace (S (length (heap s)) - length (heap s)) with 1 in E1 by lia.
    injection E1 as <-. cbn in Hin2. apply list_elem_of_singleton in Hin2. done.
  - apply list_elem_of_singleton in Hl as ->. subst h1.
    rewrite lookup_app_r in E1 by lia. rewrite Nat.sub_diag in E1.
    injection E1 as <-. cbn in Hin2. apply list_elem_of_singleton in Hin2. done.
Qed.

(** Every node of the given graph after a batch-major reconnection. *)
Lemma batch_major_old_node s lo go to d0 d2 d3 (l : loc) n :
  heap s !! l = Some n →
  heap (batch_major_reconnected s lo go to d0 d2 d3) !! l
    = Some (if bool_decide (l ∈ all_nodes s)
            then replace_input go (squeeze_out s)
                   (replace_input to (new_transpose_out s) n)
            else n).
Proof.
  intros Hn. unfold batch_major_reconnected. cbn [heap].
  rewrite !replaced_lookup, (lookup_app_l_Some _ _ _ _ Hn).
  apply lookup_lt_Some in Hn.
  rewrite (bool_decide_ext (l ∈ all_nodes s ++ [S (length (heap s))]) (l ∈ all_nodes s)).
  2:{ rewrite elem_of_app, list_elem_of_singleton.
      split; [intros [?|?]; [done|lia]|by left]. }
  by case_bool_decide.
Qed.

Lemma batch_major_squeeze s lo go to d0 d2 d3 :
  to ≠ lo → go ≠ lo →
  heap (batch_major_reconnected s lo go to d0 d2 d3) !! length (heap s)
    = Some (squeeze_of s lo).
Proof.
  intros Hto Hgo. unfold batch_major_reconnected. cbn [heap].
  rewrite !replaced_lookup.
  assert ((heap s ++ [squeeze_of s lo; new_transpose_of s]) !! (length (heap s) : loc)
          = Some (squeeze_of s lo)) as -> by (by rewrite list_lookup_middle).
  assert (replace_input to (new_transpose_out s) (squeeze_of s lo) = squeeze_of s lo) as E1.
  { apply replace_input_absent. cbn. by intros ->%list_elem_of_singleton. }
  assert (replace_input go (squeeze_out s) (squeeze_of s lo) = squeeze_of s lo) as E2.
  { apply replace_input_absent. cbn. by intros ->%list_elem_of_singleton. }
  repeat case_bool_decide; cbn [fmap option_fmap option_map]; by rewrite ?E1, ?E2.
Qed.

Lemma batch_major_shapes s lo go to d0 d2 d3 :
  g_shapes (batch_major_reconnected s lo go to d0 d2 d3) !! squeeze_out s
    = Some [d0; d2; d3] ∧
  g_shapes (batch_major_reconnected s lo go to d0 d2 d3) !! new_transpose_out s
    = Some [d2; d0; d3].
Proof.
  unfold batch_major_reconnected. cbn [g_shapes]. split.
  - rewrite lookup_insert_ne, lookup_insert_eq; [done|].
    unfold new_transpose_out, squeeze_out, fresh_name. intros Heq.
    change ("Transpose" +:+ ?x) with (String "T" ("ranspose" +:+ x)) in Heq.
    discriminate Heq.
  - by rewrite lookup_insert_eq.
Qed.

(** A reader of the old transpose reads the new one, a reader of the
    gather reads the squeeze, at the same input position. *)
Lemma batch_major_transpose_readers s lo go to d0 d2 d3 (l : loc) n (i : nat) :
  go ≠ new_transpose_out s →
  l ∈ all_nodes s → heap s !! l = Some n → input n !! i = Some to →
  ∃ n', heap (batch_major_reconnected s lo go to d0 d2 d3) !! l = Some n' ∧
        input n' !! i = Some (new_transpose_out s).
Proof.
  intros Hne Hl Hn Hi. eexists. split; [by apply batch_major_old_node|].
  rewrite bool_decide_eq_true_2 by done. rewrite !lookup_replace_input, Hi.
  cbn [fmap option_fmap option_map]. rewrite (decide_True _ _ eq_refl).
  destruct (decide (new_transpose_out s = go)) as [?|_]; [congruence|done].
Qed.

Lemma batch_major_gather_readers s lo go to d0 d2 d3 (l : loc) n (i : nat) :
  go ≠ to →
  l ∈ all_nodes s → heap s !! l = Some n → input n !! i = Some go →
  ∃ n', heap (batch_major_reconnected s lo go to d0 d2 d3) !! l = Some n' ∧
        input n' !! i = Some (squeeze_out s).
Proof.
  intros Hne Hl Hn Hi. eexists. split; [by apply batch_major_old_node|].
  rewrite bool_decide_eq_true_2 by done. rewrite !lookup_replace_input, Hi.
  cbn [fmap option_fmap option_map].
  destruct (decide (go = to)) as [?|_]; [done|]. by rewrite (decide_True _ _ eq_refl).
Qed.

(** The transpose found after the gather is a node of the given graph. *)
Lemma gather_transpose_old s lo go (trans : loc) :
  go ≠ lo →
  trans ∈ gather_transposes check_is_timemajor_transpose s lo go →
  trans < length (heap s).
Proof.
  intros Hne Hin. unfold gather_transposes in Hin.
  apply list_elem_of_filter in Hin as [_ Hin]. unfold find_output_consumers in Hin.
  apply list_elem_of_filter in Hin as [Hc _]. unfold consumes, with_squeeze in Hc.
  cbn [heap set_heap] in Hc.
  destruct (decide (trans < length (heap s))) as [|Hge]; [done|].
  destruct (decide (trans = length (heap s))) as [->|Hne'].
  - rewrite list_lookup_middle in Hc by done. cbn in Hc.
    apply bool_decide_eq_true in Hc. by apply list_elem_of_singleton in Hc.
  - rewrite lookup_ge_None_2 in Hc; [done|]. rewrite length_app. cbn [length].
    unfold loc in *. lia.
Qed.

Lemma connect_time_major_run (lstm_node exit_node : loc) s e g go lo d0 d1 d2 d3 rest :
  output_at s exit_node 0 = Ok e →
  length (find_output_consumers s e) = 2 →
  _validate_output_exit_consumers s (find_output_consumers s e) = Ok (Some g) →
  output_at s g 0 = Ok go →
  output_at s lstm_node 0 = Ok lo →
  get_shape s lo = Ok (d0 :: d1 :: d2 :: d3 :: rest) →
  time_major (rnn_props s) = true →
  _connect_lstm_output_to_graph check_is_timemajor_transpose lstm_node exit_node s
    = (Ok tt, time_major_reconnected s lo go d0 d2 d3).
Proof.
  intros He Hlen Hval Hgo Hlo Hsh Htm.
  unfold _connect_lstm_output_to_graph.
  rewrite (bind_reads_ok _ _ _ _ He).
  erewrite bind_reads_ok; [|reflexivity].
  rewrite (bind_reads_ok _ _ _ _ Hval).
  rewrite bool_decide_eq_true_2 by done. cbn [negb].
  rewrite (bind_reads_ok _ _ _ _ Hgo).
  rewrite (bind_reads_ok _ _ _ _ Hlo).
  rewrite bind_make_onnx_node.
  erewrite bind_reads_ok; [|exact Hsh].
  erewrite bind_reads_ok; cycle 1.
  { eapply (output_at_new _ (heap s) _ []); [reflexivity|reflexivity]. }
  do 3 (erewrite bind_reads_ok; [|reflexivity]).
  rewrite bind_set_shape.
  erewrite bind_reads_ok; [|reflexivity].
  cbn [rnn_props set_g_shapes set_heap set_INTERNAL_NAME]. rewrite Htm. cbn [negb].
  rewrite bind_ret_run.
  erewrite bind_reads_ok; [|reflexivity].
  erewrite bind_reads_ok; cycle 1.
  { eapply (output_at_new _ (heap s) _ []); [reflexivity|reflexivity]. }
  rewrite bind_replace_all_inputs.
  unfold extend_all_nodes, modify, time_major_reconnected.
  cbn [heap g_nodes g_shapes all_nodes must_keep_nodes INTERNAL_NAME rnn_props
       set_heap set_g_shapes set_INTERNAL_NAME set_all_nodes].
  reflexivity.
Qed.

End BatchMajor.

(** ** The output reconnector (claims C5, C8) *)

(** C5, as the code has it: the accumulated-output reconnection raises its
    fatal error, leaving graph, node lists and properties as they were,
    exactly when the consumers of the exit point are not two nodes, each a
    gather or a size query, at least one of them a gather. When they are,
    the validation returns the last gather in consumer order and that
    gather is the one used: in time-major mode the reconnection succeeds
    and rewrites that gather's output, and no other tensor, into the
    squeeze's output in the nodes of [all_nodes]. *)
Theorem connect_output_exit_check {A : Type} `{Scalar A}
    (check_is_timemajor_transpose : list (Node A) → loc → bool)
    (lstm_node exit_node : loc) (s : state A) (e : string) :
  output_at s exit_node 0 = Ok e →
  (exit_consumers_ok s (find_output_consumers s e) = false →
   _connect_lstm_output_to_graph check_is_timemajor_transpose lstm_node exit_node s
     = (Raise exit_check_failed, s))
  ∧ (exit_consumers_ok s (find_output_consumers s e) = true →
     fst (_connect_lstm_output_to_graph check_is_timemajor_transpose lstm_node exit_node s)
       ≠ Raise exit_check_failed
     ∧ ∃ g : loc,
         last_gather s (find_output_consumers s e) = Some g ∧
         _validate_output_exit_consumers s (find_output_consumers s e) = Ok (Some g) ∧
         ∀ (go lo : string) (d0 d1 d2 d3 : Z) (rest : list Z),
           output_at s g 0 = Ok go →
           output_at s lstm_node 0 = Ok lo →
           get_shape s lo = Ok (d0 :: d1 :: d2 :: d3 :: rest) →
           time_major (rnn_props s) = true →
           ∃ s',
             _connect_lstm_output_to_graph check_is_timemajor_transpose
                 lstm_node exit_node s = (Ok tt, s') ∧
             ∀ (l : loc) (n : Node A), heap s !! l = Some n →
               heap s' !! l = Some (if bool_decide (l ∈ all_nodes s)
                                    then replace_input go (squeeze_out s) n else n)).
Proof.
  intros He. split; intros Hok.
  - destruct (validate_spec s (find_output_consumers s e)
                (find_output_consumers_in_heap s e)) as (r & Hval & Hr).
    rewrite Hok in Hr. unfold _connect_lstm_output_to_graph.
    rewrite (bind_reads_ok _ _ _ _ He).
    erewrite bind_reads_ok; [|reflexivity].
    rewrite (bind_reads_ok _ _ _ _ Hval).
    by destruct (if negb _ then None else r).
  - destruct (validate_last s (find_output_consumers s e)
                (find_output_consumers_in_heap s e) Hok) as (g & Hlast & Hlen & Hval).
    split; [by eapply connect_tail_never_fails_exit_check|].
    exists g. split; [done|]. split; [done|].
    intros go lo d0 d1 d2 d3 rest Hgo Hlo Hsh Htm.
    exists (time_major_reconnected s lo go d0 d2 d3).
    split; [by eapply connect_time_major_run|].
    intros l n Hn. unfold time_major_reconnected. cbn [heap].
    by rewrite (replaced_old_node _ _ _ _ _ _ _ Hn).
Qed.

Lemma connect_output_exit_check_witness :
  _connect_lstm_output_to_graph is_transpose 4 0 three_consumers_state
    = (Raise exit_check_failed, three_consumers_state).
Proof.
  apply (proj1 (connect_output_exit_check is_transpose 4 0 three_consumers_state "exit:0"
                  eq_refl)).
  vm_compute. reflexivity.
Defined.

(** C5, as stated, fails: an exit point whose two consumers are both
    gathers (no size query) passes the check and is reconnected. *)
Lemma connect_output_accepts_two_gathers :
  find_output_consumers two_gathers_state "exit:0" = [1; 2] ∧
  node_type_is two_gathers_state "TensorArrayGatherV3" 1 = true ∧
  node_type_is two_gathers_state "TensorArrayGatherV3" 2 = true ∧
  fst (_connect_lstm_output_to_graph is_transpose 3 0 two_gathers_state) = Ok tt.
Proof. vm_compute. repeat split. Qed.

(** C8: in batch-major mode, past the two-consumer validation, anything
    but exactly one time-major transpose among the consumers of the
    gathered tensor raises the fatal error. With exactly one, all tensor
    ids involved being distinct, the reconnection succeeds and
    - the transpose found is discarded: it is a node of the given graph
      and is not reused, no node of [all_nodes] has its output among its
      inputs any more, and every node of [all_nodes] that read its output
      reads the new transpose's output at the same input position;
    - the node appended at the first free address is the squeeze (axis 1)
      of the fused node's sequence output, with shape (time, batch,
      hidden), and the node after it is the new transpose (perm
      [1, 0, 2]) fed by that squeeze, with shape (batch, time, hidden);
    - both are appended to [all_nodes], the new transpose first;
    - every node of the given graph on [all_nodes] has the old
      transpose's output rewritten into the new transpose's and then the
      gather's output into the squeeze's, and the other nodes are as they
      were. *)
Theorem connect_output_batch_major {A : Type} `{Scalar A}
    (check_is_timemajor_transpose : list (Node A) → loc → bool)
    (lstm_node exit_node : loc) (s : state A) (e : string) (cs : list loc) (g : loc)
    (go lo : string) (d0 d1 d2 d3 : Z) (rest : list Z) :
  output_at s exit_node 0 = Ok e →
  find_output_consumers s e = cs →
  length cs = 2 →
  _validate_output_exit_consumers s cs = Ok (Some g) →
  output_at s g 0 = Ok go →
  output_at s lstm_node 0 = Ok lo →
  get_shape s lo = Ok (d0 :: d1 :: d2 :: d3 :: rest) →
  time_major (rnn_props s) = false →
  (length (gather_transposes check_is_timemajor_transpose s lo go) ≠ 1 →
   fst (_connect_lstm_output_to_graph check_is_timemajor_transpose lstm_node exit_node s)
     = Raise no_transpose_after_gather)
  ∧ (∀ (trans : loc) (to : string),
       gather_transposes check_is_timemajor_transpose s lo go = [trans] →
       output_at (with_squeeze s lo) trans 0 = Ok to →
       to ≠ lo → to ≠ squeeze_out s → to ≠ new_transpose_out s →
       go ≠ lo → go ≠ to → go ≠ new_transpose_out s →
       ∃ s',
         _connect_lstm_output_to_graph check_is_timemajor_transpose lstm_node exit_node s
           = (Ok tt, s') ∧
         all_nodes s' = all_nodes s ++ [S (length (heap s)); length (heap s)] ∧
         heap s' !! S (length (heap s)) = Some (new_transpose_of s) ∧
         (∀ (l : loc) (n : Node A),
            l ∈ all_nodes s' → heap s' !! l = Some n → to ∉ input n) ∧
         trans < length (heap s) ∧
         heap s' !! length (heap s) = Some (squeeze_of s lo) ∧
         g_shapes s' !! squeeze_out s = Some [d0; d2; d3] ∧
         g_shapes s' !! new_transpose_out s = Some [d2; d0; d3] ∧
         (∀ (l : loc) (n : Node A), heap s !! l = Some n →
            heap s' !! l
              = Some (if bool_decide (l ∈ all_nodes s)
                      then replace_input go (squeeze_out s)
                             (replace_input to (new_transpose_out s) n)
                      else n)) ∧
         (∀ (l : loc) (n : Node A) (i : nat),
            l ∈ all_nodes s → heap s !! l = Some n → input n !! i = Some to →
            ∃ n', heap s' !! l = Some n' ∧ input n' !! i = Some (new_transpose_out s)) ∧
         (∀ (l : loc) (n : Node A) (i : nat),
            l ∈ all_nodes s → heap s !! l = Some n → input n !! i = Some go →
            ∃ n', heap s' !! l = Some n' ∧ input n' !! i = Some (squeeze_out s))).
Proof.
  intros He Hcs Hlen Hval Hgo Hlo Hsh Htm. split.
  - intros Htr. by eapply connect_batch_major_raise.
  - intros trans to Htr Hto Hne1 Hne2 Hne3 Hne4 Hne5 Hne6.
    exists (batch_major_reconnected s lo go to d0 d2 d3).
    split; [by eapply connect_batch_major_run|].
    split; [unfold batch_major_reconnected; cbn [all_nodes]; by rewrite <- app_assoc|].
    split; [by apply batch_major_new_transpose|].
    split; [intros l n; by apply batch_major_no_reference|].
    split.
    { eapply gather_transpose_old; [exact Hne4|]. rewrite Htr. by left. }
    split; [by apply batch_major_squeeze|].
    split; [apply batch_major_shapes|]. split; [apply batch_major_shapes|].
    split; [intros l n; apply batch_major_old_node|].
    split; intros l n i.
    + by apply batch_major_transpose_readers.
    + by apply batch_major_gather_readers.
Qed.

Lemma connect_output_batch_major_witness :
  let s := batch_major_state in
  ∃ s',
    _connect_lstm_output_to_graph is_transpose 5 0 s = (Ok tt, s') ∧
    all_nodes s' = all_nodes s ++ [S (length (heap s)); length (heap s)] ∧
    heap s' !! S (length (heap s)) = Some (new_transpose_of s) ∧
    (∀ (l : loc) (n : Node Z),
       l ∈ all_nodes s' → heap s' !! l = Some n → "transpose:0" ∉ input n) ∧
    3 < length (heap s) ∧
    heap s' !! length (heap s) = Some (squeeze_of s "LSTM__9:0") ∧
    g_shapes s' !! squeeze_out s = Some [7; 4; 3]%Z ∧
    g_shapes s' !! new_transpose_out s = Some [4; 7; 3]%Z ∧
    (∀ (l : loc) (n : Node Z), heap s !! l = Some n →
       heap s' !! l
         = Some (if bool_decide (l ∈ all_nodes s)
                 then replace_input "ta_gather:0" (squeeze_out s)
                        (replace_input "transpose:0" (new_transpose_out s) n)
                 else n)) ∧
    (∀ (l : loc) (n : Node Z) (i : nat),
       l ∈ all_nodes s → heap s !! l = Some n → input n !! i = Some "transpose:0" →
       ∃ n', heap s' !! l = Some n' ∧ input n' !! i = Some (new_transpose_out s)) ∧
    (∀ (l : loc) (n : Node Z) (i : nat),
       l ∈ all_nodes s → heap s !! l = Some n → input n !! i = Some "ta_gather:0" →
       ∃ n', heap s' !! l = Some n' ∧ input n' !! i = Some (squeeze_out s)).
Proof.
  apply (proj2 (connect_output_batch_major is_transpose 5 0 batch_major_state
                  "exit:0" [1; 2] 2 "ta_gather:0" "LSTM__9:0" 7 1 4 3 []
                  eq_refl eq_refl eq_refl eq_refl eq_refl eq_refl eq_refl eq_refl)
               3 "transpose:0").
  - vm_compute. reflexivity.
  - vm_compute. reflexivity.
  - discriminate.
  - vm_compute. discriminate.
  - vm_compute. discriminate.
  - discriminate.
  - discriminate.
  - vm_compute. discriminate.
Defined.

(** ** Facts about the initial-state builder *)

(** Names drawn from the counter are pairwise distinct. *)
Lemma string_of_nat_inj n m : string_of_nat n = string_of_nat m → n = m.
Proof.
  unfold string_of_nat. intros Heq. apply Unsigned.to_uint_inj.
  assert (Some (Nat.to_uint n) = Some (Nat.to_uint m)) as [= ->]; [|done].
  by rewrite <- !NilEmpty.usu, Heq.
Qed.

Lemma length_string_app (s t : string) :
  String.length (s +:+ t) = String.length s + String.length t.
Proof. induction s as [|c s IH]; simpl; [done|]. by rewrite IH. Qed.

Lemma string_app_inj_r (s1 s2 t : string) : s1 +:+ t = s2 +:+ t → s1 = s2.
Proof.
  revert s2. induction s1 as [|c s1 IH]; intros [|c2 s2] Heq; simpl in Heq.
  - done.
  - apply (f_equal String.length) in Heq. simpl in Heq.
    rewrite !length_string_app in Heq. simpl in Heq. lia.
  - apply (f_equal String.length) in Heq. simpl in Heq.
    rewrite !length_string_app in Heq. simpl in Heq. lia.
  - injection Heq as -> Heq. f_equal. by apply IH.
Qed.

Lemma fresh_output_inj b1 b2 j1 j2 :
  b1 ∈ fresh_bases → b2 ∈ fresh_bases →
  fresh_name b1 j1 +:+ ":0" = fresh_name b2 j2 +:+ ":0" → j1 = j2.
Proof.
  unfold fresh_bases, fresh_name. intros Hb1 Hb2 Heq.
  apply string_app_inj_r in Heq.
  repeat (apply elem_of_cons in Hb1 as [->|Hb1]);
    [| | |by apply elem_of_nil in Hb1];
    repeat (apply elem_of_cons in Hb2 as [->|Hb2]);
    try (by apply elem_of_nil in Hb2);
    simpl in Heq; try discriminate Heq;
    injection Heq as Heq; by apply string_of_nat_inj.
Qed.

Ltac norm_state H :=
  cbn [heap g_nodes g_shapes all_nodes must_keep_nodes INTERNAL_NAME rnn_props
       set_heap set_g_shapes set_all_nodes set_must_keep_nodes set_INTERNAL_NAME
       set_rnn_props] in H.

Ltac norm_goal :=
  cbn [heap g_nodes g_shapes all_nodes must_keep_nodes INTERNAL_NAME rnn_props
       set_heap set_g_shapes set_all_nodes set_must_keep_nodes set_INTERNAL_NAME
       set_rnn_props].

Ltac fresh_id_tac :=
  repeat split; norm_goal; [unfold fresh_bases; set_solver|lia|lia].

Ltac fwd H :=
  repeat first
    [ rewrite bind_make_onnx_node in H; norm_state H
    | rewrite bind_make_name in H; norm_state H
    | rewrite bind_make_const in H; norm_state H
    | rewrite bind_modify in H; norm_state H
    | rewrite bind_extend_all_nodes in H; norm_state H
    | rewrite bind_replace_all_inputs in H; norm_state H
    | rewrite bind_set_shape in H; norm_state H
    | rewrite bind_ret_run in H
    | rewrite bind_assoc_run in H
    | match type of H with
      | bind (reads ?f) ?k ?s = _ =>
          let fs := eval cbv beta in (f s) in
          let E := fresh "E" in
          let r := fresh "r" in
          remember fs as r eqn:E in |-; symmetry in E; destruct r;
          [ rewrite (bind_reads_ok f k s _ E) in H
          | rewrite (bind_reads_raise f k s _ E) in H; discriminate H ]
      end ].

Section InitFacts.
Context {A : Type} `{Scalar A}.
Implicit Types (s : state A) (n : Node A) (h : list (Node A)).
Variable ONNX_TO_NUMPY_DTYPE : Z → option string.

Lemma fresh_id_weaken s0 s1 s2 s3 o :
  fresh_id s1 s2 o →
  INTERNAL_NAME s0 ≤ INTERNAL_NAME s1 → INTERNAL_NAME s2 ≤ INTERNAL_NAME s3 →
  fresh_id s0 s3 o.
Proof.
  intros (b & j & Hb & -> & Hl & Hu) H0 H3. exists b, j. repeat split; [done|lia|lia].
Qed.

Lemma bind_append_must_keep {Y} l (k : unit → M A Y) s :
  bind (append_must_keep l) k s = k tt (set_must_keep_nodes (must_keep_nodes s ++ [l]) s).
Proof. done. Qed.

Lemma output_at_new_replaced s old new ops h n rest o os :
  heap s = replaced old new ops (h ++ n :: rest) → output n = o :: os →
  output_at s (length h) 0 = Ok o.
Proof.
  intros Hh Ho. unfold output_at, node_at. rewrite Hh, replaced_lookup.
  rewrite list_lookup_middle by done.
  case_bool_decide; cbn [fmap option_fmap option_map res_bind];
    rewrite ?output_replace_input, Ho; done.
Qed.

Lemma workaround_post id s r s' :
  _workaround_fill_ch_init_node ONNX_TO_NUMPY_DTYPE id s = (Ok r, s') →
  match r with
  | None => s' = s
  | Some t =>
      ∃ h' tile,
        heap s' = h' ++ [tile] ∧ t = length h' ∧ length (heap s) ≤ length h' ∧
        output tile = [fresh_name "Tile" (INTERNAL_NAME s') +:+ ":0"] ∧
        INTERNAL_NAME s < INTERNAL_NAME s'
  end.
Proof.
  unfold _workaround_fill_ch_init_node. intros Hrun.
  fwd Hrun. destruct x as [node n].
  destruct (bool_decide (type n = "Fill")); cbn [negb] in Hrun.
  2:{ by injection Hrun as <- <-. }
  fwd Hrun. injection Hrun as <- <-.
  cbn [heap INTERNAL_NAME set_heap set_all_nodes set_INTERNAL_NAME].
  eexists _, _. split; [reflexivity|]. split; [reflexivity|].
  split; [rewrite !length_app; lia|]. split; [reflexivity|lia].
Qed.

Lemma workaround_output id s t s' :
  _workaround_fill_ch_init_node ONNX_TO_NUMPY_DTYPE id s = (Ok (Some t), s') →
  output_at s' t 0 = Ok (fresh_name "Tile" (INTERNAL_NAME s') +:+ ":0") ∧
  INTERNAL_NAME s < INTERNAL_NAME s' ∧ length (heap s) < length (heap s').
Proof.
  intros (h' & tile & Hh & -> & Hlen & Hout & Hk)%workaround_post.
  split; [by eapply (output_at_new _ h' _ [])|]. split; [done|].
  rewrite Hh, length_app. cbn. lia.
Qed.

Lemma non_tuple_post s o1 o2 s' :
  _process_non_tuple_ch_init_nodes ONNX_TO_NUMPY_DTYPE s = (Ok (o1, o2), s') →
  fresh_id s s' o1 ∧ fresh_id s s' o2 ∧ length (heap s) < length (heap s').
Proof.
  unfold _process_non_tuple_ch_init_nodes. intros Hrun.
  rewrite run_bind in Hrun.
  destruct (var_initializer "ct_ht" s) as [[input_id|e] s0] eqn:Hv; [|discriminate].
  assert (s0 = s) as -> by (unfold var_initializer, reads in Hv; by injection Hv).
  fwd Hrun. rewrite run_bind in Hrun.
  destruct (_workaround_fill_ch_init_node ONNX_TO_NUMPY_DTYPE input_id s)
    as [[[t|]|e] s1] eqn:Hw; [| |discriminate].
  - destruct (workaround_output _ _ _ _ Hw) as (Hout & Hk & Hlen).
    rewrite !(bind_reads_ok _ _ _ _ Hout) in Hrun. injection Hrun as <- <- <-.
    assert (fresh_id s s1 (fresh_name "Tile" (INTERNAL_NAME s1) +:+ ":0")) as Hf.
    { exists "Tile", (INTERNAL_NAME s1). repeat split; [|done|done].
      unfold fresh_bases. set_solver. }
    done.
  - apply workaround_post in Hw as ->.
    rewrite bind_make_onnx_node in Hrun; norm_state Hrun.
    erewrite bind_reads_ok in Hrun; cycle 1.
    { eapply (output_at_new _ (heap s) _ []); [reflexivity|reflexivity]. }
    rewrite !bind_make_onnx_node in Hrun; norm_state Hrun.
    erewrite bind_reads_ok in Hrun; cycle 1.
    { eapply (output_at_new _ ((heap s ++ [_]) ++ [_]) _ []); [reflexivity|reflexivity]. }
    rewrite !bind_make_onnx_node in Hrun; norm_state Hrun.
    rewrite bind_extend_all_nodes in Hrun; norm_state Hrun.
    fwd Hrun. rewrite bind_append_must_keep in Hrun; norm_state Hrun.
    erewrite bind_reads_ok in Hrun; cycle 1.
    { eapply (output_at_new _ (heap s ++ [_]) _ [_; _]);
        [cbn [heap set_heap set_all_nodes set_must_keep_nodes set_INTERNAL_NAME];
         by rewrite <- !app_assoc|reflexivity]. }
    erewrite bind_reads_ok in Hrun; cycle 1.
    { eapply (output_at_new _ (((heap s ++ [_]) ++ [_]) ++ [_]) _ []);
        [cbn [heap set_heap set_all_nodes set_must_keep_nodes set_INTERNAL_NAME];
         done|reflexivity]. }
    injection Hrun as <- <- <-.
    norm_goal.
    split; [|split].
    + exists "Unsqueeze", (S (S (INTERNAL_NAME s))).
      fresh_id_tac.
    + exists "Unsqueeze", (S (S (S (S (INTERNAL_NAME s))))).
      fresh_id_tac.
    + rewrite !length_app. cbn. lia.
Qed.

Lemma c_or_h_post id s o s' :
  _process_c_or_h_init_nodes ONNX_TO_NUMPY_DTYPE id s = (Ok o, s') →
  fresh_id s s' o ∧ length (heap s) < length (heap s') ∧
  INTERNAL_NAME s ≤ INTERNAL_NAME s'.
Proof.
  unfold _process_c_or_h_init_nodes. intros Hrun.
  rewrite run_bind in Hrun.
  destruct (_workaround_fill_ch_init_node ONNX_TO_NUMPY_DTYPE id s)
    as [[[t|]|e] s1] eqn:Hw; [| |discriminate].
  - destruct (workaround_output _ _ _ _ Hw) as (Hout & Hk & Hlen).
    unfold reads in Hrun. rewrite Hout in Hrun. injection Hrun as <- <-.
    split; [|split; [done|lia]].
    exists "Tile", (INTERNAL_NAME s1). repeat split; [|done|done].
    unfold fresh_bases. set_solver.
  - apply workaround_post in Hw as ->.
    fwd Hrun. destruct x as [node n].
    rewrite bind_append_must_keep in Hrun; norm_state Hrun.
    destruct (is_const n).
    + fwd Hrun. unfold reads in Hrun.
      erewrite (output_at_new _ (heap s) _ []) in Hrun; [|reflexivity|reflexivity].
      injection Hrun as <- <-.
      norm_goal.
      split; [|split; [rewrite !length_app; cbn; lia|lia]].
      exists "Const", (S (INTERNAL_NAME s)).
      fresh_id_tac.
    + rewrite bind_make_onnx_node in Hrun; norm_state Hrun.
      erewrite bind_reads_ok in Hrun; cycle 1.
      { eapply (output_at_new _ (heap s) _ []); [reflexivity|reflexivity]. }
      fwd Hrun. unfold reads in Hrun.
      erewrite (output_at_new_replaced _ _ _ _ (heap s) _ []) in Hrun;
        [|reflexivity|reflexivity].
      injection Hrun as <- <-.
      norm_goal.
      split; [|split; [rewrite length_replaced, !length_app; cbn; lia|lia]].
      exists "Unsqueeze", (S (INTERNAL_NAME s)).
      fresh_id_tac.
Qed.

Lemma tuple_post s o1 o2 s' :
  _process_tuple_ch_init_nodes ONNX_TO_NUMPY_DTYPE s = (Ok (o1, o2), s') →
  fresh_id s s' o1 ∧ fresh_id s s' o2 ∧ length (heap s) < length (heap s').
Proof.
  unfold _process_tuple_ch_init_nodes. intros Hrun.
  rewrite run_bind in Hrun.
  destruct (var_initializer "ht" s) as [[h_id|e] s0] eqn:Hv; [|discriminate].
  assert (s0 = s) as -> by (unfold var_initializer, reads in Hv; by injection Hv).
  rewrite run_bind in Hrun.
  destruct (var_initializer "ct" s) as [[c_id|e] s0] eqn:Hv2; [|discriminate].
  assert (s0 = s) as -> by (unfold var_initializer, reads in Hv2; by injection Hv2).
  rewrite run_bind in Hrun.
  destruct (_process_c_or_h_init_nodes ONNX_TO_NUMPY_DTYPE h_id s)
    as [[oh|e] s1] eqn:Hh; [|discriminate].
  rewrite run_bind in Hrun.
  destruct (_process_c_or_h_init_nodes ONNX_TO_NUMPY_DTYPE c_id s1)
    as [[oc|e] s2] eqn:Hc; [|discriminate].
  injection Hrun as <- <- <-.
  apply c_or_h_post in Hh as (Fh & Lh & Kh).
  apply c_or_h_post in Hc as (Fc & Lc & Kc).
  split; [|split; [|lia]].
  - eapply fresh_id_weaken; [exact Fh|lia|lia].
  - eapply fresh_id_weaken; [exact Fc|lia|lia].
Qed.

Lemma process_var_init_nodes_post s s' :
  process_var_init_nodes ONNX_TO_NUMPY_DTYPE s = (Ok tt, s') →
  ∃ oh oc, fresh_id s s' oh ∧ fresh_id s s' oc ∧
           initial_ids s' = (Some oh, Some oc) ∧
           length (heap s) < length (heap s').
Proof.
  unfold process_var_init_nodes. intros Hrun.
  erewrite bind_reads_ok in Hrun; [|reflexivity].
  rewrite run_bind in Hrun.
  match type of Hrun with
  | match ?m s with _ => _ end = _ =>
      destruct (m s) as [[[oh oc]|e] sm] eqn:Hd; [|discriminate]
  end.
  assert (fresh_id s sm oh ∧ fresh_id s sm oc ∧ length (heap s) < length (heap sm))
    as (Fh & Fc & Hlen).
  { destruct (has_key "ct_ht" _).
    - by apply non_tuple_post in Hd.
    - destruct (has_key "ct" _ && has_key "ht" _).
      + by apply tuple_post in Hd.
      + discriminate. }
  destruct (negb (negb (bool_decide (oh = "")) && negb (bool_decide (oc = ""))));
    [discriminate|].
  rewrite bind_modify in Hrun. unfold modify in Hrun. injection Hrun as <-.
  exists oh, oc. unfold initial_ids, fresh_id in *.
  cbn [heap INTERNAL_NAME rnn_props set_rnn_props set_onnx_input_id onnx_input_ids].
  repeat split; try done.
  f_equal.
  - by rewrite lookup_insert_ne, lookup_insert_eq.
  - by rewrite lookup_insert_eq.
Qed.

Lemma fresh_id_distinct s s1 s2 o1 o2 :
  fresh_id s s1 o1 → fresh_id s1 s2 o2 → o2 ≠ o1.
Proof.
  intros (b1 & j1 & Hb1 & -> & _ & Hu) (b2 & j2 & Hb2 & -> & Hl & _) Heq.
  apply fresh_output_inj in Heq; [lia|done|done].
Qed.

Lemma never_workaround id :
  never_raises no_initializers (_workaround_fill_ch_init_node ONNX_TO_NUMPY_DTYPE id).
Proof.
  unfold _workaround_fill_ch_init_node, no_initializers. repeat never_step.
Qed.

Lemma never_var_initializer key :
  never_raises (A:=A) no_initializers (var_initializer key).
Proof. unfold var_initializer, no_initializers. repeat never_step. Qed.

Lemma never_non_tuple :
  never_raises no_initializers (_process_non_tuple_ch_init_nodes ONNX_TO_NUMPY_DTYPE).
Proof.
  unfold _process_non_tuple_ch_init_nodes.
  apply never_bind; [apply never_var_initializer|intros ?].
  apply never_bind; [unfold no_initializers; never_step|intros ?].
  apply never_bind; [apply never_workaround|intros ?].
  unfold no_initializers. repeat never_step.
Qed.

Lemma never_c_or_h id :
  never_raises no_initializers (_process_c_or_h_init_nodes ONNX_TO_NUMPY_DTYPE id).
Proof.
  unfold _process_c_or_h_init_nodes.
  apply never_bind; [apply never_workaround|intros ?].
  unfold no_initializers. repeat never_step.
Qed.

Lemma never_tuple :
  never_raises no_initializers (_process_tuple_ch_init_nodes ONNX_TO_NUMPY_DTYPE).
Proof.
  unfold _process_tuple_ch_init_nodes.
  apply never_bind; [apply never_var_initializer|intros ?].
  apply never_bind; [apply never_var_initializer|intros ?].
  apply never_bind; [apply never_c_or_h|intros ?].
  apply never_bind; [apply never_c_or_h|intros ?].
  apply never_ret.
Qed.

End InitFacts.

(** ** The initial-state builder (claims C4, C9, C10) *)

(** C4, as the code has it: [process_var_init_nodes] raises its "no
    initializers" error, with nothing changed, exactly when the shared
    slot is absent and the cell and hidden slots are not both present.
    When the shared slot is present it takes the shared path, whether or
    not the cell and hidden slots are present too. *)
Theorem process_var_init_nodes_no_initializers {A : Type} `{Scalar A}
    (ONNX_TO_NUMPY_DTYPE : Z → option string) (s : state A) :
  let vi := var_initializers (rnn_props s) in
  (has_key "ct_ht" vi = false → has_key "ct" vi && has_key "ht" vi = false →
   process_var_init_nodes ONNX_TO_NUMPY_DTYPE s = (Raise no_initializers, s))
  ∧ (has_key "ct_ht" vi = true ∨ has_key "ct" vi && has_key "ht" vi = true →
     fst (process_var_init_nodes ONNX_TO_NUMPY_DTYPE s) ≠ Raise no_initializers).
Proof.
  cbv zeta. split.
  - intros H1 H2. unfold process_var_init_nodes.
    erewrite bind_reads_ok; [|reflexivity]. by rewrite H1, H2.
  - intros Hk. revert s Hk. unfold process_var_init_nodes. intros s Hk.
    erewrite bind_reads_ok; [|reflexivity].
    match goal with |- fst (bind ?m ?k s) ≠ _ =>
      enough (never_raises no_initializers (bind m k)) as Hn by apply Hn end.
    apply never_bind.
    + destruct (has_key "ct_ht" _); [apply never_non_tuple|].
      destruct (has_key "ct" _ && has_key "ht" _); [apply never_tuple|].
      by destruct Hk.
    + intros [oh oc]. unfold no_initializers. repeat never_step.
Qed.

Lemma process_var_init_nodes_no_initializers_witness :
  process_var_init_nodes float_dtype (init_state {["ct" := "zero:0"]} [])
    = (Raise no_initializers, init_state {["ct" := "zero:0"]} []).
Proof.
  apply (proj1 (process_var_init_nodes_no_initializers float_dtype
                  (init_state {["ct" := "zero:0"]} []))).
  - vm_compute. reflexivity.
  - vm_compute. reflexivity.
Defined.

(** C4, as stated, fails: with the shared slot and the cell and hidden
    slots all present, no error is raised; the shared path is taken. *)
Lemma process_var_init_nodes_accepts_all_slots :
  let vi : gmap string string :=
    {["ct_ht" := "init:0"; "ct" := "init:0"; "ht" := "init:0"]} in
  has_key "ct_ht" vi = true ∧ has_key "ct" vi = true ∧ has_key "ht" vi = true ∧
  fst (process_var_init_nodes float_dtype (init_state vi [])) = Ok tt ∧
  initial_ids (snd (process_var_init_nodes float_dtype (init_state vi [])))
    = (Some "Unsqueeze__3:0", Some "Unsqueeze__5:0").
Proof. vm_compute. repeat split. Qed.

(** C9, as the code has it: initial-state synthesis is not idempotent.
    Every successful invocation constructs new nodes under names drawn
    afresh and records their outputs, so after a second invocation on the
    state left by the first the graph holds more node objects and both
    recorded result ids differ from those of the first invocation. *)
Theorem process_var_init_nodes_not_idempotent {A : Type} `{Scalar A}
    (ONNX_TO_NUMPY_DTYPE : Z → option string) (s s1 s2 : state A) :
  process_var_init_nodes ONNX_TO_NUMPY_DTYPE s = (Ok tt, s1) →
  process_var_init_nodes ONNX_TO_NUMPY_DTYPE s1 = (Ok tt, s2) →
  length (heap s) < length (heap s1) ∧
  length (heap s1) < length (heap s2) ∧
  fst (initial_ids s2) ≠ fst (initial_ids s1) ∧
  snd (initial_ids s2) ≠ snd (initial_ids s1).
Proof.
  intros (oh1 & oc1 & Fh1 & Fc1 & -> & L1)%process_var_init_nodes_post
         (oh2 & oc2 & Fh2 & Fc2 & -> & L2)%process_var_init_nodes_post.
  cbn [fst snd]. repeat split; [done|done| |].
  - intros [= Heq]. by eapply (fresh_id_distinct s s1 s2 oh1 oh2).
  - intros [= Heq]. by eapply (fresh_id_distinct s s1 s2 oc1 oc2).
Qed.

Lemma process_var_init_nodes_not_idempotent_witness :
  let s := init_state {["ct_ht" := "init:0"]} [] in
  let s1 := snd (process_var_init_nodes float_dtype s) in
  let s2 := snd (process_var_init_nodes float_dtype s1) in
  length (heap s) < length (heap s1) ∧
  length (heap s1) < length (heap s2) ∧
  fst (initial_ids s2) ≠ fst (initial_ids s1) ∧
  snd (initial_ids s2) ≠ snd (initial_ids s1).
Proof.
  cbv zeta.
  apply (process_var_init_nodes_not_idempotent float_dtype).
  - vm_compute. reflexivity.
  - vm_compute. reflexivity.
Defined.

(** C9, as stated, fails: on a shared initializer that is no Fill the
    second invocation returns other tensor ids than the first, and four
    more nodes and one more must-keep entry have accumulated. *)
Lemma process_var_init_nodes_second_run_differs :
  let s := init_state {["ct_ht" := "init:0"]} [] in
  let r1 := process_var_init_nodes float_dtype s in
  let r2 := process_var_init_nodes float_dtype (snd r1) in
  fst r1 = Ok tt ∧ fst r2 = Ok tt ∧
  initial_ids (snd r1) = (Some "Unsqueeze__3:0", Some "Unsqueeze__5:0") ∧
  initial_ids (snd r2) = (Some "Unsqueeze__7:0", Some "Unsqueeze__9:0") ∧
  length (all_nodes s) = 5 ∧
  length (all_nodes (snd r1)) = 9 ∧
  length (all_nodes (snd r2)) = 13 ∧
  must_keep_nodes (snd r1) = [0] ∧
  must_keep_nodes (snd r2) = [0; 0].
Proof. vm_compute. repeat split. Qed.

(** C10: on an initializer produced by a Fill node that is not on the
    must-keep list, [_workaround_fill_ch_init_node] raises the ValueError
    of [list.remove] before it builds anything (the state is unchanged),
    and so does [process_var_init_nodes] when that initializer is the
    shared slot: the rewrite aborts instead of absorbing the
    initializer. *)
Theorem fill_workaround_requires_must_keep {A : Type} `{Scalar A}
    (ONNX_TO_NUMPY_DTYPE : Z → option string) (s : state A)
    (id : string) (l : loc) (n : Node A) :
  node_by_name s id = Ok (l, n) →
  type n = "Fill" →
  l ∉ must_keep_nodes s →
  _workaround_fill_ch_init_node ONNX_TO_NUMPY_DTYPE id s
    = (Raise (ValueError "list.remove(x): x not in list"), s)
  ∧ (var_initializers (rnn_props s) !! "ct_ht" = Some id →
     process_var_init_nodes ONNX_TO_NUMPY_DTYPE s
       = (Raise (ValueError "list.remove(x): x not in list"), s)).
Proof.
  intros Hn Ht Hl.
  assert (_workaround_fill_ch_init_node ONNX_TO_NUMPY_DTYPE id s
          = (Raise (ValueError "list.remove(x): x not in list"), s)) as Hw.
  { unfold _workaround_fill_ch_init_node.
    rewrite (bind_reads_ok _ _ _ _ Hn).
    rewrite bool_decide_eq_true_2 by done. cbn [negb].
    by rewrite (bind_reads_raise _ _ _ _ (list_remove_not_in l _ Hl)). }
  split; [done|]. intros Hvi.
  unfold process_var_init_nodes.
  erewrite bind_reads_ok; [|reflexivity].
  unfold has_key at 1. rewrite Hvi, bool_decide_eq_true_2 by by eexists.
  rewrite run_bind. unfold _process_non_tuple_ch_init_nodes.
  rewrite run_bind. unfold var_initializer at 1, reads at 1. rewrite Hvi.
  erewrite bind_reads_ok; [|reflexivity].
  by rewrite run_bind, Hw.
Qed.

Lemma fill_workaround_requires_must_keep_witness :
  _workaround_fill_ch_init_node float_dtype "zeros:0" (init_state {["ct_ht" := "zeros:0"]} [])
    = (Raise (ValueError "list.remove(x): x not in list"),
       init_state {["ct_ht" := "zeros:0"]} [])
  ∧ (var_initializers (rnn_props (init_state {["ct_ht" := "zeros:0"]} [])) !! "ct_ht"
       = Some "zeros:0" →
     process_var_init_nodes float_dtype (init_state {["ct_ht" := "zeros:0"]} [])
       = (Raise (ValueError "list.remove(x): x not in list"),
          init_state {["ct_ht" := "zeros:0"]} [])).
Proof.
  apply (fill_workaround_requires_must_keep float_dtype
           (init_state {["ct_ht" := "zeros:0"]} []) "zeros:0" 3
           (plain_node "zeros" "Fill" ["dims:0"; "zero:0"])).
  - vm_compute. reflexivity.
  - reflexivity.
  - vm_compute. intros Hin. inversion Hin.
Defined.

(** ** The embedding at work on the concrete graphs *)

Example arrays_of_kernel_3x4 :
  process_weights_and_bias_arrays kernel_3x4 [10; 20; 30; 40]%Z [100]%Z =
    Ok (NdArray [1; 4; 2] [1; 5; 4; 8; 3; 7; 2; 6]%Z,
        NdArray [1; 4; 1] [9; 12; 11; 10]%Z,
        NdArray [1; 8] [10; 40; 130; 20; 0; 0; 0; 0]%Z, 2, 1).
Proof. reflexivity. Qed.

Example three_consumers_rejected :
  fst (_connect_lstm_output_to_graph is_transpose 4 0 three_consumers_state)
    = Raise exit_check_failed.
Proof. vm_compute. reflexivity. Qed.

Example last_gather_rewired :
  let s' := snd (_connect_lstm_output_to_graph is_transpose 5 0 two_readers_state) in
  find_output_consumers two_readers_state "exit:0" = [1; 2] ∧
  last_gather two_readers_state [1; 2] = Some 2 ∧
  input <$> heap s' !! 3 = Some ["ta_gather_1:0"] ∧
  input <$> heap s' !! 4 = Some ["Squeeze__10:0"].
Proof. vm_compute. repeat split. Qed.

Example batch_major_rewired :
  let s' := snd (_connect_lstm_output_to_graph is_transpose 5 0 batch_major_state) in
  input <$> heap s' !! 3 = Some ["Squeeze__10:0"; "perm:0"] ∧
  input <$> heap s' !! 4 = Some ["Transpose__11:0"] ∧
  g_shapes s' !! "Squeeze__10:0" = Some [7; 4; 3]%Z ∧
  g_shapes s' !! "Transpose__11:0" = Some [4; 7; 3]%Z.
Proof. vm_compute. repeat split. Qed.

Example fill_initializer_absorbed :
  let r := process_var_init_nodes float_dtype (init_state {["ct_ht" := "zeros:0"]} [3]) in
  fst r = Ok tt ∧
  initial_ids (snd r) = (Some "Tile__7:0", Some "Tile__7:0") ∧
  must_keep_nodes (snd r) = [] ∧
  all_nodes (snd r) = [0; 1; 2; 3; 4; 7; 8; 10].
Proof. vm_compute. repeat split. Qed.

Example tuple_initializers :
  let r := process_var_init_nodes float_dtype
             (init_state {["ct" := "zero:0"; "ht" := "init:0"]} []) in
  fst r = Ok tt ∧
  initial_ids (snd r) = (Some "Unsqueeze__2:0", Some "Const__3:0") ∧
  must_keep_nodes (snd r) = [0; 2].
Proof. vm_compute. repeat split. Qed.

(** * The remaining methods *)

Section WeightsOutcome.
Context {A : Type} `{Scalar A}.
Implicit Types (s : state A).

Lemma py_index_neg_rows (h n : nat) :
  py_index (- Z.of_nat h) n = if bool_decide (h = 0) then 0 else n - h.
Proof.
  unfold py_index. case_bool_decide as Hh; destruct (Z.ltb_spec (- Z.of_nat h) 0); lia.
Qed.

(** The arrays for any kernel whose columns are those of the bias. *)
Lemma arrays_ok_any_rows (k : matrix A) (b : list A) (ft0 : A) (ftl : list A) (h : nat) :
  ncols k = 4 * h → length b = 4 * h →
  process_weights_and_bias_arrays k b (ft0 :: ftl) =
    Ok (np_expand_dims0 (of_matrix (np_transpose (swap_gate_columns
            (fst (np_split_axis0_at k (- Z.of_nat h)))))),
        np_expand_dims0 (of_matrix (np_transpose (swap_gate_columns
            (snd (np_split_axis0_at k (- Z.of_nat h)))))),
        NdArray [1; 2 * length b] (fused_bias_row h ft0 b ++ replicate (length b) (of_Z 0)),
        nrows (fst (np_split_axis0_at k (- Z.of_nat h))), h).
Proof.
  intros Hc Hb.
  assert (length b mod 4 = 0) as Hmod by (rewrite Hb; apply mod4_mul).
  assert (length b / 4 = h) as Hdiv by (rewrite Hb; apply div4_mul).
  unfold process_weights_and_bias_arrays. cbv zeta.
  rewrite np_split4_axis1_ok by done. cbn [np_reshape_row ncols].
  rewrite !Hdiv. cbn [res_bind].
  rewrite np_concatenate_axis1_4 by done. cbn [res_bind].
  rewrite np_concatenate_axis1_2 by done. cbn [res_bind].
  rewrite bool_decide_eq_true_2; [|split; [done|cbn; lia]]. cbn [negb].
  destruct (np_split_axis0_at k (- Z.of_nat h)) as [wx wh] eqn:Hsplit.
  cbn [fst snd].
  assert (ncols wx = 4 * h ∧ ncols wh = 4 * h) as [Hcx Hch].
  { unfold np_split_axis0_at in Hsplit. injection Hsplit as <- <-. by cbn [ncols]. }
  rewrite Hcx, div4_mul. rewrite bool_decide_eq_true_2 by done. cbn [negb].
  rewrite (np_split4_axis1_ok wx) by (rewrite Hcx; apply mod4_mul). cbn [res_bind].
  rewrite np_concatenate_axis1_4 by done. cbn [res_bind].
  rewrite (np_split4_axis1_ok wh) by (rewrite Hch; apply mod4_mul). cbn [res_bind].
  rewrite np_concatenate_axis1_4 by done. cbn [res_bind].
  rewrite !hstack_blocks_0321.
  f_equal. f_equal. f_equal. f_equal.
  unfold of_matrix, hstack, col_block, np_add_scalar, np_zeros_row, np_reshape_row.
  cbn [nrows ncols rows map zip_with concat].
  rewrite app_nil_r.
  replace (h + (h + (h + h)) + length b) with (2 * length b) by lia.
  reflexivity.
Qed.

Lemma arrays_outcome (rw : RnnWeights A) :
  match weights_outcome rw with
  | Ok (n, h) => ∃ W R B,
      process_weights_and_bias_arrays (kernel rw) (bias rw) (forget_bias rw)
        = Ok (W, R, B, n, h) ∧
      shape W = [1; 4 * h; n] ∧ shape R = [1; 4 * h; nrows (kernel rw) - n]
  | Raise e =>
      process_weights_and_bias_arrays (kernel rw) (bias rw) (forget_bias rw) = Raise e
  end.
Proof.
  unfold weights_outcome. cbv zeta.
  case_bool_decide as Hm; cbn [negb].
  2:{ by apply arrays_bias_not_multiple_of_4. }
  assert (length (bias rw) = 4 * (length (bias rw) / 4)) as Hb.
  { pose proof (Nat.div_mod_eq (length (bias rw)) 4). lia. }
  pose (h := length (bias rw) / 4).
  assert (length (bias rw) / 4 = h) as Hdiv by done.
  clearbody h. rewrite !Hdiv in *.
  case_bool_decide as Hft.
  { unfold process_weights_and_bias_arrays. cbv zeta.
    rewrite np_split4_axis1_ok by done. cbn [res_bind]. by rewrite Hft. }
  destruct (forget_bias rw) as [|ft0 ftl] eqn:Eft; [done|].
  case_bool_decide as Hq; cbn [negb].
  2:{ unfold process_weights_and_bias_arrays. cbv zeta.
      rewrite np_split4_axis1_ok by done. cbn [np_reshape_row ncols res_bind].
      rewrite !Hdiv.
      rewrite np_concatenate_axis1_4 by done. cbn [res_bind].
      rewrite np_concatenate_axis1_2 by done. cbn [res_bind].
      rewrite bool_decide_eq_true_2; [|split; [done|cbn; lia]]. cbn [negb].
      unfold np_split_axis0_at. cbn [ncols].
      by rewrite bool_decide_eq_false_2. }
  case_bool_decide as Hk; cbn [negb].
  2:{ unfold process_weights_and_bias_arrays. cbv zeta.
      rewrite np_split4_axis1_ok by done. cbn [np_reshape_row ncols res_bind].
      rewrite !Hdiv.
      rewrite np_concatenate_axis1_4 by done. cbn [res_bind].
      rewrite np_concatenate_axis1_2 by done. cbn [res_bind].
      rewrite bool_decide_eq_true_2; [|split; [done|cbn; lia]]. cbn [negb].
      unfold np_split_axis0_at. cbn [ncols].
      rewrite bool_decide_eq_true_2 by done. cbn [negb].
      unfold np_split4_axis1 at 1. cbn [ncols]. by rewrite decide_False. }
  assert (ncols (kernel rw) = 4 * h) as Hc.
  { pose proof (Nat.div_mod_eq (ncols (kernel rw)) 4). lia. }
  eexists _, _, _. split; [|split].
  - rewrite (arrays_ok_any_rows _ _ ft0 ftl h Hc Hb). do 3 f_equal.
    unfold np_split_axis0_at. cbn [fst nrows]. apply py_index_neg_rows.
  - unfold np_expand_dims0, of_matrix, np_transpose, swap_gate_columns, np_split_axis0_at.
    cbn [shape nrows ncols fst]. rewrite Hc, div4_mul, py_index_neg_rows.
    f_equal. f_equal. lia.
  - unfold np_expand_dims0, of_matrix, np_transpose, swap_gate_columns, np_split_axis0_at.
    cbn [shape nrows ncols snd]. rewrite Hc, div4_mul, py_index_neg_rows.
    f_equal. f_equal. lia.
Qed.

End WeightsOutcome.

(** X1: [process_weights_and_bias] makes its checks in a fixed order and
    changes nothing unless all of them pass: a bias whose length is no
    multiple of 4 is the ValueError of [np.split]; then an empty forget
    bias is an IndexError; then a kernel whose column count divided by 4 is
    not the hidden size is an AssertionError; then a kernel whose column
    count is no multiple of 4 is the ValueError of [np.split] again. Past
    them it returns (input size, hidden size), the input size being the
    kernel's rows less the hidden size (0 when there are fewer, or when the
    hidden size is 0), with W of shape (1, 4 * hidden, input size) and R of
    shape (1, 4 * hidden, rows - input size). *)
Theorem process_weights_and_bias_checks_in_order {A : Type} `{Scalar A}
    (rw : RnnWeights A) (s : state A) :
  match weights_outcome rw with
  | Ok (n, h) => ∃ W R B,
      process_weights_and_bias rw s = (Ok (n, h), weights_emitted s W R B n h) ∧
      shape W = [1; 4 * h; n] ∧ shape R = [1; 4 * h; nrows (kernel rw) - n]
  | Raise e => process_weights_and_bias rw s = (Raise e, s)
  end.
Proof.
  pose proof (arrays_outcome rw) as Harr.
  destruct (weights_outcome rw) as [[n h]|e].
  - destruct Harr as (W & R & B & Harr & HW & HR). exists W, R, B.
    split; [|done]. by apply process_weights_and_bias_ok.
  - by apply process_weights_and_bias_raise.
Qed.

(** X2: on a kernel of input_size + hidden_size rows (hidden_size
    positive) the three constants have the shapes the fused operator asks
    for, W (1, 4 * hidden, input), R (1, 4 * hidden, hidden) and
    B (1, 8 * hidden); they are the three nodes appended to the heap, in
    that order, under names drawn from the counter; the sizes are recorded,
    and the ids recorded under "W", "R" and "B" are the outputs of those
    three nodes. *)
Theorem process_weights_and_bias_operator_shapes {A : Type} `{Scalar A}
    (rw : RnnWeights A) (s : state A) (isz h : nat) :
  nrows (kernel rw) = isz + h → 0 < h →
  ncols (kernel rw) = 4 * h → length (bias rw) = 4 * h → forget_bias rw ≠ [] →
  ∃ W R B s',
    process_weights_and_bias rw s = (Ok (isz, h), s') ∧
    shape W = [1; 4 * h; isz] ∧ shape R = [1; 4 * h; h] ∧ shape B = [1; 8 * h] ∧
    input_size (rnn_props s') = isz ∧ hidden_size (rnn_props s') = h ∧
    heap s' = heap s ++ [const_node (fresh_name "W" (1 + INTERNAL_NAME s)) W;
                         const_node (fresh_name "R" (2 + INTERNAL_NAME s)) R;
                         const_node (fresh_name "B" (3 + INTERNAL_NAME s)) B] ∧
    output_at s' (length (heap s)) 0 = Ok (default "" (onnx_input_ids (rnn_props s') !! "W")) ∧
    output_at s' (1 + length (heap s)) 0 = Ok (default "" (onnx_input_ids (rnn_props s') !! "R")) ∧
    output_at s' (2 + length (heap s)) 0 = Ok (default "" (onnx_input_ids (rnn_props s') !! "B")).
Proof.
  intros Hr Hh Hc Hb Hft.
  destruct (forget_bias rw) as [|ft0 ftl] eqn:Eft; [done|].
  pose proof (arrays_ok_any_rows (kernel rw) (bias rw) ft0 ftl h Hc Hb) as Harr.
  rewrite <- Eft in Harr.
  assert (nrows (fst (np_split_axis0_at (kernel rw) (- Z.of_nat h))) = isz) as Hn.
  { unfold np_split_axis0_at. cbn [fst nrows]. rewrite py_index_neg_rows.
    rewrite bool_decide_eq_false_2 by lia. lia. }
  rewrite Hn in Harr.
  match type of Harr with
  | _ = Ok (?W, ?R, ?B, _, _) => exists W, R, B, (weights_emitted s W R B isz h)
  end.
  split; [by apply process_weights_and_bias_ok|].
  unfold weights_emitted. cbn [rnn_props input_size hidden_size heap onnx_input_ids shape].
  repeat split.
  - unfold np_expand_dims0, of_matrix, np_transpose, swap_gate_columns.
    cbn [shape nrows ncols]. rewrite Hn.
    unfold np_split_axis0_at. cbn [fst ncols]. rewrite Hc, div4_mul.
    do 2 f_equal. lia.
  - unfold np_expand_dims0, of_matrix, np_transpose, swap_gate_columns, np_split_axis0_at.
    cbn [shape nrows ncols snd]. rewrite Hc, div4_mul, py_index_neg_rows.
    rewrite bool_decide_eq_false_2 by lia.
    do 2 f_equal; [lia|f_equal; lia].
  - do 2 f_equal. lia.
  - by rewrite <- !app_assoc.
  - unfold output_at, node_at. cbn [heap].
    rewrite lookup_app_l by (rewrite ?length_app; cbn [length]; lia).
    rewrite lookup_app_l by (rewrite ?length_app; cbn [length]; lia).
    rewrite list_lookup_middle by done. cbn [res_bind].
    rewrite lookup_insert_ne by done. rewrite lookup_insert_ne by done.
    by rewrite lookup_insert_eq.
  - unfold output_at, node_at. cbn [heap].
    rewrite lookup_app_l by (rewrite ?length_app; cbn [length]; lia).
    rewrite list_lookup_middle by (rewrite ?length_app; cbn [length]; lia). cbn [res_bind].
    rewrite lookup_insert_ne by done.
    by rewrite lookup_insert_eq.
  - unfold output_at, node_at. cbn [heap].
    rewrite list_lookup_middle by (rewrite ?length_app; cbn [length]; lia). cbn [res_bind].
    by rewrite lookup_insert_eq.
Qed.

Lemma process_weights_and_bias_operator_shapes_witness :
  ∃ W R B s',
    process_weights_and_bias weights_3x4 empty_state = (Ok (2, 1), s') ∧
    shape W = [1; 4 * 1; 2] ∧ shape R = [1; 4 * 1; 1] ∧ shape B = [1; 8 * 1] ∧
    input_size (rnn_props s') = 2 ∧ hidden_size (rnn_props s') = 1 ∧
    heap s' = heap empty_state
              ++ [const_node (fresh_name "W" (1 + INTERNAL_NAME empty_state)) W;
                  const_node (fresh_name "R" (2 + INTERNAL_NAME empty_state)) R;
                  const_node (fresh_name "B" (3 + INTERNAL_NAME empty_state)) B] ∧
    output_at s' (length (heap empty_state)) 0
      = Ok (default "" (onnx_input_ids (rnn_props s') !! "W")) ∧
    output_at s' (1 + length (heap empty_state)) 0
      = Ok (default "" (onnx_input_ids (rnn_props s') !! "R")) ∧
    output_at s' (2 + length (heap empty_state)) 0
      = Ok (default "" (onnx_input_ids (rnn_props s') !! "B")).
Proof.
  apply (process_weights_and_bias_operator_shapes weights_3x4 empty_state 2 1);
    [reflexivity|lia|reflexivity|reflexivity|discriminate].
Defined.

(** X3: the number of rows of the kernel is never checked against the
    hidden size. A kernel with no more rows than the hidden size is
    accepted: the input size returned is 0, W has no input column, and R
    holds the whole kernel (of [rows] columns instead of [hidden]). *)
Theorem process_weights_and_bias_short_kernel {A : Type} `{Scalar A}
    (rw : RnnWeights A) (s : state A) (h : nat) :
  wf_matrix (kernel rw) →
  ncols (kernel rw) = 4 * h → length (bias rw) = 4 * h → forget_bias rw ≠ [] →
  nrows (kernel rw) ≤ h →
  ∃ W R B,
    process_weights_and_bias rw s = (Ok (0, h), weights_emitted s W R B 0 h) ∧
    shape W = [1; 4 * h; 0] ∧ shape R = [1; 4 * h; nrows (kernel rw)] ∧
    native_of_fused_weight R = Ok (kernel rw).
Proof.
  intros Hwf Hc Hb Hft Hle.
  destruct (forget_bias rw) as [|ft0 ftl] eqn:Eft; [done|].
  pose proof (arrays_ok_any_rows (kernel rw) (bias rw) ft0 ftl h Hc Hb) as Harr.
  rewrite <- Eft in Harr.
  assert (py_index (- Z.of_nat h) (nrows (kernel rw)) = 0) as Hi.
  { rewrite py_index_neg_rows. case_bool_decide; lia. }
  assert (snd (np_split_axis0_at (kernel rw) (- Z.of_nat h)) = kernel rw) as Hsnd.
  { unfold np_split_axis0_at. cbn [snd]. rewrite Hi. rewrite Nat.sub_0_r, drop_0.
    by destruct (kernel rw). }
  assert (nrows (fst (np_split_axis0_at (kernel rw) (- Z.of_nat h))) = 0) as Hn.
  { unfold np_split_axis0_at. by cbn [fst nrows]. }
  rewrite Hn, Hsnd in Harr.
  eexists _, _, _. split; [by apply process_weights_and_bias_ok|].
  split; [|split].
  - unfold np_expand_dims0, of_matrix, np_transpose, swap_gate_columns, np_split_axis0_at.
    cbn [shape nrows ncols fst]. rewrite Hc, div4_mul, Hi. do 2 f_equal. lia.
  - unfold np_expand_dims0, of_matrix, np_transpose, swap_gate_columns.
    cbn [shape nrows ncols]. rewrite Hc, div4_mul. do 2 f_equal. lia.
  - apply native_of_fused_weight_back; [done|]. rewrite Hc. apply mod4_mul.
Qed.

Lemma wf_kernel_1x8 : wf_matrix kernel_1x8.
Proof. split; [done|]. by repeat constructor. Qed.

Lemma process_weights_and_bias_short_kernel_witness :
  ∃ W R B,
    process_weights_and_bias weights_1x8 empty_state
      = (Ok (0, 2), weights_emitted empty_state W R B 0 2) ∧
    shape W = [1; 4 * 2; 0] ∧ shape R = [1; 4 * 2; nrows (kernel weights_1x8)] ∧
    native_of_fused_weight R = Ok (kernel weights_1x8).
Proof.
  apply (process_weights_and_bias_short_kernel weights_1x8 empty_state 2 wf_kernel_1x8);
    [reflexivity|reflexivity|discriminate|cbn; lia].
Defined.

(** ** Scope names *)

Lemma py_split_cons (c : ascii) (s : string) : ∃ p ps, py_split c s = p :: ps.
Proof.
  induction s as [|a s (p & ps & IH)]; [by eexists _, _|].
  cbn [py_split]. case_decide; [by eexists _, _|]. rewrite IH. by eexists _, _.
Qed.

Lemma py_split_app (c : ascii) (s t : string) :
  py_split c (s +:+ String c t) = py_split c s ++ py_split c t.
Proof.
  induction s as [|a s IH]; simpl.
  - by rewrite decide_True.
  - case_decide; [by rewrite IH|].
    rewrite IH. by destruct (py_split_cons c s) as (p & ps & ->).
Qed.

Lemma py_split_no_sep (c : ascii) (s : string) :
  count_char c s = 0 → py_split c s = [s].
Proof.
  induction s as [|a s IH]; [done|]. cbn [count_char py_split].
  case_decide; [done|]. intros Hc. by rewrite IH.
Qed.

Lemma length_py_split (c : ascii) (s : string) :
  length (py_split c s) = S (count_char c s).
Proof.
  induction s as [|a s IH]; [done|]. cbn [count_char py_split].
  case_decide; cbn [length]; [by rewrite IH|].
  destruct (py_split_cons c s) as (p & ps & E). rewrite E in *. cbn [length] in *. lia.
Qed.

Lemma py_join_cons (sep p q : string) (l : list string) :
  py_join sep (p :: q :: l) = p +:+ sep +:+ py_join sep (q :: l).
Proof. done. Qed.

Lemma py_join_split (c : ascii) (s : string) :
  py_join (String c EmptyString) (py_split c s) = s.
Proof.
  induction s as [|a s IH]; [done|]. cbn [py_split].
  destruct (py_split_cons c s) as (p & ps & E). rewrite E in *.
  case_decide as Ha.
  - subst a. rewrite py_join_cons, IH. done.
  - destruct ps as [|q ps].
    + cbn [py_join] in *. by rewrite IH.
    + rewrite py_join_cons in IH |- *. by rewrite <- IH.
Qed.

Lemma string_app_assoc (a b c : string) : (a +:+ b) +:+ c = a +:+ (b +:+ c).
Proof.
  induction a as [|x a IH]; [done|].
  change (String x ((a +:+ b) +:+ c) = String x (a +:+ (b +:+ c))). by f_equal.
Qed.

Lemma string_app_empty_r (a : string) : a +:+ "" = a.
Proof.
  induction a as [|x a IH]; [done|].
  change (String x (a +:+ "") = String x a). by f_equal.
Qed.

Lemma py_join_app (sep : string) (l1 l2 : list string) :
  l1 ≠ [] → l2 ≠ [] →
  py_join sep (l1 ++ l2) = py_join sep l1 +:+ sep +:+ py_join sep l2.
Proof.
  intros H1 H2. induction l1 as [|p l1 IH]; [done|].
  destruct l1 as [|q l1].
  - destruct l2; [done|]. done.
  - change ((p :: q :: l1) ++ l2) with (p :: q :: (l1 ++ l2)).
    rewrite !py_join_cons.
    change (q :: l1 ++ l2) with ((q :: l1) ++ l2).
    rewrite IH by done.
    by rewrite !string_app_assoc.
Qed.

Lemma prefix_app (s t : string) : String.prefix s (s +:+ t) = true.
Proof.
  induction s as [|a s IH]; [by destruct t|]. simpl.
  destruct (ascii_dec a a); [done|congruence].
Qed.

Lemma prefix_empty (t : string) : String.prefix "" t = true.
Proof. by destruct t. Qed.

Lemma py_slice_head {X} (l : list X) (k : nat) :
  0 < k → py_slice l 0 (- Z.of_nat k) = take (length l - k) l.
Proof.
  intros Hk. unfold py_slice.
  assert (py_index 0 (length l) = 0) as -> by (unfold py_index; cbn; lia).
  rewrite drop_0, Nat.sub_0_r. f_equal.
  unfold py_index. destruct (Z.ltb_spec (- Z.of_nat k) 0); lia.
Qed.

(** X4: for a cell output named scope/a/b/c, where a, b and c hold no
    slash, the scope name is [scope]: three levels up, whatever slashes the
    scope itself holds. *)
Theorem get_rnn_scope_name_three_levels_up {A : Type} `{Scalar A}
    (s : state A) (match_ : gmap string loc) (l : loc) (n : Node A)
    (scope a b c : string) :
  match_ !! "ht" = Some l →
  heap s !! l = Some n →
  name n = scope +:+ "/" +:+ a +:+ "/" +:+ b +:+ "/" +:+ c →
  count_char "/" a = 0 → count_char "/" b = 0 → count_char "/" c = 0 →
  get_rnn_scope_name s match_ = Ok scope.
Proof.
  intros Hm Hl Hn Ha Hb Hc.
  unfold get_rnn_scope_name, get_op, node_at. rewrite Hm. cbn [res_bind]. rewrite Hl.
  cbn [res_bind]. f_equal. rewrite Hn.
  change ("/" +:+ a +:+ "/" +:+ b +:+ "/" +:+ c)
    with (String "/" (a +:+ String "/" (b +:+ String "/" c))).
  rewrite !py_split_app. rewrite (py_split_no_sep _ a), (py_split_no_sep _ b),
    (py_split_no_sep _ c) by done.
  rewrite (py_slice_head _ 3) by lia. rewrite !length_app. cbn [length].
  rewrite take_app_length' by lia.
  apply py_join_split.
Qed.

Lemma get_rnn_scope_name_three_levels_up_witness :
  get_rnn_scope_name (cell_output_state "rnn/while/lstm_cell/mul_2") {["ht" := 0]}
    = Ok "rnn".
Proof.
  apply (get_rnn_scope_name_three_levels_up _ _ 0
           (cell_output "rnn/while/lstm_cell/mul_2") "rnn" "while" "lstm_cell" "mul_2");
    reflexivity.
Defined.

(** X5: a cell output whose name has fewer than three slashes gives
    the empty scope name; no error is raised. *)
Theorem get_rnn_scope_name_shallow {A : Type} `{Scalar A}
    (s : state A) (match_ : gmap string loc) (l : loc) (n : Node A) :
  match_ !! "ht" = Some l →
  heap s !! l = Some n →
  count_char "/" (name n) < 3 →
  get_rnn_scope_name s match_ = Ok "".
Proof.
  intros Hm Hl Hc.
  unfold get_rnn_scope_name, get_op, node_at. rewrite Hm. cbn [res_bind]. rewrite Hl.
  cbn [res_bind]. f_equal.
  rewrite (py_slice_head _ 3), length_py_split by lia.
  replace (S (count_char "/" (name n)) - 3) with 0 by lia. done.
Qed.

Lemma get_rnn_scope_name_shallow_witness :
  get_rnn_scope_name (cell_output_state "while/lstm_cell/mul_2") {["ht" := 0]} = Ok "".
Proof.
  apply (get_rnn_scope_name_shallow _ _ 0 (cell_output "while/lstm_cell/mul_2"));
    [reflexivity|reflexivity|vm_compute; lia].
Defined.

(** X6: the scope name is always a prefix of the cell output's name,
    so that node passes the [startswith] test [process_input_x] applies to
    the consumers of the input. *)
Theorem get_rnn_scope_name_is_prefix {A : Type} `{Scalar A}
    (s : state A) (match_ : gmap string loc) (l : loc) (n : Node A) (scope : string) :
  match_ !! "ht" = Some l →
  heap s !! l = Some n →
  get_rnn_scope_name s match_ = Ok scope →
  startswith (name n) scope = true.
Proof.
  intros Hm Hl. unfold get_rnn_scope_name, get_op, node_at.
  rewrite Hm. cbn [res_bind]. rewrite Hl. cbn [res_bind]. intros [= <-].
  unfold startswith. rewrite (py_slice_head _ 3) by lia.
  set (parts := py_split "/" (name n)). set (k := length parts - 3).
  rewrite <- (py_join_split "/" (name n)) at 1. fold parts.
  rewrite <- (take_drop k parts) at 2.
  destruct (take k parts) as [|p ps] eqn:Et; [apply prefix_empty|].
  destruct (drop k parts) as [|q qs] eqn:Ed.
  - rewrite app_nil_r. rewrite <- (string_app_empty_r (py_join "/" (p :: ps))) at 2.
    apply prefix_app.
  - rewrite py_join_app by done. apply prefix_app.
Qed.

Lemma get_rnn_scope_name_is_prefix_witness :
  startswith "a/b/while/lstm_cell/mul_2" "a/b" = true.
Proof.
  apply (get_rnn_scope_name_is_prefix (cell_output_state "a/b/while/lstm_cell/mul_2")
           {["ht" := 0]} 0 (cell_output "a/b/while/lstm_cell/mul_2") "a/b");
    reflexivity.
Defined.

(** ** The cell-state and output classifiers *)

Lemma filter_res_pure_in {X} (p : X → res bool) (f : X → bool) (l : list X) :
  Forall (fun x => p x = Ok (f x)) l →
  filter_res p l = Ok (filter (fun x => f x = true) l).
Proof.
  induction 1 as [|x l Hx Hl IH]; [done|].
  cbn [filter_res]. rewrite Hx, IH. cbn [res_bind].
  rewrite filter_cons. by destruct (f x); [rewrite decide_True|rewrite decide_False].
Qed.

Section ClassifierFacts.
Context {A : Type} `{Scalar A}.
Implicit Types (s : state A) (n : Node A).

Lemma get_node_by_name_Some s id l :
  get_node_by_name s id = Some l →
  ∃ n, heap s !! l = Some n ∧ node_has_id id n = true.
Proof.
  unfold get_node_by_name. destruct (list_find _ _) as [[i n]|] eqn:E; [|done].
  cbn. intros [= <-]. apply list_find_Some in E as (Hl & Hp & _).
  exists n. split; [done|]. by apply Is_true_true.
Qed.

Lemma existsb_producer s (ft : loc) (ins : list string) :
  existsb (fun i => bool_decide (get_node_by_name s i = Some ft)) ins
  = bool_decide (Some ft ∈ map (get_node_by_name s) ins).
Proof.
  induction ins as [|i ins IH]; [done|]. cbn [existsb map]. rewrite IH.
  apply eq_true_iff_eq. rewrite orb_true_iff, !bool_decide_eq_true, elem_of_cons.
  split; (intros [?|?]; [left|right]); done.
Qed.

End ClassifierFacts.

(** X7: [_ct_switch_check] returns the entry tensor id exactly when one
    of the identity's consumers is a Mul that has, at any operand position,
    an input produced by the node bound to role "ft"; with none or several
    it returns [None]. *)
Theorem ct_switch_check_counts_forget_multiplications {A : Type} `{Scalar A}
    (s : state A) (id : string) (cs : list loc) (m : gmap string loc) (ft : loc) :
  m !! "ft" = Some ft →
  Forall (fun c => is_Some (heap s !! c)) cs →
  _ct_switch_check s id cs m =
    Ok (if decide (length (filter (fun c => multiplies_by s ft c = true) cs) = 1)
        then Some id else None).
Proof.
  intros Hft Hcs. unfold _ct_switch_check.
  rewrite (filter_res_pure_in _ (multiplies_by s ft)); [cbn [res_bind]; by case_decide|].
  eapply Forall_impl; [exact Hcs|]. intros c [n Hn].
  unfold node_at, multiplies_by, get_op. rewrite Hn, Hft. cbn [res_bind].
  case_bool_decide; cbn [andb res_bind]; [|done].
  by rewrite existsb_producer.
Qed.

Lemma ct_switch_check_counts_forget_multiplications_witness :
  _ct_switch_check ct_state "init:0" [2; 3] {["ft" := 0]} =
    Ok (if decide (length (filter (fun c => multiplies_by ct_state 0 c = true) [2; 3]) = 1)
        then Some "init:0" else None).
Proof.
  apply (ct_switch_check_counts_forget_multiplications ct_state "init:0" [2; 3]
           {["ft" := 0]} 0); [reflexivity|].
  repeat constructor; by eexists.
Defined.

(** X8: a match without the role "ft" makes [_ct_switch_check] raise
    KeyError only if some consumer is a Mul; without a Mul consumer the
    role is never looked up and the check returns [None]. *)
Theorem ct_switch_check_without_forget_gate {A : Type} `{Scalar A}
    (s : state A) (id : string) (cs : list loc) (m : gmap string loc) :
  m !! "ft" = None →
  Forall (fun c => is_Some (heap s !! c)) cs →
  _ct_switch_check s id cs m =
    if existsb (node_type_is s "Mul") cs then Raise (KeyError "ft") else Ok None.
Proof.
  intros Hft Hcs. unfold _ct_switch_check.
  induction Hcs as [|c cs [n Hn] Hcs IH]; [done|].
  cbn [filter_res existsb]. unfold node_at at 1, node_type_is at 1. rewrite Hn.
  cbn [res_bind]. case_bool_decide; cbn [orb].
  - unfold get_op. by rewrite Hft.
  - cbn [res_bind]. destruct (filter_res _ cs) as [r|e]; cbn [res_bind] in *; exact IH.
Qed.

Lemma ct_switch_check_without_forget_gate_witness :
  _ct_switch_check ct_state "init:0" [3; 5] ∅ =
    if existsb (node_type_is ct_state "Mul") [3; 5] then Raise (KeyError "ft") else Ok None.
Proof.
  apply (ct_switch_check_without_forget_gate ct_state "init:0" [3; 5] ∅); [reflexivity|].
  repeat constructor; by eexists.
Defined.

(** X9: [_output_switch_check] never reads the match. With exactly one
    TensorArrayWriteV3 among the consumers it looks the entry id up: no
    such node is an AttributeError, a TensorArrayV3 gives the id, any other
    node [None]; with another number of writes it returns [None] without
    looking the id up. *)
Theorem output_switch_check_accepts {A : Type} `{Scalar A}
    (s : state A) (id : string) (cs : list loc) (m : gmap string loc) :
  Forall (fun c => is_Some (heap s !! c)) cs →
  _output_switch_check s id cs m =
    if decide (length (filter (fun c => node_type_is s "TensorArrayWriteV3" c = true) cs) = 1)
    then match get_node_by_name s id with
         | Some l => Ok (if node_type_is s "TensorArrayV3" l then Some id else None)
         | None => Raise AttributeError
         end
    else Ok None.
Proof.
  intros Hcs. unfold _output_switch_check.
  rewrite (filter_res_pure_in _ (node_type_is s "TensorArrayWriteV3")).
  2:{ eapply Forall_impl; [exact Hcs|]. intros c [n Hn].
      unfold has_type, node_at, node_type_is. by rewrite Hn. }
  cbn [res_bind]. case_decide; [|done].
  unfold node_by_name. destruct (get_node_by_name s id) as [l|] eqn:Hl; [|done].
  destruct (get_node_by_name_Some s id l Hl) as (n & Hn & _).
  unfold node_at, node_type_is. rewrite Hn. cbn [res_bind snd].
  by case_bool_decide.
Qed.

Lemma output_switch_check_accepts_witness :
  _output_switch_check ct_state "ta:0" [1; 5] ∅ =
    if decide (length (filter (fun c => node_type_is ct_state "TensorArrayWriteV3" c = true)
                              [1; 5]) = 1)
    then match get_node_by_name ct_state "ta:0" with
         | Some l => Ok (if node_type_is ct_state "TensorArrayV3" l then Some "ta:0" else None)
         | None => Raise AttributeError
         end
    else Ok None.
Proof.
  apply (output_switch_check_accepts ct_state "ta:0" [1; 5] ∅).
  repeat constructor; by eexists.
Defined.

(** ** The final-state reconnectors *)

(** One step of a run whose reads are known. *)
Ltac read_new :=
  unfold output_at, node_at; norm_goal;
  rewrite ?replaced_lookup;
  repeat (rewrite lookup_app_l by (rewrite ?length_app; cbn [length]; lia));
  rewrite list_lookup_middle by (rewrite ?length_app; cbn [length]; lia);
  reflexivity.

Ltac read_old :=
  eapply output_at_ext; [eassumption|];
  eexists; norm_goal; rewrite <- ?app_assoc; reflexivity.

Ltac read_shape :=
  unfold get_shape; norm_goal; rewrite lookup_insert_eq; reflexivity.

Ltac read_replaced :=
  eapply output_at_new_replaced; [norm_goal; reflexivity|reflexivity].

Ltac run_step :=
  first
    [ rewrite bind_assoc_run
    | rewrite bind_ret_run
    | rewrite bind_make_onnx_node
    | rewrite bind_make_name
    | rewrite bind_make_const
    | rewrite bind_modify
    | rewrite bind_set_shape
    | rewrite bind_extend_all_nodes
    | rewrite bind_replace_all_inputs
    | rewrite bind_append_must_keep
    | erewrite bind_reads_ok;
        [|first [eassumption | reflexivity | read_new | read_old | read_shape
                | read_replaced]] ];
  norm_goal.

Section ReconnectFacts.
Context {A : Type} `{Scalar A}.
Implicit Types (s : state A) (n : Node A) (h : list (Node A)).

Lemma yh_run (lstm_node exit_node : loc) s lo eo d0 d1 d2 rest :
  output_at s lstm_node 1 = Ok lo →
  get_shape s lo = Ok (d0 :: d1 :: d2 :: rest) →
  output_at s exit_node 0 = Ok eo →
  _connect_lstm_yh_to_graph lstm_node exit_node s
    = (Ok tt, state_output_reconnected s lo eo d1 d2).
Proof.
  intros Hlo Hsh He. unfold _connect_lstm_yh_to_graph.
  do 11 run_step.
  unfold replace_all_inputs, modify, state_output_reconnected. norm_goal.
  reflexivity.
Qed.

Lemma yc_run (lstm_node exit_node : loc) s lo eo d0 d1 d2 rest :
  output_at s lstm_node 2 = Ok lo →
  get_shape s lo = Ok (d0 :: d1 :: d2 :: rest) →
  output_at s exit_node 0 = Ok eo →
  _connect_lstm_yc_to_graph lstm_node exit_node s
    = (Ok tt, state_output_reconnected s lo eo d1 d2).
Proof.
  intros Hlo Hsh He. unfold _connect_lstm_yc_to_graph.
  do 11 run_step.
  unfold replace_all_inputs, modify, state_output_reconnected. norm_goal.
  reflexivity.
Qed.

(** What the state left by the two final-state reconnectors holds. *)
Lemma state_output_reconnected_spec s lo eo d1 d2 :
  eo ≠ lo → eo ≠ squeeze_out s →
  let s' := state_output_reconnected s lo eo d1 d2 in
  all_nodes s' = all_nodes s ++ [length (heap s)] ∧
  heap s' !! length (heap s) = Some (state_squeeze_of s lo) ∧
  g_shapes s' !! squeeze_out s = Some [d1; d2] ∧
  (∀ (l : loc) n, l ∈ all_nodes s' → heap s' !! l = Some n → eo ∉ input n) ∧
  (∀ (l : loc) n, heap s !! l = Some n →
     heap s' !! l = Some (if bool_decide (l ∈ all_nodes s)
                          then replace_input eo (squeeze_out s) n else n)).
Proof.
  intros Hlo Hsq. cbv zeta. unfold state_output_reconnected.
  cbn [all_nodes heap g_shapes]. repeat split.
  - rewrite replaced_lookup, list_lookup_middle by done.
    rewrite bool_decide_eq_true_2 by (apply elem_of_app; right; left).
    cbn [fmap option_fmap option_map].
    f_equal. apply replace_input_absent. cbn. by intros ->%list_elem_of_singleton.
  - by rewrite lookup_insert_eq.
  - intros l n Hl Hn. by eapply replaced_no_reference.
  - intros l n Hn. rewrite (replaced_old_node _ _ _ _ _ _ _ Hn).
    f_equal. apply lookup_lt_Some in Hn.
    rewrite (bool_decide_ext (l ∈ all_nodes s ++ [length (heap s)]) (l ∈ all_nodes s));
      [done|].
    rewrite elem_of_app, list_elem_of_singleton. split; [intros [?|?]; [done|lia]|by left].
Qed.

End ReconnectFacts.

(** X10: [_connect_lstm_yh_to_graph] makes a Squeeze over axis 0 of the
    fused node's output 1, records for it the shape without the leading
    extent, appends it to [all_nodes] and rewrites the exit's output into
    the squeeze's output in every node of [all_nodes]: afterwards no node of
    [all_nodes] reads the exit's output, and the nodes outside [all_nodes]
    are as they were. *)
Theorem connect_yh_rewires_consumers {A : Type} `{Scalar A}
    (lstm_node exit_node : loc) (s : state A) (lo eo : string) (d0 d1 d2 : Z)
    (rest : list Z) :
  output_at s lstm_node 1 = Ok lo →
  get_shape s lo = Ok (d0 :: d1 :: d2 :: rest) →
  output_at s exit_node 0 = Ok eo →
  eo ≠ lo → eo ≠ squeeze_out s →
  ∃ s',
    _connect_lstm_yh_to_graph lstm_node exit_node s = (Ok tt, s') ∧
    all_nodes s' = all_nodes s ++ [length (heap s)] ∧
    heap s' !! length (heap s) = Some (state_squeeze_of s lo) ∧
    g_shapes s' !! squeeze_out s = Some [d1; d2] ∧
    (∀ (l : loc) (n : Node A), l ∈ all_nodes s' → heap s' !! l = Some n → eo ∉ input n) ∧
    (∀ (l : loc) (n : Node A), heap s !! l = Some n →
       heap s' !! l = Some (if bool_decide (l ∈ all_nodes s)
                            then replace_input eo (squeeze_out s) n else n)).
Proof.
  intros Hlo Hsh He Hne1 Hne2. exists (state_output_reconnected s lo eo d1 d2).
  split; [by eapply yh_run|]. by apply state_output_reconnected_spec.
Qed.

(** X11: [_connect_lstm_yc_to_graph] does the same with the fused
    node's output 2. *)
Theorem connect_yc_rewires_consumers {A : Type} `{Scalar A}
    (lstm_node exit_node : loc) (s : state A) (lo eo : string) (d0 d1 d2 : Z)
    (rest : list Z) :
  output_at s lstm_node 2 = Ok lo →
  get_shape s lo = Ok (d0 :: d1 :: d2 :: rest) →
  output_at s exit_node 0 = Ok eo →
  eo ≠ lo → eo ≠ squeeze_out s →
  ∃ s',
    _connect_lstm_yc_to_graph lstm_node exit_node s = (Ok tt, s') ∧
    all_nodes s' = all_nodes s ++ [length (heap s)] ∧
    heap s' !! length (heap s) = Some (state_squeeze_of s lo) ∧
    g_shapes s' !! squeeze_out s = Some [d1; d2] ∧
    (∀ (l : loc) (n : Node A), l ∈ all_nodes s' → heap s' !! l = Some n → eo ∉ input n) ∧
    (∀ (l : loc) (n : Node A), heap s !! l = Some n →
       heap s' !! l = Some (if bool_decide (l ∈ all_nodes s)
                            then replace_input eo (squeeze_out s) n else n)).
Proof.
  intros Hlo Hsh He Hne1 Hne2. exists (state_output_reconnected s lo eo d1 d2).
  split; [by eapply yc_run|]. by apply state_output_reconnected_spec.
Qed.

Lemma connect_yh_rewires_consumers_witness :
  ∃ s',
    _connect_lstm_yh_to_graph 2 0 final_state = (Ok tt, s') ∧
    all_nodes s' = all_nodes final_state ++ [length (heap final_state)] ∧
    heap s' !! length (heap final_state) = Some (state_squeeze_of final_state "LSTM__9:1") ∧
    g_shapes s' !! squeeze_out final_state = Some [4; 3]%Z ∧
    (∀ (l : loc) (n : Node Z), l ∈ all_nodes s' → heap s' !! l = Some n → "exit:0" ∉ input n) ∧
    (∀ (l : loc) (n : Node Z), heap final_state !! l = Some n →
       heap s' !! l = Some (if bool_decide (l ∈ all_nodes final_state)
                            then replace_input "exit:0" (squeeze_out final_state) n else n)).
Proof.
  apply (connect_yh_rewires_consumers 2 0 final_state "LSTM__9:1" "exit:0" 1 4 3 []);
    [reflexivity|reflexivity|reflexivity|discriminate|vm_compute; discriminate].
Defined.

Lemma connect_yc_rewires_consumers_witness :
  ∃ s',
    _connect_lstm_yc_to_graph 2 0 final_state = (Ok tt, s') ∧
    all_nodes s' = all_nodes final_state ++ [length (heap final_state)] ∧
    heap s' !! length (heap final_state) = Some (state_squeeze_of final_state "LSTM__9:2") ∧
    g_shapes s' !! squeeze_out final_state = Some [4; 3]%Z ∧
    (∀ (l : loc) (n : Node Z), l ∈ all_nodes s' → heap s' !! l = Some n → "exit:0" ∉ input n) ∧
    (∀ (l : loc) (n : Node Z), heap final_state !! l = Some n →
       heap s' !! l = Some (if bool_decide (l ∈ all_nodes final_state)
                            then replace_input "exit:0" (squeeze_out final_state) n else n)).
Proof.
  apply (connect_yc_rewires_consumers 2 0 final_state "LSTM__9:2" "exit:0" 1 4 3 []);
    [reflexivity|reflexivity|reflexivity|discriminate|vm_compute; discriminate].
Defined.

Section PackedFacts.
Context {A : Type} `{Scalar A}.
Implicit Types (s : state A) (n : Node A) (h : list (Node A)).

Lemma ych_run (lstm_node exit_node : loc) s yc yh eo c0 c1 c2 rest :
  output_at s lstm_node 2 = Ok yc →
  output_at s lstm_node 1 = Ok yh →
  get_shape s yc = Ok (c0 :: c1 :: c2 :: rest) →
  output_at s exit_node 0 = Ok eo →
  _connect_lstm_ych_to_graph lstm_node exit_node s
    = (Ok tt, packed_state_reconnected s yc yh eo c0 c1 c2).
Proof.
  intros Hyc Hyh Hsh He. unfold _connect_lstm_ych_to_graph.
  do 22 run_step.
  unfold replace_all_inputs, modify, packed_state_reconnected. norm_goal.
  rewrite !length_app. cbn [length]. rewrite Nat.add_1_r, <- !app_assoc.
  reflexivity.
Qed.

End PackedFacts.

(** X12: [_connect_lstm_ych_to_graph] packs the cell state before the
    hidden state: its Concat (axis 2) reads output 2 and then output 1 of
    the fused node; the Squeeze of the Concat gets the shape (batch,
    2 * hidden); both nodes are appended to [all_nodes], whose nodes no
    longer read the exit's output. *)
Theorem connect_ych_packs_cell_then_hidden {A : Type} `{Scalar A}
    (lstm_node exit_node : loc) (s : state A) (yc yh eo : string) (c0 c1 c2 : Z)
    (rest : list Z) :
  output_at s lstm_node 2 = Ok yc →
  output_at s lstm_node 1 = Ok yh →
  get_shape s yc = Ok (c0 :: c1 :: c2 :: rest) →
  output_at s exit_node 0 = Ok eo →
  eo ≠ yc → eo ≠ yh → eo ≠ concat_out s → eo ≠ packed_squeeze_out s →
  ∃ s',
    _connect_lstm_ych_to_graph lstm_node exit_node s = (Ok tt, s') ∧
    all_nodes s' = all_nodes s ++ [length (heap s); S (length (heap s))] ∧
    heap s' !! length (heap s) = Some (concat_of s yc yh) ∧
    heap s' !! S (length (heap s)) = Some (packed_squeeze_of s) ∧
    g_shapes s' !! packed_squeeze_out s = Some [c1; c2 * 2]%Z ∧
    (∀ (l : loc) (n : Node A), l ∈ all_nodes s' → heap s' !! l = Some n → eo ∉ input n) ∧
    (∀ (l : loc) (n : Node A), heap s !! l = Some n →
       heap s' !! l = Some (if bool_decide (l ∈ all_nodes s)
                            then replace_input eo (packed_squeeze_out s) n else n)).
Proof.
  intros Hyc Hyh Hsh He Hne1 Hne2 Hne3 Hne4.
  exists (packed_state_reconnected s yc yh eo c0 c1 c2).
  split; [by eapply ych_run|].
  unfold packed_state_reconnected. cbn [all_nodes heap g_shapes].
  split; [done|]. split; [|split; [|split; [|split]]].
  - rewrite replaced_lookup.
    rewrite (list_lookup_middle (heap s) [packed_squeeze_of s] (concat_of s yc yh)) by done.
    rewrite bool_decide_eq_true_2 by (apply elem_of_app; right; left).
    cbn [fmap option_fmap option_map].
    f_equal. apply replace_input_absent. cbn.
    intros [->|[->|?%elem_of_nil]%elem_of_cons]%elem_of_cons; done.
  - rewrite replaced_lookup.
    assert ((heap s ++ [concat_of s yc yh; packed_squeeze_of s]) !! (S (length (heap s)) : loc)
            = Some (packed_squeeze_of s)) as ->.
    { rewrite lookup_app_r by lia.
      by replace (S (length (heap s)) - length (heap s)) with 1 by lia. }
    rewrite bool_decide_eq_true_2 by (apply elem_of_app; right; right; left).
    cbn [fmap option_fmap option_map].
    f_equal. apply replace_input_absent. cbn. by intros ->%list_elem_of_singleton.
  - by rewrite lookup_insert_eq.
  - intros l n Hl Hn. by eapply replaced_no_reference.
  - intros l n Hn. rewrite (replaced_old_node _ _ _ _ _ _ _ Hn).
    f_equal. apply lookup_lt_Some in Hn.
    rewrite (bool_decide_ext (l ∈ all_nodes s ++ [length (heap s); S (length (heap s))])
               (l ∈ all_nodes s)); [done|].
    rewrite elem_of_app, !elem_of_cons, elem_of_nil.
    split; [intros [?|[?|[?|[]]]]; [done|lia|lia]|by left].
Qed.

Lemma connect_ych_packs_cell_then_hidden_witness :
  ∃ s',
    _connect_lstm_ych_to_graph 2 0 final_state = (Ok tt, s') ∧
    all_nodes s' = all_nodes final_state
                   ++ [length (heap final_state); S (length (heap final_state))] ∧
    heap s' !! length (heap final_state)
      = Some (concat_of final_state "LSTM__9:2" "LSTM__9:1") ∧
    heap s' !! S (length (heap final_state)) = Some (packed_squeeze_of final_state) ∧
    g_shapes s' !! packed_squeeze_out final_state = Some [4; 3 * 2]%Z ∧
    (∀ (l : loc) (n : Node Z), l ∈ all_nodes s' → heap s' !! l = Some n → "exit:0" ∉ input n) ∧
    (∀ (l : loc) (n : Node Z), heap final_state !! l = Some n →
       heap s' !! l = Some (if bool_decide (l ∈ all_nodes final_state)
                            then replace_input "exit:0" (packed_squeeze_out final_state) n
                            else n)).
Proof.
  apply (connect_ych_packs_cell_then_hidden 2 0 final_state "LSTM__9:2" "LSTM__9:1" "exit:0"
           1 4 3 []);
    [reflexivity|reflexivity|reflexivity|reflexivity|discriminate|discriminate
    |vm_compute; discriminate|vm_compute; discriminate].
Defined.

Section OutputPathFacts.
Context {A : Type} `{Scalar A}.
Implicit Types (s : state A) (n : Node A) (h : list (Node A)).
Variable check_is_timemajor_transpose : list (Node A) → loc → bool.

Lemma connect_batch_major_raise_state (lstm_node exit_node : loc) s e g go lo d0 d1 d2 d3
    rest :
  output_at s exit_node 0 = Ok e →
  length (find_output_consumers s e) = 2 →
  _validate_output_exit_consumers s (find_output_consumers s e) = Ok (Some g) →
  output_at s g 0 = Ok go →
  output_at s lstm_node 0 = Ok lo →
  get_shape s lo = Ok (d0 :: d1 :: d2 :: d3 :: rest) →
  time_major (rnn_props s) = false →
  length (gather_transposes check_is_timemajor_transpose s lo go) ≠ 1 →
  _connect_lstm_output_to_graph check_is_timemajor_transpose lstm_node exit_node s
    = (Raise no_transpose_after_gather, squeeze_left_behind s lo d0 d2 d3).
Proof.
  intros He Hlen Hval Hgo Hlo Hsh Htm Htr.
  unfold _connect_lstm_output_to_graph.
  do 3 run_step.
  rewrite bool_decide_eq_true_2 by done. cbn [negb].
  do 10 run_step.
  rewrite Htm. cbn [negb].
  do 4 run_step.
  change (filter _ (find_output_consumers _ go))
    with (gather_transposes check_is_timemajor_transpose s lo go).
  destruct (gather_transposes check_is_timemajor_transpose s lo go) as [|t1 [|t2 ts]];
    [done|by cbn [length] in Htr|done].
Qed.

End OutputPathFacts.

(** X13: in time-major mode, past the two-consumer validation,
    [_connect_lstm_output_to_graph] succeeds without looking for a
    transpose: the Squeeze over axis 1 of the fused node's output 0 gets the
    shape (time, batch, hidden) and is appended to [all_nodes], and no node
    of [all_nodes] reads the gathered tensor any more. *)
Theorem connect_output_time_major {A : Type} `{Scalar A}
    (check_is_timemajor_transpose : list (Node A) → loc → bool)
    (lstm_node exit_node : loc) (s : state A) (e : string) (g : loc)
    (go lo : string) (d0 d1 d2 d3 : Z) (rest : list Z) :
  output_at s exit_node 0 = Ok e →
  length (find_output_consumers s e) = 2 →
  _validate_output_exit_consumers s (find_output_consumers s e) = Ok (Some g) →
  output_at s g 0 = Ok go →
  output_at s lstm_node 0 = Ok lo →
  get_shape s lo = Ok (d0 :: d1 :: d2 :: d3 :: rest) →
  time_major (rnn_props s) = true →
  go ≠ lo → go ≠ squeeze_out s →
  ∃ s',
    _connect_lstm_output_to_graph check_is_timemajor_transpose lstm_node exit_node s
      = (Ok tt, s') ∧
    all_nodes s' = all_nodes s ++ [length (heap s)] ∧
    heap s' !! length (heap s) = Some (squeeze_of s lo) ∧
    g_shapes s' !! squeeze_out s = Some [d0; d2; d3] ∧
    (∀ (l : loc) (n : Node A), l ∈ all_nodes s' → heap s' !! l = Some n → go ∉ input n) ∧
    (∀ (l : loc) (n : Node A), heap s !! l = Some n →
       heap s' !! l = Some (if bool_decide (l ∈ all_nodes s)
                            then replace_input go (squeeze_out s) n else n)).
Proof.
  intros He Hlen Hval Hgo Hlo Hsh Htm Hne1 Hne2.
  exists (time_major_reconnected s lo go d0 d2 d3).
  split; [by eapply connect_time_major_run|].
  unfold time_major_reconnected. cbn [all_nodes heap g_shapes].
  assert (replaced go (squeeze_out s) (all_nodes s) (heap s ++ [squeeze_of s lo])
            !! (length (heap s) : loc) = Some (squeeze_of s lo)) as Hsq.
  { rewrite replaced_lookup, list_lookup_middle by done.
    case_bool_decide; [|done]. cbn [fmap option_fmap option_map].
    f_equal. apply replace_input_absent. cbn. by intros ->%list_elem_of_singleton. }
  split; [done|]. split; [done|]. split; [by rewrite lookup_insert_eq|]. split.
  - intros l n [Hl|Hl]%elem_of_app Hn.
    + by eapply replaced_no_reference.
    + apply list_elem_of_singleton in Hl as ->. rewrite Hsq in Hn. injection Hn as <-.
      cbn. by intros ->%list_elem_of_singleton.
  - intros l n Hn. by rewrite (replaced_old_node _ _ _ _ _ _ _ Hn).
Qed.

Lemma connect_output_time_major_witness :
  ∃ s',
    _connect_lstm_output_to_graph is_transpose 4 0 time_major_state = (Ok tt, s') ∧
    all_nodes s' = all_nodes time_major_state ++ [length (heap time_major_state)] ∧
    heap s' !! length (heap time_major_state)
      = Some (squeeze_of time_major_state "LSTM__9:0") ∧
    g_shapes s' !! squeeze_out time_major_state = Some [7; 4; 3]%Z ∧
    (∀ (l : loc) (n : Node Z),
       l ∈ all_nodes s' → heap s' !! l = Some n → "ta_gather:0" ∉ input n) ∧
    (∀ (l : loc) (n : Node Z), heap time_major_state !! l = Some n →
       heap s' !! l = Some (if bool_decide (l ∈ all_nodes time_major_state)
                            then replace_input "ta_gather:0" (squeeze_out time_major_state) n
                            else n)).
Proof.
  apply (connect_output_time_major is_transpose 4 0 time_major_state "exit:0" 2
           "ta_gather:0" "LSTM__9:0" 7 1 4 3 []);
    [reflexivity|reflexivity|reflexivity|reflexivity|reflexivity|reflexivity|reflexivity
    |discriminate|vm_compute; discriminate].
Defined.

(** X14: the batch-major failure is raised after the squeeze has been
    made. The state it leaves has one node more, a name drawn and the
    squeeze's shape recorded; no input has been rewritten and neither list
    has changed. *)
Theorem batch_major_failure_leaves_squeeze {A : Type} `{Scalar A}
    (check_is_timemajor_transpose : list (Node A) → loc → bool)
    (lstm_node exit_node : loc) (s : state A) (e : string) (g : loc)
    (go lo : string) (d0 d1 d2 d3 : Z) (rest : list Z) :
  output_at s exit_node 0 = Ok e →
  length (find_output_consumers s e) = 2 →
  _validate_output_exit_consumers s (find_output_consumers s e) = Ok (Some g) →
  output_at s g 0 = Ok go →
  output_at s lstm_node 0 = Ok lo →
  get_shape s lo = Ok (d0 :: d1 :: d2 :: d3 :: rest) →
  time_major (rnn_props s) = false →
  length (gather_transposes check_is_timemajor_transpose s lo go) ≠ 1 →
  ∃ s',
    _connect_lstm_output_to_graph check_is_timemajor_transpose lstm_node exit_node s
      = (Raise no_transpose_after_gather, s') ∧
    heap s' = heap s ++ [squeeze_of s lo] ∧
    g_shapes s' = <[squeeze_out s := [d0; d2; d3]]> (g_shapes s) ∧
    INTERNAL_NAME s' = S (INTERNAL_NAME s) ∧
    all_nodes s' = all_nodes s ∧ g_nodes s' = g_nodes s ∧
    must_keep_nodes s' = must_keep_nodes s ∧ rnn_props s' = rnn_props s.
Proof.
  intros He Hlen Hval Hgo Hlo Hsh Htm Htr.
  exists (squeeze_left_behind s lo d0 d2 d3).
  split; [by eapply connect_batch_major_raise_state|done].
Qed.

Lemma batch_major_failure_leaves_squeeze_witness :
  ∃ s',
    _connect_lstm_output_to_graph is_transpose 4 0 no_transpose_state
      = (Raise no_transpose_after_gather, s') ∧
    heap s' = heap no_transpose_state ++ [squeeze_of no_transpose_state "LSTM__9:0"] ∧
    g_shapes s' = <[squeeze_out no_transpose_state := [7; 4; 3]%Z]>
                    (g_shapes no_transpose_state) ∧
    INTERNAL_NAME s' = S (INTERNAL_NAME no_transpose_state) ∧
    all_nodes s' = all_nodes no_transpose_state ∧
    g_nodes s' = g_nodes no_transpose_state ∧
    must_keep_nodes s' = must_keep_nodes no_transpose_state ∧
    rnn_props s' = rnn_props no_transpose_state.
Proof.
  apply (batch_major_failure_leaves_squeeze is_transpose 4 0 no_transpose_state
           "exit:0" 2 "ta_gather:0" "LSTM__9:0" 7 1 4 3 []);
    [reflexivity|reflexivity|reflexivity|reflexivity|reflexivity|reflexivity|reflexivity
    |vm_compute; lia].
Defined.

Section UnknownShape.
Context {A : Type} `{Scalar A}.
Implicit Types (s : state A) (n : Node A) (h : list (Node A)).

Lemma yh_unknown_shape (lstm_node exit_node : loc) s lo :
  output_at s lstm_node 1 = Ok lo →
  g_shapes s !! lo = None →
  _connect_lstm_yh_to_graph lstm_node exit_node s
    = (Raise TypeError, state_squeeze_left_behind s lo).
Proof.
  intros Hlo Hsh. unfold _connect_lstm_yh_to_graph.
  do 2 run_step.
  erewrite bind_reads_raise; [reflexivity|].
  unfold get_shape. norm_goal. by rewrite Hsh.
Qed.

Lemma yh_short_shape (lstm_node exit_node : loc) s lo sh :
  output_at s lstm_node 1 = Ok lo →
  g_shapes s !! lo = Some sh → length sh < 3 →
  _connect_lstm_yh_to_graph lstm_node exit_node s
    = (Raise IndexError, state_squeeze_left_behind s lo).
Proof.
  intros Hlo Hsh Hlen. unfold _connect_lstm_yh_to_graph.
  do 2 run_step.
  erewrite bind_reads_ok; [|unfold get_shape; norm_goal; by rewrite Hsh].
  run_step.
  destruct sh as [|a [|b [|c sh]]]; [| | |cbn [length] in Hlen; lia];
    try (erewrite bind_reads_raise; [reflexivity|reflexivity]).
  run_step. erewrite bind_reads_raise; [reflexivity|reflexivity].
Qed.

Lemma yc_unknown_shape (lstm_node exit_node : loc) s lo :
  output_at s lstm_node 2 = Ok lo →
  g_shapes s !! lo = None →
  _connect_lstm_yc_to_graph lstm_node exit_node s
    = (Raise TypeError, state_squeeze_left_behind s lo).
Proof.
  intros Hlo Hsh. unfold _connect_lstm_yc_to_graph.
  do 2 run_step.
  erewrite bind_reads_raise; [reflexivity|].
  unfold get_shape. norm_goal. by rewrite Hsh.
Qed.

Lemma yc_short_shape (lstm_node exit_node : loc) s lo sh :
  output_at s lstm_node 2 = Ok lo →
  g_shapes s !! lo = Some sh → length sh < 3 →
  _connect_lstm_yc_to_graph lstm_node exit_node s
    = (Raise IndexError, state_squeeze_left_behind s lo).
Proof.
  intros Hlo Hsh Hlen. unfold _connect_lstm_yc_to_graph.
  do 2 run_step.
  erewrite bind_reads_ok; [|unfold get_shape; norm_goal; by rewrite Hsh].
  run_step.
  destruct sh as [|a [|b [|c sh]]]; [| | |cbn [length] in Hlen; lia];
    try (erewrite bind_reads_raise; [reflexivity|reflexivity]).
  run_step. erewrite bind_reads_raise; [reflexivity|reflexivity].
Qed.

End UnknownShape.

(** X15: the two final-state reconnectors read the shape of the fused
    node's output after they have made their squeeze: an unknown shape is a
    TypeError and a shape of fewer than three extents an IndexError, both
    raised with the squeeze on the heap and on no list. *)
Theorem connect_final_state_without_shape {A : Type} `{Scalar A}
    (lstm_node exit_node : loc) (s : state A) (yh yc : string) :
  output_at s lstm_node 1 = Ok yh →
  output_at s lstm_node 2 = Ok yc →
  (g_shapes s !! yh = None →
   _connect_lstm_yh_to_graph lstm_node exit_node s
     = (Raise TypeError, state_squeeze_left_behind s yh))
  ∧ (∀ sh, g_shapes s !! yh = Some sh → length sh < 3 →
     _connect_lstm_yh_to_graph lstm_node exit_node s
       = (Raise IndexError, state_squeeze_left_behind s yh))
  ∧ (g_shapes s !! yc = None →
     _connect_lstm_yc_to_graph lstm_node exit_node s
       = (Raise TypeError, state_squeeze_left_behind s yc))
  ∧ (∀ sh, g_shapes s !! yc = Some sh → length sh < 3 →
     _connect_lstm_yc_to_graph lstm_node exit_node s
       = (Raise IndexError, state_squeeze_left_behind s yc)).
Proof.
  intros Hyh Hyc. repeat split.
  - by apply yh_unknown_shape.
  - intros sh. by apply yh_short_shape.
  - by apply yc_unknown_shape.
  - intros sh. by apply yc_short_shape.
Qed.

Lemma connect_final_state_without_shape_witness :
  _connect_lstm_yh_to_graph 2 0 unshaped_state
    = (Raise IndexError, state_squeeze_left_behind unshaped_state "LSTM__9:1")
  ∧ _connect_lstm_yc_to_graph 2 0 unshaped_state
    = (Raise TypeError, state_squeeze_left_behind unshaped_state "LSTM__9:2").
Proof.
  pose proof (connect_final_state_without_shape 2 0 unshaped_state "LSTM__9:1" "LSTM__9:2"
                eq_refl eq_refl) as (_ & Hyh & Hyc & _).
  split.
  - apply (Hyh [4; 3]%Z); [reflexivity|cbn; lia].
  - apply Hyc. reflexivity.
Defined.

(** ** The fused-node builder *)

Section BuilderFacts.
Context {A : Type} `{Scalar A}.
Implicit Types (s : state A) (n : Node A) (h : list (Node A)).

Lemma bind_onnx_input_id_ok {Y} key (k : string → M A Y) s v :
  onnx_input_ids (rnn_props s) !! key = Some v → bind (onnx_input_id key) k s = k v s.
Proof. intros Hv. unfold onnx_input_id. erewrite bind_reads_ok; [done|]. by rewrite Hv. Qed.

Lemma bind_onnx_input_id_raise {Y} key (k : string → M A Y) s :
  onnx_input_ids (rnn_props s) !! key = None →
  bind (onnx_input_id key) k s = (Raise (KeyError key), s).
Proof. intros Hv. unfold onnx_input_id. erewrite bind_reads_raise; [done|]. by rewrite Hv. Qed.

Lemma bind_copy_shape_known {Y} src dst sh (k : unit → M A Y) s :
  g_shapes s !! src = Some sh →
  bind (copy_shape src dst) k s = k tt (set_g_shapes (<[dst:=sh]> (g_shapes s)) s).
Proof. intros Hs. unfold bind, copy_shape. by rewrite Hs. Qed.

Lemma lstm_out_inj s i j : lstm_out s i = lstm_out s j → i = j.
Proof.
  unfold lstm_out. intros Heq%String.app_inj. 
  change (String ":" (string_of_nat i) = String ":" (string_of_nat j)) in Heq.
  injection Heq as Heq. by apply string_of_nat_inj.
Qed.

Lemma create_rnn_node_run s x w r b sl ih ic t bs rest :
  onnx_input_ids (rnn_props s) !! "X" = Some x →
  onnx_input_ids (rnn_props s) !! "W" = Some w →
  onnx_input_ids (rnn_props s) !! "R" = Some r →
  onnx_input_ids (rnn_props s) !! "B" = Some b →
  onnx_input_ids (rnn_props s) !! "sequence_lens" = Some sl →
  onnx_input_ids (rnn_props s) !! "initial_h" = Some ih →
  onnx_input_ids (rnn_props s) !! "initial_c" = Some ic →
  get_shape s x = Ok (t :: bs :: rest) →
  create_rnn_node s
    = (Ok (length (heap s)), rnn_node_created s [x; w; r; b; sl; ih; ic] t bs).
Proof.
  intros Hx Hw Hr Hb Hsl Hih Hic Hsh. unfold create_rnn_node. cbv zeta.
  run_step.
  rewrite (bind_onnx_input_id_ok _ _ _ _ Hx), (bind_onnx_input_id_ok _ _ _ _ Hw),
    (bind_onnx_input_id_ok _ _ _ _ Hr), (bind_onnx_input_id_ok _ _ _ _ Hb),
    (bind_onnx_input_id_ok _ _ _ _ Hsl), (bind_onnx_input_id_ok _ _ _ _ Hih),
    (bind_onnx_input_id_ok _ _ _ _ Hic).
  do 13 run_step.
  erewrite bind_copy_shape_known; cycle 1.
  { norm_goal. rewrite lookup_insert_eq. reflexivity. }
  unfold ret, rnn_node_created, lstm_of, lstm_out. norm_goal. reflexivity.
Qed.

End BuilderFacts.

(** X16: [create_rnn_node] reads the seven recorded input ids in
    operator order; the first one missing is a KeyError of that key, raised
    before anything is made. *)
Theorem create_rnn_node_requires_every_input {A : Type} `{Scalar A}
    (s : state A) (pre post : list string) (key : string) :
  lstm_input_keys = pre ++ key :: post →
  Forall (fun k => is_Some (onnx_input_ids (rnn_props s) !! k)) pre →
  onnx_input_ids (rnn_props s) !! key = None →
  create_rnn_node s = (Raise (KeyError key), s).
Proof.
  intros Hk Hpre Hkey. unfold create_rnn_node. cbv zeta. run_step.
  unfold lstm_input_keys in Hk.
  repeat
    (destruct pre as [|k0 pre]; cbn [app] in Hk;
     [ injection Hk as <- _; by rewrite bind_onnx_input_id_raise
     | injection Hk as <- Hk;
       apply Forall_cons in Hpre as [[? Hv0] Hpre];
       rewrite (bind_onnx_input_id_ok _ _ _ _ Hv0); clear Hv0 ]).
  destruct pre; cbn [app] in Hk; discriminate Hk.
Qed.

Lemma create_rnn_node_requires_every_input_witness :
  create_rnn_node (ready_state (delete "sequence_lens" all_input_ids))
    = (Raise (KeyError "sequence_lens"), ready_state (delete "sequence_lens" all_input_ids)).
Proof.
  apply (create_rnn_node_requires_every_input
           (ready_state (delete "sequence_lens" all_input_ids))
           ["X"; "W"; "R"; "B"] ["initial_h"; "initial_c"] "sequence_lens").
  - reflexivity.
  - repeat constructor; by eexists.
  - reflexivity.
Defined.

(** X17: with the seven input ids recorded and an input of shape
    (time, batch, ...), [create_rnn_node] makes one node of three outputs,
    fed by the seven ids in operator order, and records the shapes
    (time, 1, batch, hidden), (1, batch, hidden) and (1, batch, hidden) for
    them; it appends the node to no list. *)
Theorem create_rnn_node_shapes {A : Type} `{Scalar A}
    (s : state A) (x w r b sl ih ic : string) (t bs : Z) (rest : list Z) :
  onnx_input_ids (rnn_props s) !! "X" = Some x →
  onnx_input_ids (rnn_props s) !! "W" = Some w →
  onnx_input_ids (rnn_props s) !! "R" = Some r →
  onnx_input_ids (rnn_props s) !! "B" = Some b →
  onnx_input_ids (rnn_props s) !! "sequence_lens" = Some sl →
  onnx_input_ids (rnn_props s) !! "initial_h" = Some ih →
  onnx_input_ids (rnn_props s) !! "initial_c" = Some ic →
  get_shape s x = Ok (t :: bs :: rest) →
  let hs := Z.of_nat (hidden_size (rnn_props s)) in
  ∃ s',
    create_rnn_node s = (Ok (length (heap s)), s') ∧
    heap s' = heap s ++ [lstm_of s [x; w; r; b; sl; ih; ic]] ∧
    output (lstm_of s [x; w; r; b; sl; ih; ic]) = [lstm_out s 0; lstm_out s 1; lstm_out s 2] ∧
    g_shapes s' !! lstm_out s 0 = Some [t; 1; bs; hs]%Z ∧
    g_shapes s' !! lstm_out s 1 = Some [1; bs; hs]%Z ∧
    g_shapes s' !! lstm_out s 2 = Some [1; bs; hs]%Z ∧
    all_nodes s' = all_nodes s ∧ g_nodes s' = g_nodes s ∧ rnn_props s' = rnn_props s.
Proof.
  intros Hx Hw Hr Hb Hsl Hih Hic Hsh hs.
  exists (rnn_node_created s [x; w; r; b; sl; ih; ic] t bs).
  split; [by eapply create_rnn_node_run|].
  unfold rnn_node_created. cbn [heap g_shapes all_nodes g_nodes rnn_props].
  repeat split.
  - rewrite lookup_insert_ne by (intros ?%lstm_out_inj; lia).
    rewrite lookup_insert_ne by (intros ?%lstm_out_inj; lia).
    by rewrite lookup_insert_eq.
  - rewrite lookup_insert_ne by (intros ?%lstm_out_inj; lia).
    by rewrite lookup_insert_eq.
  - by rewrite lookup_insert_eq.
Qed.

Lemma create_rnn_node_shapes_witness :
  let s := ready_state all_input_ids in
  ∃ s',
    create_rnn_node s = (Ok (length (heap s)), s') ∧
    heap s' = heap s ++ [lstm_of s ["x:0"; "W__2:0"; "R__3:0"; "B__4:0"; "Cast__8:0";
                                    "h:0"; "c:0"]] ∧
    output (lstm_of s ["x:0"; "W__2:0"; "R__3:0"; "B__4:0"; "Cast__8:0"; "h:0"; "c:0"])
      = [lstm_out s 0; lstm_out s 1; lstm_out s 2] ∧
    g_shapes s' !! lstm_out s 0 = Some [7; 1; 4; 3]%Z ∧
    g_shapes s' !! lstm_out s 1 = Some [1; 4; 3]%Z ∧
    g_shapes s' !! lstm_out s 2 = Some [1; 4; 3]%Z ∧
    all_nodes s' = all_nodes s ∧ g_nodes s' = g_nodes s ∧ rnn_props s' = rnn_props s.
Proof.
  apply (create_rnn_node_shapes (ready_state all_input_ids)
           "x:0" "W__2:0" "R__3:0" "B__4:0" "Cast__8:0" "h:0" "c:0" 7 4 [2%Z]);
    reflexivity.
Defined.

(** X18: the fused node built by [create_rnn_node] can be reconnected
    by each of the three final-state reconnectors, and the value that takes
    the exit's place has the shape of the loop's state: (batch, hidden) for
    the hidden state and for the cell state, (batch, 2 * hidden) for the
    packed state. *)
Theorem fused_node_state_shapes {A : Type} `{Scalar A}
    (exit_node : loc) (s : state A) (x w r b sl ih ic eo : string) (t bs : Z)
    (rest : list Z) :
  onnx_input_ids (rnn_props s) !! "X" = Some x →
  onnx_input_ids (rnn_props s) !! "W" = Some w →
  onnx_input_ids (rnn_props s) !! "R" = Some r →
  onnx_input_ids (rnn_props s) !! "B" = Some b →
  onnx_input_ids (rnn_props s) !! "sequence_lens" = Some sl →
  onnx_input_ids (rnn_props s) !! "initial_h" = Some ih →
  onnx_input_ids (rnn_props s) !! "initial_c" = Some ic →
  get_shape s x = Ok (t :: bs :: rest) →
  output_at s exit_node 0 = Ok eo →
  let hs := Z.of_nat (hidden_size (rnn_props s)) in
  ∃ lstm_node s1,
    create_rnn_node s = (Ok lstm_node, s1) ∧
    (∃ s2, _connect_lstm_yh_to_graph lstm_node exit_node s1 = (Ok tt, s2) ∧
           g_shapes s2 !! squeeze_out s1 = Some [bs; hs]) ∧
    (∃ s2, _connect_lstm_yc_to_graph lstm_node exit_node s1 = (Ok tt, s2) ∧
           g_shapes s2 !! squeeze_out s1 = Some [bs; hs]) ∧
    (∃ s2, _connect_lstm_ych_to_graph lstm_node exit_node s1 = (Ok tt, s2) ∧
           g_shapes s2 !! packed_squeeze_out s1 = Some [bs; hs * 2]%Z).
Proof.
  intros Hx Hw Hr Hb Hsl Hih Hic Hsh He hs.
  set (s1 := rnn_node_created s [x; w; r; b; sl; ih; ic] t bs).
  exists (length (heap s)), s1.
  split; [by eapply create_rnn_node_run|].
  assert (output_at s1 (length (heap s)) 1 = Ok (lstm_out s 1)) as Ho1.
  { unfold output_at, node_at, s1, rnn_node_created. cbn [heap].
    by rewrite list_lookup_middle. }
  assert (output_at s1 (length (heap s)) 2 = Ok (lstm_out s 2)) as Ho2.
  { unfold output_at, node_at, s1, rnn_node_created. cbn [heap].
    by rewrite list_lookup_middle. }
  assert (get_shape s1 (lstm_out s 1) = Ok [1; bs; hs]%Z) as Hs1.
  { unfold get_shape, s1, rnn_node_created. cbn [g_shapes].
    rewrite lookup_insert_ne by (intros ?%lstm_out_inj; lia).
    by rewrite lookup_insert_eq. }
  assert (get_shape s1 (lstm_out s 2) = Ok [1; bs; hs]%Z) as Hs2.
  { unfold get_shape, s1, rnn_node_created. cbn [g_shapes]. by rewrite lookup_insert_eq. }
  assert (output_at s1 exit_node 0 = Ok eo) as He1.
  { eapply output_at_ext; [exact He|]. by eexists. }
  split; [|split].
  - eexists. split; [by eapply yh_run|].
    unfold state_output_reconnected. cbn [g_shapes]. by rewrite lookup_insert_eq.
  - eexists. split; [by eapply yc_run|].
    unfold state_output_reconnected. cbn [g_shapes]. by rewrite lookup_insert_eq.
  - eexists. split; [by eapply ych_run|].
    unfold packed_state_reconnected. cbn [g_shapes]. by rewrite lookup_insert_eq.
Qed.

Lemma fused_node_state_shapes_witness :
  let s := ready_state all_input_ids in
  ∃ lstm_node s1,
    create_rnn_node s = (Ok lstm_node, s1) ∧
    (∃ s2, _connect_lstm_yh_to_graph lstm_node 0 s1 = (Ok tt, s2) ∧
           g_shapes s2 !! squeeze_out s1 = Some [4; 3]%Z) ∧
    (∃ s2, _connect_lstm_yc_to_graph lstm_node 0 s1 = (Ok tt, s2) ∧
           g_shapes s2 !! squeeze_out s1 = Some [4; 3]%Z) ∧
    (∃ s2, _connect_lstm_ych_to_graph lstm_node 0 s1 = (Ok tt, s2) ∧
           g_shapes s2 !! packed_squeeze_out s1 = Some [4; 3 * 2]%Z).
Proof.
  apply (fused_node_state_shapes 0 (ready_state all_input_ids)
           "x:0" "W__2:0" "R__3:0" "B__4:0" "Cast__8:0" "h:0" "c:0" "exit:0" 7 4 [2%Z]);
    reflexivity.
Defined.

(** ** The sequence length and the input *)

Section SeqLengthFacts.
Context {A : Type} `{Scalar A}.
Implicit Types (s : state A) (n : Node A) (h : list (Node A)).

Lemma bind_copy_shape {Y} src dst (k : unit → M A Y) s :
  bind (copy_shape src dst) k s = k tt (set_g_shapes (shape_copied src dst (g_shapes s)) s).
Proof.
  unfold bind, copy_shape, shape_copied. destruct (g_shapes s !! src); [done|].
  by destruct s.
Qed.


Lemma process_seq_length_derived_run s :
  let k := INTERNAL_NAME s in
  process_seq_length None s =
    (Ok (6 + length (heap s), 2 + length (heap s)),
     mkState (heap s ++ seq_length_prefix s ++ seq_length_derived s) (g_nodes s)
       (shape_copied (fresh_name "Shape" (1 + k) +:+ ":0")
                     (fresh_name "Cast" (2 + k) +:+ ":0") (g_shapes s))
       (all_nodes s ++ seq (length (heap s)) 7) (must_keep_nodes s) (7 + k)
       (set_onnx_input_id "sequence_lens" (fresh_name "Cast" (7 + k) +:+ ":0")
          (rnn_props s))).
Proof.
  cbv zeta. unfold process_seq_length.
  do 6 run_step. rewrite bind_copy_shape. norm_goal.
  repeat run_step.
  unfold ret, seq_length_prefix, seq_length_derived. norm_goal.
  rewrite !length_app. cbn [length seq]. rewrite !Nat.add_1_r.
  cbn [Nat.add]. rewrite <- !app_assoc. cbn [app].
  reflexivity.
Qed.

Lemma process_seq_length_given_run s (given : loc) so :
  output_at s given 0 = Ok so →
  let k := INTERNAL_NAME s in
  process_seq_length (Some given) s =
    (Ok (given, 2 + length (heap s)),
     mkState (heap s ++ seq_length_prefix s) (g_nodes s)
       (shape_copied (fresh_name "Shape" (1 + k) +:+ ":0")
                     (fresh_name "Cast" (2 + k) +:+ ":0") (g_shapes s))
       (all_nodes s ++ seq (length (heap s)) 4) (must_keep_nodes s) (4 + k)
       (set_onnx_input_id "sequence_lens" so (rnn_props s))).
Proof.
  intros Hso. cbv zeta. unfold process_seq_length.
  do 6 run_step. rewrite bind_copy_shape. norm_goal.
  repeat run_step.
  unfold ret, seq_length_prefix. norm_goal.
  rewrite !length_app. cbn [length seq]. rewrite !Nat.add_1_r.
  cbn [Nat.add]. rewrite <- !app_assoc. cbn [app].
  reflexivity.
Qed.

End SeqLengthFacts.

(** X19: without a sequence-length node [process_seq_length] never
    fails. It makes seven nodes (the input's shape cast to float, its
    extents 1 and 0, the former cast to int64, the tile of the latter and
    its cast to int32), appends all seven to [all_nodes], returns the last
    and the batch-size slice, and records the last one's output under
    "sequence_lens". *)
Theorem process_seq_length_derives_from_input_shape {A : Type} `{Scalar A} (s : state A) :
  ∃ s',
    process_seq_length None s = (Ok (6 + length (heap s), 2 + length (heap s)), s') ∧
    heap s' = heap s ++ seq_length_prefix s ++ seq_length_derived s ∧
    all_nodes s' = all_nodes s ++ seq (length (heap s)) 7 ∧
    output_at s' (6 + length (heap s)) 0
      = Ok (default "" (onnx_input_ids (rnn_props s') !! "sequence_lens")) ∧
    g_nodes s' = g_nodes s ∧ must_keep_nodes s' = must_keep_nodes s.
Proof.
  eexists. split; [apply process_seq_length_derived_run|].
  cbn [heap all_nodes g_nodes must_keep_nodes rnn_props].
  repeat split.
  unfold output_at, node_at. cbn [heap].
  rewrite lookup_app_r by lia.
  replace (6 + length (heap s) - length (heap s)) with 6 by lia.
  cbn. by rewrite lookup_insert_eq.
Qed.

(** X20: a given sequence-length node is returned as it is and its
    output recorded under "sequence_lens"; the four batch-size nodes are
    made and appended all the same. *)
Theorem process_seq_length_keeps_given_length {A : Type} `{Scalar A}
    (s : state A) (given : loc) (so : string) :
  output_at s given 0 = Ok so →
  ∃ s',
    process_seq_length (Some given) s = (Ok (given, 2 + length (heap s)), s') ∧
    heap s' = heap s ++ seq_length_prefix s ∧
    all_nodes s' = all_nodes s ++ seq (length (heap s)) 4 ∧
    onnx_input_ids (rnn_props s') !! "sequence_lens" = Some so ∧
    g_nodes s' = g_nodes s ∧ must_keep_nodes s' = must_keep_nodes s.
Proof.
  intros Hso. eexists. split; [by apply process_seq_length_given_run|].
  cbn [heap all_nodes g_nodes must_keep_nodes rnn_props].
  repeat split. cbn. by rewrite lookup_insert_eq.
Qed.

Lemma process_seq_length_keeps_given_length_witness :
  ∃ s',
    process_seq_length (Some 0) seq_given_state
      = (Ok (0, 2 + length (heap seq_given_state)), s') ∧
    heap s' = heap seq_given_state ++ seq_length_prefix seq_given_state ∧
    all_nodes s' = all_nodes seq_given_state ++ seq (length (heap seq_given_state)) 4 ∧
    onnx_input_ids (rnn_props s') !! "sequence_lens" = Some "seq_len:0" ∧
    g_nodes s' = g_nodes seq_given_state ∧
    must_keep_nodes s' = must_keep_nodes seq_given_state.
Proof.
  apply (process_seq_length_keeps_given_length seq_given_state 0 "seq_len:0").
  reflexivity.
Defined.

Section InputFacts.
Context {A : Type} `{Scalar A}.
Implicit Types (s : state A) (n : Node A) (h : list (Node A)).
Variable check_is_timemajor_transpose : list (Node A) → loc → bool.

Lemma scope_filter s input_id scope :
  filter_res (fun c => try n := node_at s c in Ok (startswith (name n) scope))
             (find_output_consumers s input_id)
  = Ok (scope_consumers s input_id scope).
Proof.
  unfold scope_consumers. apply filter_res_pure_in.
  eapply Forall_impl; [apply find_output_consumers_in_heap|].
  intros c [n Hn]. unfold node_at, in_scope. by rewrite Hn.
Qed.

Lemma input_x_none s input_id scope :
  length (scope_consumers s input_id scope) ≠ 1 →
  process_input_x check_is_timemajor_transpose input_id scope s = (Ok None, s).
Proof.
  intros Hlen. unfold process_input_x. run_step.
  erewrite bind_reads_ok; [|apply scope_filter].
  by rewrite bool_decide_eq_false_2.
Qed.

Lemma input_x_time_major_run s input_id scope (c : loc) :
  scope_consumers s input_id scope = [c] →
  check_is_timemajor_transpose (heap s) c = false →
  process_input_x check_is_timemajor_transpose input_id scope s
    = (Ok (Some (input_recorded true input_id (rnn_props s))),
       set_rnn_props (input_recorded true input_id (rnn_props s)) s).
Proof.
  intros Hc Hcheck. unfold process_input_x. run_step.
  erewrite bind_reads_ok; [|apply scope_filter].
  rewrite Hc. rewrite bool_decide_eq_true_2 by done. cbn [negb].
  run_step. unfold _convert_timemajor_transpose.
  do 2 run_step. rewrite Hcheck. cbn [negb].
  repeat run_step.
  unfold reads, input_recorded. norm_goal. by destruct s.
Qed.

Lemma input_x_batch_major_run s input_id scope (c : loc) n in0 ins to outs :
  scope_consumers s input_id scope = [c] →
  check_is_timemajor_transpose (heap s) c = true →
  heap s !! c = Some n → input n = in0 :: ins → output n = to :: outs →
  process_input_x check_is_timemajor_transpose input_id scope s
    = (Ok (Some (input_recorded false (input_transpose_out s) (rnn_props s))),
       mkState
         (replaced to (input_transpose_out s) (g_nodes s)
            (heap s ++ [input_transpose_of s in0]))
         (g_nodes s) (shape_copied to (input_transpose_out s) (g_shapes s))
         (all_nodes s ++ [length (heap s)]) (must_keep_nodes s) (S (INTERNAL_NAME s))
         (input_recorded false (input_transpose_out s) (rnn_props s))).
Proof.
  intros Hc Hcheck Hn Hin Hout. unfold process_input_x. run_step.
  erewrite bind_reads_ok; [|apply scope_filter].
  rewrite Hc. rewrite bool_decide_eq_true_2 by done. cbn [negb].
  run_step. unfold _convert_timemajor_transpose.
  do 2 run_step. rewrite Hcheck. cbn [negb].
  assert (output_at s c 0 = Ok to) as Hto.
  { unfold output_at, node_at. rewrite Hn. cbn [res_bind]. by rewrite Hout. }
  run_step.
  erewrite bind_reads_ok; [|unfold node_at; rewrite Hn; cbn [res_bind]; by rewrite Hin].
  do 6 run_step. rewrite bind_assoc_run, bind_copy_shape. norm_goal.
  repeat run_step.
  unfold reads, input_recorded, input_transpose_out, input_transpose_of. norm_goal.
  reflexivity.
Qed.

End InputFacts.

(** X21: [process_input_x] gives up, with nothing changed, unless
    exactly one consumer of the input lies in the scope. When that consumer
    is no time-major transpose the input is taken as time-major: the flag
    is set, the input's own id recorded as "X", and no node is made. *)
Theorem process_input_x_time_major {A : Type} `{Scalar A}
    (check_is_timemajor_transpose : list (Node A) → loc → bool)
    (s : state A) (input_id scope : string) :
  (length (scope_consumers s input_id scope) ≠ 1 →
   process_input_x check_is_timemajor_transpose input_id scope s = (Ok None, s))
  ∧ (∀ c : loc,
       scope_consumers s input_id scope = [c] →
       check_is_timemajor_transpose (heap s) c = false →
       process_input_x check_is_timemajor_transpose input_id scope s
         = (Ok (Some (input_recorded true input_id (rnn_props s))),
            set_rnn_props (input_recorded true input_id (rnn_props s)) s)).
Proof.
  split.
  - by apply input_x_none.
  - intros c. by apply input_x_time_major_run.
Qed.

Lemma process_input_x_time_major_witness :
  process_input_x is_transpose "x:0" "" input_state = (Ok None, input_state)
  ∧ process_input_x is_transpose "x:0" "other" input_state
      = (Ok (Some (input_recorded true "x:0" (rnn_props input_state))),
         set_rnn_props (input_recorded true "x:0" (rnn_props input_state)) input_state).
Proof.
  split.
  - apply (proj1 (process_input_x_time_major is_transpose input_state "x:0" "")).
    vm_compute. lia.
  - apply (proj2 (process_input_x_time_major is_transpose input_state "x:0" "other") 2);
      reflexivity.
Defined.

(** X22: when the one consumer in scope is a time-major transpose the
    input is batch-major: a new Transpose with perm [1, 0, 2] reads the old
    transpose's first input, its output is recorded as "X", it is appended
    to [all_nodes], and the nodes of the graph's node list read it instead
    of the old transpose's output. *)
Theorem process_input_x_batch_major {A : Type} `{Scalar A}
    (check_is_timemajor_transpose : list (Node A) → loc → bool)
    (s : state A) (input_id scope : string) (c : loc) (n : Node A)
    (in0 to : string) (ins outs : list string) :
  scope_consumers s input_id scope = [c] →
  check_is_timemajor_transpose (heap s) c = true →
  heap s !! c = Some n → input n = in0 :: ins → output n = to :: outs →
  to ≠ in0 → to ≠ input_transpose_out s →
  ∃ p' s',
    process_input_x check_is_timemajor_transpose input_id scope s = (Ok (Some p'), s') ∧
    rnn_props s' = p' ∧
    time_major p' = false ∧ x_input_id p' = input_transpose_out s ∧
    onnx_input_ids p' !! "X" = Some (input_transpose_out s) ∧
    all_nodes s' = all_nodes s ++ [length (heap s)] ∧
    heap s' !! length (heap s) = Some (input_transpose_of s in0) ∧
    (∀ (l : loc) (n' : Node A), l ∈ g_nodes s → heap s' !! l = Some n' → to ∉ input n') ∧
    (∀ (l : loc) (n0 : Node A), heap s !! l = Some n0 →
       heap s' !! l = Some (if bool_decide (l ∈ g_nodes s)
                            then replace_input to (input_transpose_out s) n0 else n0)).
Proof.
  intros Hc Hcheck Hn Hin Hout Hne1 Hne2.
  eexists _, _. split; [by eapply input_x_batch_major_run|].
  cbn [rnn_props heap all_nodes]. split; [done|]. split; [done|]. split; [done|].
  split; [cbn; by rewrite lookup_insert_eq|]. split; [done|]. split; [|split].
  - rewrite replaced_lookup, list_lookup_middle by done.
    case_bool_decide; [|done]. cbn [fmap option_fmap option_map].
    f_equal. apply replace_input_absent. cbn. by intros ->%list_elem_of_singleton.
  - intros l n' Hl Hn'. by eapply replaced_no_reference.
  - intros l n0 Hn0. by rewrite (replaced_old_node _ _ _ _ _ _ _ Hn0).
Qed.

Lemma process_input_x_batch_major_witness :
  ∃ p' s',
    process_input_x is_transpose "x:0" "rnn" input_state = (Ok (Some p'), s') ∧
    rnn_props s' = p' ∧
    time_major p' = false ∧ x_input_id p' = input_transpose_out input_state ∧
    onnx_input_ids p' !! "X" = Some (input_transpose_out input_state) ∧
    all_nodes s' = all_nodes input_state ++ [length (heap input_state)] ∧
    heap s' !! length (heap input_state) = Some (input_transpose_of input_state "x:0") ∧
    (∀ (l : loc) (n' : Node Z),
       l ∈ g_nodes input_state → heap s' !! l = Some n' → "rnn/transpose:0" ∉ input n') ∧
    (∀ (l : loc) (n0 : Node Z), heap input_state !! l = Some n0 →
       heap s' !! l = Some (if bool_decide (l ∈ g_nodes input_state)
                            then replace_input "rnn/transpose:0"
                                   (input_transpose_out input_state) n0
                            else n0)).
Proof.
  apply (process_input_x_batch_major is_transpose input_state "x:0" "rnn" 0
           (plain_node "rnn/transpose" "Transpose" ["x:0"; "perm:0"])
           "x:0" "rnn/transpose:0" ["perm:0"] []);
    [reflexivity|reflexivity|reflexivity|reflexivity|reflexivity|discriminate
    |vm_compute; discriminate].
Defined.

(** ** The initial states, node by node *)

Section InitialRuns.
Context {A : Type} `{Scalar A}.
Implicit Types (s : state A) (n : Node A) (h : list (Node A)).
Variable ONNX_TO_NUMPY_DTYPE : Z → option string.

(** Looking a node up by name is not disturbed by nodes made later. *)
Lemma node_by_name_ext s s' id (l : loc) n ext :
  node_by_name s id = Ok (l, n) → heap s' = heap s ++ ext →
  node_by_name s' id = Ok (l, n).
Proof.
  unfold node_by_name, get_node_by_name, node_at. intros Hn Hext. rewrite Hext.
  destruct (list_find (node_has_id id) (heap s)) as [[i m]|] eqn:E; [|done].
  cbn [fmap option_fmap option_map fst] in Hn.
  rewrite (list_find_app_l _ _ ext _ _ E). cbn [fmap option_fmap option_map fst].
  apply list_find_Some in E as (Hi & _). unfold loc in *.
  rewrite Hi in Hn. rewrite (lookup_app_l_Some _ _ _ _ Hi). done.
Qed.

Lemma workaround_skips s id (l : loc) n :
  node_by_name s id = Ok (l, n) → type n ≠ "Fill" →
  _workaround_fill_ch_init_node ONNX_TO_NUMPY_DTYPE id s = (Ok None, s).
Proof.
  intros Hn Hty. unfold _workaround_fill_ch_init_node.
  rewrite (bind_reads_ok _ _ _ _ Hn). by rewrite bool_decide_eq_false_2.
Qed.

Lemma non_tuple_plain_run s id (l : loc) n :
  var_initializers (rnn_props s) !! "ct_ht" = Some id →
  node_by_name s id = Ok (l, n) → type n ≠ "Fill" →
  let k := INTERNAL_NAME s in
  _process_non_tuple_ch_init_nodes ONNX_TO_NUMPY_DTYPE s =
    (Ok (fresh_name "Unsqueeze" (2 + k) +:+ ":0", fresh_name "Unsqueeze" (4 + k) +:+ ":0"),
     mkState (heap s ++ packed_initial_nodes s id) (g_nodes s) (g_shapes s)
       (all_nodes s ++ [length (heap s); 2 + length (heap s);
                        1 + length (heap s); 3 + length (heap s)])
       (must_keep_nodes s ++ [l]) (4 + k) (rnn_props s)).
Proof.
  intros Hvi Hn Hty. cbv zeta. unfold _process_non_tuple_ch_init_nodes.
  unfold var_initializer. erewrite bind_reads_ok; [|by rewrite Hvi].
  run_step.
  erewrite bind_run_ok; [|by eapply workaround_skips].
  cbv beta iota. do 7 run_step.
  erewrite bind_reads_ok; cycle 1.
  { eapply node_by_name_ext; [exact Hn|]. norm_goal. rewrite <- !app_assoc. reflexivity. }
  repeat run_step.
  unfold ret, packed_initial_nodes, packed_slice_of, unsqueeze_of. norm_goal.
  rewrite !length_app. cbn [length]. rewrite !Nat.add_1_r.
  cbn [Nat.add fst]. rewrite <- !app_assoc. cbn [app].
  reflexivity.
Qed.

Lemma c_or_h_plain_run s id (l : loc) n :
  node_by_name s id = Ok (l, n) → type n ≠ "Fill" → is_const n = false →
  let k := INTERNAL_NAME s in
  _process_c_or_h_init_nodes ONNX_TO_NUMPY_DTYPE id s =
    (Ok (fresh_name "Unsqueeze" (1 + k) +:+ ":0"),
     mkState
       (replaced id (fresh_name "Unsqueeze" (1 + k) +:+ ":0") (g_nodes s)
          (heap s ++ [unsqueeze_of (1 + k) id]))
       (g_nodes s) (g_shapes s) (all_nodes s ++ [length (heap s)])
       (must_keep_nodes s ++ [l]) (1 + k) (rnn_props s)).
Proof.
  intros Hn Hty Hc. cbv zeta. unfold _process_c_or_h_init_nodes.
  erewrite bind_run_ok; [|by eapply workaround_skips].
  cbv beta iota. rewrite (bind_reads_ok _ _ _ _ Hn). cbv beta iota.
  run_step. rewrite Hc.
  repeat run_step.
  unfold reads. erewrite output_at_new_replaced; [|norm_goal; reflexivity|reflexivity].
  reflexivity.
Qed.

Lemma c_or_h_const_run s id (l : loc) n v :
  node_by_name s id = Ok (l, n) → type n ≠ "Fill" → is_const n = true →
  tensor_value n = Some v →
  let k := INTERNAL_NAME s in
  _process_c_or_h_init_nodes ONNX_TO_NUMPY_DTYPE id s =
    (Ok (fresh_name "Const" (1 + k) +:+ ":0"),
     mkState (heap s ++ [const_node (fresh_name "Const" (1 + k)) (np_expand_dims0 v)])
       (g_nodes s) (g_shapes s) (all_nodes s)
       (must_keep_nodes s ++ [l]) (1 + k) (rnn_props s)).
Proof.
  intros Hn Hty Hc Hv. cbv zeta. unfold _process_c_or_h_init_nodes.
  erewrite bind_run_ok; [|by eapply workaround_skips].
  cbv beta iota. rewrite (bind_reads_ok _ _ _ _ Hn). cbv beta iota.
  run_step. rewrite Hc.
  erewrite bind_reads_ok; [|unfold get_tensor_value; by rewrite Hc, Hv].
  repeat run_step.
  unfold reads. erewrite output_at_new; [|norm_goal; reflexivity|reflexivity].
  reflexivity.
Qed.

Lemma workaround_fill_run s id (l : loc) n kept vn value fill_val t (b : loc) bo :
  node_by_name s id = Ok (l, n) → type n = "Fill" →
  list_remove l (must_keep_nodes s) = Ok kept →
  inputs_at s n 1 = Ok vn →
  get_tensor_value vn = Ok value →
  ndarray_get0 value = Ok fill_val →
  ONNX_TO_NUMPY_DTYPE (dtype vn) = Some t →
  batch_size_node (rnn_props s) = Some b →
  output_at s b 0 = Ok bo →
  _workaround_fill_ch_init_node ONNX_TO_NUMPY_DTYPE id s =
    (Ok (Some (5 + length (heap s))),
     mkState (heap s ++ fill_nodes s bo fill_val) (g_nodes s) (g_shapes s)
       (all_nodes s ++ [2 + length (heap s); 3 + length (heap s); 5 + length (heap s)])
       kept (6 + INTERNAL_NAME s) (rnn_props s)).
Proof.
  intros Hn Hty Hrm Hvn Hval Hfv Ht Hb Hbo. unfold _workaround_fill_ch_init_node.
  rewrite (bind_reads_ok _ _ _ _ Hn). cbv beta iota.
  rewrite bool_decide_eq_true_2 by done. cbn [negb].
  do 2 run_step.
  erewrite bind_reads_ok; [|exact Hvn].
  do 2 run_step.
  erewrite bind_reads_ok; [|exact Hvn].
  erewrite bind_reads_ok; [|by rewrite Ht].
  do 6 run_step. rewrite Hb.
  run_step.
  erewrite bind_reads_ok; cycle 1.
  { eapply output_at_ext; [exact Hbo|]. eexists. norm_goal. rewrite <- !app_assoc.
    reflexivity. }
  repeat run_step.
  unfold ret, fill_nodes. norm_goal.
  rewrite !length_app. cbn [length]. rewrite !Nat.add_1_r.
  cbn [Nat.add]. rewrite <- !app_assoc. cbn [app].
  reflexivity.
Qed.

End InitialRuns.

(** X23: on a packed initializer that is no Fill,
    [process_var_init_nodes] records as "initial_h" the unsqueezed slice
    over the columns [0, hidden) and as "initial_c" the unsqueezed slice
    over [hidden, 2 * hidden) of the initializer, and puts the initializer
    on the must-keep list. *)
Theorem process_var_init_nodes_packed_halves {A : Type} `{Scalar A}
    (ONNX_TO_NUMPY_DTYPE : Z → option string) (s : state A) (id : string) (l : loc)
    (n : Node A) :
  var_initializers (rnn_props s) !! "ct_ht" = Some id →
  node_by_name s id = Ok (l, n) → type n ≠ "Fill" →
  ∃ s',
    process_var_init_nodes ONNX_TO_NUMPY_DTYPE s = (Ok tt, s') ∧
    heap s' = heap s ++ packed_initial_nodes s id ∧
    output_at s' (1 + length (heap s)) 0
      = Ok (default "" (onnx_input_ids (rnn_props s') !! "initial_h")) ∧
    output_at s' (3 + length (heap s)) 0
      = Ok (default "" (onnx_input_ids (rnn_props s') !! "initial_c")) ∧
    all_nodes s' = all_nodes s ++ [length (heap s); 2 + length (heap s);
                                   1 + length (heap s); 3 + length (heap s)] ∧
    must_keep_nodes s' = must_keep_nodes s ++ [l] ∧ g_nodes s' = g_nodes s.
Proof.
  intros Hvi Hn Hty. eexists. split.
  - unfold process_var_init_nodes. run_step.
    unfold has_key at 1. rewrite bool_decide_eq_true_2 by (by rewrite Hvi).
    erewrite bind_run_ok; [|by eapply non_tuple_plain_run].
    cbv beta iota.
    rewrite !(bool_decide_eq_false_2 (_ = "")) by (by cbn). cbn [negb andb].
    run_step. unfold modify. norm_goal. reflexivity.
  - norm_goal. repeat split.
    + unfold output_at, node_at. norm_goal.
      rewrite lookup_app_r by lia.
      replace (1 + length (heap s) - length (heap s)) with 1 by lia.
      cbn. rewrite lookup_insert_ne by done. by rewrite lookup_insert_eq.
    + unfold output_at, node_at. norm_goal.
      rewrite lookup_app_r by lia.
      replace (3 + length (heap s) - length (heap s)) with 3 by lia.
      cbn. by rewrite lookup_insert_eq.
Qed.

Lemma process_var_init_nodes_packed_halves_witness :
  let s := init_state {["ct_ht" := "init:0"]} [] in
  ∃ s',
    process_var_init_nodes float_dtype s = (Ok tt, s') ∧
    heap s' = heap s ++ packed_initial_nodes s "init:0" ∧
    output_at s' (1 + length (heap s)) 0
      = Ok (default "" (onnx_input_ids (rnn_props s') !! "initial_h")) ∧
    output_at s' (3 + length (heap s)) 0
      = Ok (default "" (onnx_input_ids (rnn_props s') !! "initial_c")) ∧
    all_nodes s' = all_nodes s ++ [length (heap s); 2 + length (heap s);
                                   1 + length (heap s); 3 + length (heap s)] ∧
    must_keep_nodes s' = must_keep_nodes s ++ [0] ∧ g_nodes s' = g_nodes s.
Proof.
  apply (process_var_init_nodes_packed_halves float_dtype
           (init_state {["ct_ht" := "init:0"]} []) "init:0" 0
           (plain_node "init" "Placeholder" []));
    [reflexivity|reflexivity|discriminate].
Defined.

(** X24: an initializer that is neither a Fill nor a constant gets an
    Unsqueeze; every node of the graph's node list that read the
    initializer reads the Unsqueeze instead, while the Unsqueeze itself
    (on [all_nodes], not on the graph's list) keeps reading the
    initializer, which is put on the must-keep list. *)
Theorem process_c_or_h_rewires_graph_consumers {A : Type} `{Scalar A}
    (ONNX_TO_NUMPY_DTYPE : Z → option string) (s : state A) (id : string) (l : loc)
    (n : Node A) :
  node_by_name s id = Ok (l, n) → type n ≠ "Fill" → is_const n = false →
  let new_id := fresh_name "Unsqueeze" (1 + INTERNAL_NAME s) +:+ ":0" in
  id ≠ new_id →
  ∃ s',
    _process_c_or_h_init_nodes ONNX_TO_NUMPY_DTYPE id s = (Ok new_id, s') ∧
    all_nodes s' = all_nodes s ++ [length (heap s)] ∧
    must_keep_nodes s' = must_keep_nodes s ++ [l] ∧
    (∀ (c : loc) (m : Node A), c ∈ g_nodes s → heap s' !! c = Some m → id ∉ input m) ∧
    (∀ (c : loc) (m : Node A), heap s !! c = Some m →
       heap s' !! c = Some (if bool_decide (c ∈ g_nodes s)
                            then replace_input id new_id m else m)) ∧
    (length (heap s) ∉ g_nodes s →
     heap s' !! length (heap s) = Some (unsqueeze_of (1 + INTERNAL_NAME s) id)).
Proof.
  intros Hn Hty Hc new_id Hne. eexists. split; [by eapply c_or_h_plain_run|].
  cbn [heap all_nodes must_keep_nodes]. split; [done|]. split; [done|]. split; [|split].
  - intros c m Hin Hm. by eapply replaced_no_reference.
  - intros c m Hm. by rewrite (replaced_old_node _ _ _ _ _ _ _ Hm).
  - intros Hout. rewrite replaced_lookup, list_lookup_middle by done.
    by rewrite bool_decide_eq_false_2.
Qed.

Lemma process_c_or_h_rewires_graph_consumers_witness :
  let new_id := fresh_name "Unsqueeze" (1 + INTERNAL_NAME tuple_state) +:+ ":0" in
  ∃ s',
    _process_c_or_h_init_nodes float_dtype "init_h:0" tuple_state = (Ok new_id, s') ∧
    all_nodes s' = all_nodes tuple_state ++ [length (heap tuple_state)] ∧
    must_keep_nodes s' = must_keep_nodes tuple_state ++ [0] ∧
    (∀ (c : loc) (m : Node Z),
       c ∈ g_nodes tuple_state → heap s' !! c = Some m → "init_h:0" ∉ input m) ∧
    (∀ (c : loc) (m : Node Z), heap tuple_state !! c = Some m →
       heap s' !! c = Some (if bool_decide (c ∈ g_nodes tuple_state)
                            then replace_input "init_h:0" new_id m else m)) ∧
    (length (heap tuple_state) ∉ g_nodes tuple_state →
     heap s' !! length (heap tuple_state)
       = Some (unsqueeze_of (1 + INTERNAL_NAME tuple_state) "init_h:0")).
Proof.
  apply (process_c_or_h_rewires_graph_consumers float_dtype tuple_state "init_h:0" 0
           (plain_node "init_h" "Placeholder" []));
    [reflexivity|discriminate|reflexivity|vm_compute; discriminate].
Defined.

(** X25: a constant initializer is copied into a new constant with a
    leading axis of extent 1; the original goes on the must-keep list, the
    copy on no list, and no input is rewritten. *)
Theorem process_c_or_h_expands_constant {A : Type} `{Scalar A}
    (ONNX_TO_NUMPY_DTYPE : Z → option string) (s : state A) (id : string) (l : loc)
    (n : Node A) (v : ndarray A) :
  node_by_name s id = Ok (l, n) → is_const n = true → tensor_value n = Some v →
  let new_name := fresh_name "Const" (1 + INTERNAL_NAME s) in
  ∃ s',
    _process_c_or_h_init_nodes ONNX_TO_NUMPY_DTYPE id s = (Ok (new_name +:+ ":0"), s') ∧
    heap s' = heap s ++ [const_node new_name (NdArray (1 :: shape v) (data v))] ∧
    all_nodes s' = all_nodes s ∧ g_nodes s' = g_nodes s ∧
    must_keep_nodes s' = must_keep_nodes s ++ [l].
Proof.
  intros Hn Hc Hv new_name.
  assert (type n ≠ "Fill") as Hty.
  { unfold is_const in Hc. apply bool_decide_eq_true in Hc. by rewrite Hc. }
  eexists. split; [by eapply c_or_h_const_run|done].
Qed.

Lemma process_c_or_h_expands_constant_witness :
  let s := init_state ∅ [] in
  let new_name := fresh_name "Const" (1 + INTERNAL_NAME s) in
  ∃ s',
    _process_c_or_h_init_nodes float_dtype "zero:0" s = (Ok (new_name +:+ ":0"), s') ∧
    heap s' = heap s ++ [const_node new_name (NdArray [1; 1] [0%Z])] ∧
    all_nodes s' = all_nodes s ∧ g_nodes s' = g_nodes s ∧
    must_keep_nodes s' = must_keep_nodes s ++ [2].
Proof.
  apply (process_c_or_h_expands_constant float_dtype (init_state ∅ []) "zero:0" 2
           (const_vec "zero" [0%Z]) (of_vector [0%Z]));
    reflexivity.
Defined.

(** X26: on a Fill initializer that is on the must-keep list the
    workaround takes its first occurrence off the list and makes six
    nodes: the fill value as a constant of shape (1, 1, 1), tiled by the
    int64 cast of the concatenation of 1, the batch-size node's output and
    the hidden size; the Concat, the Cast and the Tile go on [all_nodes],
    the three constants on no list. *)
Theorem fill_workaround_builds_tile {A : Type} `{Scalar A}
    (ONNX_TO_NUMPY_DTYPE : Z → option string) (s : state A) (id : string) (l : loc)
    (n vn : Node A) (kept : list loc) (value fill_val : ndarray A) (t : string)
    (b : loc) (bo : string) :
  node_by_name s id = Ok (l, n) → type n = "Fill" →
  list_remove l (must_keep_nodes s) = Ok kept →
  inputs_at s n 1 = Ok vn →
  get_tensor_value vn = Ok value →
  ndarray_get0 value = Ok fill_val →
  ONNX_TO_NUMPY_DTYPE (dtype vn) = Some t →
  batch_size_node (rnn_props s) = Some b →
  output_at s b 0 = Ok bo →
  ∃ s',
    _workaround_fill_ch_init_node ONNX_TO_NUMPY_DTYPE id s
      = (Ok (Some (5 + length (heap s))), s') ∧
    heap s' = heap s ++ fill_nodes s bo fill_val ∧
    all_nodes s' = all_nodes s ++ [2 + length (heap s); 3 + length (heap s);
                                   5 + length (heap s)] ∧
    must_keep_nodes s' = kept ∧ g_nodes s' = g_nodes s ∧ rnn_props s' = rnn_props s.
Proof.
  intros Hn Hty Hrm Hvn Hval Hfv Ht Hb Hbo.
  eexists. split; [by eapply workaround_fill_run|done].
Qed.

Lemma fill_workaround_builds_tile_witness :
  let s := init_state ∅ [3] in
  ∃ s',
    _workaround_fill_ch_init_node float_dtype "zeros:0" s
      = (Ok (Some (5 + length (heap s))), s') ∧
    heap s' = heap s ++ fill_nodes s "batch:0" (NdArray [] [0%Z]) ∧
    all_nodes s' = all_nodes s ++ [2 + length (heap s); 3 + length (heap s);
                                   5 + length (heap s)] ∧
    must_keep_nodes s' = [] ∧ g_nodes s' = g_nodes s ∧ rnn_props s' = rnn_props s.
Proof.
  apply (fill_workaround_builds_tile float_dtype (init_state ∅ [3]) "zeros:0" 3
           (plain_node "zeros" "Fill" ["dims:0"; "zero:0"]) (const_vec "zero" [0%Z])
           [] (of_vector [0%Z]) (NdArray [] [0%Z]) "float32" 4 "batch:0");
    reflexivity.
Defined.
